(** * Recipe routes of the MERN recipe application

    A shallow embedding of [backend/routes/recipes.js]: its ten handlers,
    written as state-passing functions over the recipe collection, with
    JavaScript exceptions as an error outcome caught by each handler's
    [try { ... } catch].  A handler is modelled from the point where the
    authentication middleware has attached the caller to the request.

    What the handlers call but the routes file does not define (Mongoose's
    queries, id cast and schema validation, [JSON.parse], the Cloudinary
    client) is gathered in the class [Services] and every statement holds
    for all of its instances.

    Two pages that call the routes follow: the edit form
    ([frontend/src/pages/EditRecipe.jsx]) and the hearts and the delete
    dialog of the explore page, each as the state of the component and the
    handlers that write it. *)

From Stdlib Require Import Ascii String Floats.SpecFloat.
From stdpp Require Import gmap strings list sorting pretty.

Open Scope string_scope.
Open Scope list_scope.
Set Warnings "-register-all".

(** ** JavaScript values *)

(** Values found in [req.body] and returned by [JSON.parse].  A string is a
    sequence of code units below 256; a number is an IEEE 754 double. *)
Inductive value : Type :=
  | VUndefined
  | VNull
  | VBool (b : bool)
  | VNum (x : spec_float)
  | VStr (s : string)
  | VArr (elems : list value)
  | VObj (fields : list (string * value)).

(** [Boolean(v)], the test behind [if (v)], [!v] and [filter(Boolean)]. *)
Definition truthy (v : value) : bool :=
  match v with
  | VUndefined | VNull => false
  | VBool b => b
  | VNum (S754_zero _) | VNum S754_nan => false
  | VNum _ => true
  | VStr s => negb (String.eqb s "")
  | VArr _ | VObj _ => true
  end.

(** [req.body]: an object read by key; a missing key reads as [undefined]. *)
Definition get (body : gmap string value) (k : string) : value :=
  default VUndefined (body !! k).

(** ** String primitives *)

(** White space and line terminators removed by [String.prototype.trim],
    among the code units below 256: TAB, LF, VT, FF, CR, SP and NBSP. *)
Definition is_space (c : ascii) : bool :=
  let n := nat_of_ascii c in
  (Nat.leb 9 n && Nat.leb n 13) || Nat.eqb n 32 || Nat.eqb n 160.

Fixpoint trim_start (s : string) : string :=
  match s with
  | String c s' => if is_space c then trim_start s' else s
  | EmptyString => EmptyString
  end.

Definition trim (s : string) : string :=
  String.rev (trim_start (String.rev (trim_start s))).

(** [s.split(sep)] for a one-character separator: never empty. *)
Fixpoint split (sep : ascii) (s : string) : list string :=
  match s with
  | EmptyString => [EmptyString]
  | String c s' =>
      if Ascii.eqb c sep then EmptyString :: split sep s'
      else match split sep s' with
           | w :: ws => String c w :: ws
           | [] => [String c EmptyString]
           end
  end.

(** [recipe.image.split("/").slice(-1)[0].split(".")[0]]: the last path
    segment of the image URL, up to its first dot. *)
Definition publicId (image : string) : string :=
  hd "" (split "." (List.last (split "/" image) "")).

(** The default comparator of [Array.prototype.sort] on strings: code unit
    by code unit, a proper prefix first. *)
Definition key_le (a b : string) : Prop := String.leb a b = true.

#[global] Instance key_le_dec (a b : string) : Decision (key_le a b).
Proof. unfold key_le. apply _. Defined.

(** [arr.findIndex(p)], [-1] when no element satisfies [p]. *)
Fixpoint findIndex {A : Type} (p : A → bool) (l : list A) : Z :=
  match l with
  | [] => (-1)%Z
  | x :: l' =>
      if p x then 0%Z
      else match findIndex p l' with
           | Zneg _ => (-1)%Z
           | i => Z.succ i
           end
  end.

(** [arr.splice(i, 1)] for an index [0 <= i]. *)
Definition splice1 {A : Type} (i : Z) (l : list A) : list A :=
  delete (Z.to_nat i) l.

(** ** Documents *)

(** A Mongo [ObjectId], as the number its twelve bytes spell.  [toString]
    renders it as 24 hexadecimal digits, distinct ids giving distinct
    strings, so comparing the renderings is comparing the ids; [equals]
    compares the bytes. *)
Definition ObjectId : Type := N.

Definition equals (a b : ObjectId) : bool := N.eqb a b.

Module User.
Record t : Type := mk {
  _id : ObjectId;
  username : string;
  email : string;
}.
End User.

Module Recipe.
Record t : Type := mk {
  _id : ObjectId;
  title : value;
  description : value;
  instructions : value;
  category : value;
  cookingTime : value;
  ingredients : list value;
  image : option string;      (* [None]: null *)
  createdBy : ObjectId;
  likedBy : list ObjectId;
}.

Definition set_title (v : value) (r : t) : t :=
  mk (_id r) v (description r) (instructions r) (category r)
     (cookingTime r) (ingredients r) (image r) (createdBy r) (likedBy r).
Definition set_description (v : value) (r : t) : t :=
  mk (_id r) (title r) v (instructions r) (category r)
     (cookingTime r) (ingredients r) (image r) (createdBy r) (likedBy r).
Definition set_instructions (v : value) (r : t) : t :=
  mk (_id r) (title r) (description r) v (category r)
     (cookingTime r) (ingredients r) (image r) (createdBy r) (likedBy r).
Definition set_category (v : value) (r : t) : t :=
  mk (_id r) (title r) (description r) (instructions r) v
     (cookingTime r) (ingredients r) (image r) (createdBy r) (likedBy r).
Definition set_cookingTime (v : value) (r : t) : t :=
  mk (_id r) (title r) (description r) (instructions r) (category r)
     v (ingredients r) (image r) (createdBy r) (likedBy r).
Definition set_ingredients (l : list value) (r : t) : t :=
  mk (_id r) (title r) (description r) (instructions r) (category r)
     (cookingTime r) l (image r) (createdBy r) (likedBy r).
Definition set_image (i : option string) (r : t) : t :=
  mk (_id r) (title r) (description r) (instructions r) (category r)
     (cookingTime r) (ingredients r) i (createdBy r) (likedBy r).
Definition set_likedBy (l : list ObjectId) (r : t) : t :=
  mk (_id r) (title r) (description r) (instructions r) (category r)
     (cookingTime r) (ingredients r) (image r) (createdBy r) l.
End Recipe.

(** [req.file] as left by the upload middleware. *)
Record File : Type := mkFile {
  path : option string;
  secure_url : option string;
}.

(** [a || b] on optional strings, and the truth value of one. *)
Definition or_else (a b : option string) : option string :=
  match a with
  | Some s => if String.eqb s "" then b else a
  | None => b
  end.

Definition nonempty (a : option string) : bool :=
  match a with
  | Some s => negb (String.eqb s "")
  | None => false
  end.

(** ** State, responses and the handler monad *)

(** The two collections, and the public ids the image host was asked to
    destroy and did, latest first. *)
Record State : Type := mkState {
  recipes : gmap ObjectId Recipe.t;
  users : gmap ObjectId User.t;
  destroyed : list string;
}.

Definition set_recipes (m : gmap ObjectId Recipe.t) (st : State) : State :=
  mkState m (users st) (destroyed st).

Inductive Json : Type :=
  | Message (message : string)
  | Created (recipe : Recipe.t)
  | Updated (message : string) (recipe : Recipe.t)
  | Liked (likedByUser : bool) (likes : nat)
  | Detail (recipe : Recipe.t) (creator : option (string * string))
           (likedByUser : bool) (likes : nat)
  | Listing (items : list (Recipe.t * option string * bool * nat))
  | Documents (recipes : list Recipe.t)
  | Favorites (items : list (Recipe.t * option string)).

Record Response : Type := mkResponse {
  status : nat;
  json : Json;
}.

Inductive error : Type :=
  | CastError
  | QueryError
  | ValidationError
  | DuplicateKey
  | TypeError
  | MediaError.

(** A computation that reads and writes the state and either yields a
    value or throws. *)
Definition M (A : Type) : Type := State → (error + A) * State.

#[global] Instance M_ret : MRet M := λ A a st, (inr a, st).

#[global] Instance M_bind : MBind M := λ A B f m st,
  match m st with
  | (inr a, st') => f a st'
  | (inl e, st') => (inl e, st')
  end.

(** [promise.catch(log)]: a rejection is logged and dropped. *)
Definition swallow (m : M unit) : M unit := λ st,
  match m st with
  | (inr a, st') => (inr a, st')
  | (inl _, st') => (inr (), st')
  end.

Definition Handler : Type := State → Response * State.

(** [try { ... } catch (err) { res.status(500).json({ message }) }]. *)
Definition try_catch (m : M Response) (message : string) : Handler := λ st,
  match m st with
  | (inr res, st') => (res, st')
  | (inl _, st') => (mkResponse 500 (Message message), st')
  end.

Definition respond (code : nat) (j : Json) : M Response :=
  mret (mkResponse code j).

(** The filters the routes pass to [Recipe.find]. *)
Inductive Query : Type :=
  | Everything                                  (* [{}] *)
  | ByCategory (category : value)               (* [{ category }] *)
  | ByTitle (q : value)                         (* [{ title: new RegExp(q, "i") }] *)
  | ByCreator (uid : ObjectId)                  (* [{ createdBy }] *)
  | LikedBy (uid : ObjectId) (q : option value).  (* [{ likedBy, ...searchFilter }] *)

(** ** Collaborators *)

(** What the routes call and do not define.
    - [isValid]: [mongoose.Types.ObjectId.isValid] on a request id.
    - [castObjectId]: the cast of a request id to an [ObjectId] made by
      [Recipe.findById]; [None] when the cast fails and the query rejects
      with a [CastError].
    - [find]: [Recipe.find(query)] on the stored recipes, followed by
      [.sort({ createdAt: -1 })] when the flag is set; [None] when
      building the query or running it throws (a text that is no regular
      expression).
    - [JSON_parse]: [JSON.parse] applied to a value (converted to a string
      first, as the builtin does); [None] when it throws.
    - [CLOUDINARY_CONFIG_OK]: whether the three Cloudinary environment
      variables are set.
    - [destroy_resolves]: whether [cloudinary.uploader.destroy(publicId)]
      resolves rather than rejects.
    - [validates]: whether a document passes the schema validation that
      [recipe.save()] runs first (the schema is in [models/Recipe.js]). *)
Class Services : Type := {
  isValid : string → bool;
  castObjectId : string → option ObjectId;
  find : Query → bool → gmap ObjectId Recipe.t → option (list Recipe.t);
  JSON_parse : value → option value;
  CLOUDINARY_CONFIG_OK : bool;
  destroy_resolves : string → bool;
  validates : Recipe.t → bool;
}.

Section Routes.
Context `{W : Services}.

(** [await Recipe.findById(id)]: [null] when no document has the id. *)
Definition findById (id : string) : M (option Recipe.t) := λ st,
  match castObjectId id with
  | Some oid => (inr (recipes st !! oid), st)
  | None => (inl CastError, st)
  end.

(** [.populate("createdBy", "username email")]. *)
Definition populate (r : Recipe.t) : M (option (string * string)) := λ st,
  (inr ((λ u, (User.username u, User.email u)) <$> users st !! Recipe.createdBy r), st).

(** [await recipe.save()]: validate, then insert a new document (its id
    must be free) or overwrite the stored one. *)
Definition save (isNew : bool) (r : Recipe.t) : M unit := λ st,
  if negb (validates r) then (inl ValidationError, st)
  else if isNew && bool_decide (is_Some (recipes st !! Recipe._id r))
  then (inl DuplicateKey, st)
  else (inr (), set_recipes (<[Recipe._id r := r]> (recipes st)) st).

(** [await recipe.deleteOne()]. *)
Definition deleteOne (r : Recipe.t) : M unit := λ st,
  (inr (), set_recipes (base.delete (Recipe._id r) (recipes st)) st).

(** [cloudinary.uploader.destroy(publicId)]. *)
Definition destroy (pid : string) : M unit := λ st,
  if destroy_resolves pid
  then (inr (), mkState (recipes st) (users st) (pid :: destroyed st))
  else (inl MediaError, st).

(** [await Recipe.find(query)], with [.sort({ createdAt: -1 })] or not. *)
Definition findRecipes (query : Query) (newestFirst : bool)
    : M (list Recipe.t) := λ st,
  match find query newestFirst (recipes st) with
  | Some found => (inr found, st)
  | None => (inl QueryError, st)
  end.

(** [.populate("createdBy", "username")] on each document. *)
Definition populateNames (found : list Recipe.t)
    : M (list (Recipe.t * option string)) := λ st,
  (inr ((λ r, (r, User.username <$> users st !! Recipe.createdBy r)) <$> found), st).

(** [req.user ? r.likedBy.some((id) => id.equals(req.user._id)) : false]. *)
Definition likedByUser (user : option User.t) (r : Recipe.t) : bool :=
  match user with
  | Some u => existsb (λ id, equals id (User._id u)) (Recipe.likedBy r)
  | None => false
  end.

(** [recipes.map((r) => ({ ...r.toObject(), likedByUser, likes }))]. *)
Definition recipesWithLike (user : option User.t)
    (found : list (Recipe.t * option string))
    : list (Recipe.t * option string * bool * nat) :=
  (λ '(r, creator), (r, creator, likedByUser user r, length (Recipe.likedBy r)))
    <$> found.

(** ** GET /, GET /search/query, GET /latest, GET /my, GET /favorites *)

Definition listRecipes (user : option User.t) (category : value) : Handler :=
  try_catch
    (let query := if truthy category then ByCategory category else Everything in
     found ← findRecipes query true;
     found ← populateNames found;
     respond 200 (Listing (recipesWithLike user found)))
    "Server error".

Definition searchRecipes (user : option User.t) (q : value) : Handler :=
  try_catch
    (found ← findRecipes (ByTitle q) false;
     found ← populateNames found;
     respond 200 (Listing (recipesWithLike user found)))
    "Server error".

Definition latestRecipes (user : option User.t) : Handler :=
  try_catch
    (found ← findRecipes Everything true;
     found ← populateNames (take 3 found);
     respond 200 (Listing (recipesWithLike user found)))
    "Server error".

Definition myRecipes (user : User.t) : Handler :=
  try_catch
    (found ← findRecipes (ByCreator (User._id user)) true;
     respond 200 (Documents found))
    "Server error".

Definition favoriteRecipes (user : User.t) (q : value) : Handler :=
  try_catch
    (let searchFilter := if truthy q then Some q else None in
     found ← findRecipes (LikedBy (User._id user) searchFilter) true;
     found ← populateNames found;
     respond 200 (Favorites found))
    "Failed to fetch liked recipes".

(** ** GET /:id *)

Definition getRecipe (user : option User.t) (id : string) : Handler :=
  try_catch
    (if negb (isValid id) then respond 400 (Message "Invalid ID")
     else
       found ← findById id;
       match found with
       | None => respond 404 (Message "Recipe not found")
       | Some recipe =>
           creator ← populate recipe;
           respond 200 (Detail recipe creator (likedByUser user recipe)
                               (length (Recipe.likedBy recipe)))
       end)
    "Server error".

(** ** POST /:id/like *)

Definition likeRecipe (user : User.t) (id : string) : Handler :=
  try_catch
    (found ← findById id;
     match found with
     | None => respond 404 (Message "Recipe not found")
     | Some recipe =>
         let userId := User._id user in
         let likedIndex := findIndex (λ id, equals id userId) (Recipe.likedBy recipe) in
         let recipe :=
           if Z.eqb likedIndex (-1)
           then Recipe.set_likedBy (Recipe.likedBy recipe ++ [userId]) recipe
           else Recipe.set_likedBy (splice1 likedIndex (Recipe.likedBy recipe)) recipe in
         _ ← save false recipe;
         respond 200 (Liked (Z.eqb likedIndex (-1)) (length (Recipe.likedBy recipe)))
     end)
    "Server error".

(** ** Ingredient parsing *)

(** [Object.keys(req.body).filter((k) => k.startsWith("ingredients["))
      .sort().map((k) => req.body[k])]. *)
Definition indexedIngredients (body : gmap string value) : list value :=
  get body <$>
    merge_sort key_le
      (filter (λ k, String.prefix "ingredients[" k = true) (fst <$> map_to_list body)).

(** Lines 227-245 of the create handler. *)
Definition createIngredientsArray (body : gmap string value) : list value :=
  let ingredients := get body "ingredients" in
  if truthy ingredients then
    match JSON_parse ingredients with
    | Some (VArr parsed) => parsed
    | Some _ => [ingredients]
    | None =>
        match ingredients with
        | VArr elems => elems
        | _ => [ingredients]
        end
    end
  else indexedIngredients body.

(** Lines 293-303 of the update handler. *)
Definition updateIngredientsArray (body : gmap string value) : list value :=
  let ingredients := get body "ingredients" in
  if truthy ingredients then
    match ingredients with
    | VArr elems => elems
    | _ => [ingredients]
    end
  else indexedIngredients body.

(** [ingredientsArray.filter(Boolean)]. *)
Definition filterBoolean (l : list value) : list value :=
  List.filter truthy l.

(** [ingredientsArray.filter((i) => i.trim() !== "")]: [i.trim] is a
    function on strings only; on another value the call throws a
    [TypeError] ([null] and [undefined] have no properties, the others no
    [trim]). *)
Fixpoint filterTrim (l : list value) : error + list value :=
  match l with
  | [] => inr []
  | VStr s :: l' =>
      match filterTrim l' with
      | inr kept => inr (if String.eqb (trim s) "" then kept else VStr s :: kept)
      | inl e => inl e
      end
  | _ :: _ => inl TypeError
  end.

Definition lift {A : Type} (x : error + A) : M A := λ st, (x, st).

(** ** POST / *)

(** [newId] is the id Mongoose gives the new document; [likedBy] is not
    passed to [new Recipe] and starts as the empty array. *)
Definition createRecipe (user : User.t) (newId : ObjectId)
    (file : option File) (body : gmap string value) : Handler :=
  try_catch
    (let title := get body "title" in
     let description := get body "description" in
     let instructions := get body "instructions" in
     let category := get body "category" in
     let cookingTime := get body "cookingTime" in
     let ingredientsArray := createIngredientsArray body in
     if negb (truthy title) || negb (truthy instructions)
        || negb (truthy category) || Nat.eqb (length ingredientsArray) 0
     then respond 400 (Message
            "Missing required fields: title, ingredients, instructions, category")
     else
       let imageUrl :=
         match file with
         | Some f => or_else (path f) (secure_url f)
         | None => None
         end in
       let recipe :=
         Recipe.mk newId title description instructions category cookingTime
                   (filterBoolean ingredientsArray) imageUrl (User._id user) [] in
       _ ← save true recipe;
       respond 201 (Created recipe))
    "Server error".

(** ** Ownership check of PUT /:id and DELETE /:id *)

Definition isAdmin (user : User.t) : bool :=
  String.eqb (User.email user) "admin@gmail.com".

Definition isOwner (recipe : Recipe.t) (user : User.t) : bool :=
  equals (Recipe.createdBy recipe) (User._id user).

(** [if (recipe.image && CLOUDINARY_CONFIG_OK) { ... destroy(publicId) }],
    the rejection dropped when [caught]. *)
Definition destroyImage (caught : bool) (recipe : Recipe.t) : M unit :=
  if nonempty (Recipe.image recipe) && CLOUDINARY_CONFIG_OK
  then
    let call := destroy (publicId (default "" (Recipe.image recipe))) in
    if caught then swallow call else call
  else mret ().

(** ** PUT /:id *)

(** Lines 308-327: the image of the document after the request. *)
Definition handleImage (file : option File) (body : gmap string value)
    (recipe : Recipe.t) : M Recipe.t :=
  match file with
  | Some f =>
      let newImageUrl := or_else (path f) (secure_url f) in
      if nonempty newImageUrl then
        _ ← destroyImage true recipe;
        mret (Recipe.set_image newImageUrl recipe)
      else mret recipe
  | None =>
      match get body "clearImage" with
      | VStr "true" =>
          _ ← destroyImage false recipe;
          mret (Recipe.set_image (Some "") recipe)
      | _ => mret recipe
      end
  end.

(** Lines 330-334: [if (req.body.f) recipe.f = req.body.f]. *)
Definition assign (set : value → Recipe.t → Recipe.t) (v : value)
    (recipe : Recipe.t) : Recipe.t :=
  if truthy v then set v recipe else recipe.

Definition updateFields (body : gmap string value) (recipe : Recipe.t) : Recipe.t :=
  assign Recipe.set_cookingTime (get body "cookingTime")
    (assign Recipe.set_category (get body "category")
      (assign Recipe.set_instructions (get body "instructions")
        (assign Recipe.set_description (get body "description")
          (assign Recipe.set_title (get body "title") recipe)))).

(** Lines 336-338. *)
Definition updateIngredients (ingredientsArray : list value)
    (recipe : Recipe.t) : M Recipe.t :=
  if Nat.ltb 0 (length ingredientsArray) then
    kept ← lift (filterTrim ingredientsArray);
    mret (Recipe.set_ingredients kept recipe)
  else mret recipe.

Definition updateRecipe (user : User.t) (id : string)
    (file : option File) (body : gmap string value) : Handler :=
  try_catch
    (found ← findById id;
     match found with
     | None => respond 404 (Message "Recipe not found")
     | Some recipe =>
         if negb (isAdmin user) && negb (isOwner recipe user)
         then respond 401 (Message "Not authorized")
         else
           let ingredientsArray := updateIngredientsArray body in
           recipe ← handleImage file body recipe;
           let recipe := updateFields body recipe in
           recipe ← updateIngredients ingredientsArray recipe;
           _ ← save false recipe;
           respond 200 (Updated "Recipe updated successfully" recipe)
     end)
    "Server error".

(** ** DELETE /:id *)

Definition deleteRecipe (user : User.t) (id : string) : Handler :=
  try_catch
    (found ← findById id;
     match found with
     | None => respond 404 (Message "Recipe not found")
     | Some recipe =>
         if negb (isAdmin user) && negb (isOwner recipe user)
         then respond 401 (Message "Not authorized")
         else
           _ ← destroyImage false recipe;
           _ ← deleteOne recipe;
           respond 200 (Message "Recipe deleted")
     end)
    "Server error".

End Routes.

(** ** Requests and runs *)

Inductive Request : Type :=
  | ListRecipes (viewer : option User.t) (category : value)
  | SearchRecipes (viewer : option User.t) (q : value)
  | LatestRecipes (viewer : option User.t)
  | MyRecipes (user : User.t)
  | FavoriteRecipes (user : User.t) (q : value)
  | GetRecipe (viewer : option User.t) (id : string)
  | LikeRecipe (user : User.t) (id : string)
  | CreateRecipe (user : User.t) (newId : ObjectId)
                 (file : option File) (body : gmap string value)
  | UpdateRecipe (user : User.t) (id : string)
                 (file : option File) (body : gmap string value)
  | DeleteRecipe (user : User.t) (id : string).

Definition handle `{W : Services} (req : Request) : Handler :=
  match req with
  | ListRecipes viewer category => listRecipes viewer category
  | SearchRecipes viewer q => searchRecipes viewer q
  | LatestRecipes viewer => latestRecipes viewer
  | MyRecipes user => myRecipes user
  | FavoriteRecipes user q => favoriteRecipes user q
  | GetRecipe viewer id => getRecipe viewer id
  | LikeRecipe user id => likeRecipe user id
  | CreateRecipe user newId file body => createRecipe user newId file body
  | UpdateRecipe user id file body => updateRecipe user id file body
  | DeleteRecipe user id => deleteRecipe user id
  end.

(** The state after serving the requests one after the other. *)
Definition serve `{W : Services} (reqs : list Request) (st : State) : State :=
  foldl (λ st req, (handle req st).2) st reqs.

(** Every recipe is stored under its own id. *)
Definition keyed_by_id (st : State) : Prop :=
  ∀ oid recipe, recipes st !! oid = Some recipe → Recipe._id recipe = oid.

(** No stored recipe lists a user twice among its likers. *)
Definition likes_unique (st : State) : Prop :=
  ∀ oid recipe, recipes st !! oid = Some recipe → NoDup (Recipe.likedBy recipe).

(** The array after lines 202-208 of the handler. *)
Definition toggled (uid : ObjectId) (likedBy : list ObjectId) : list ObjectId :=
  let likedIndex := findIndex (λ x, equals x uid) likedBy in
  if Z.eqb likedIndex (-1) then likedBy ++ [uid] else splice1 likedIndex likedBy.

(** Every response [m] returns carries [code]. *)
Definition answers (m : M Response) (code : nat) : Prop :=
  ∀ st res st', m st = (inr res, st') → status res = code.

(** A blank entry: a string that trims to the empty string. *)
Definition blank (v : value) : Prop := ∃ s, v = VStr s ∧ trim s = "".

(** No key of the indexed form [ingredients[...]]. *)
Definition no_indexed_keys (body : gmap string value) : Prop :=
  ∀ k, String.prefix "ingredients[" k = true → body !! k = None.

(** ** A sample instance of the collaborators *)

Definition hex_digit (c : ascii) : option N :=
  let n := N_of_ascii c in
  if (48 <=? n)%N && (n <=? 57)%N then Some (n - 48)%N
  else if (97 <=? n)%N && (n <=? 102)%N then Some (n - 87)%N
  else if (65 <=? n)%N && (n <=? 70)%N then Some (n - 55)%N
  else None.

Fixpoint hex_value (acc : N) (s : string) : option N :=
  match s with
  | EmptyString => Some acc
  | String c s' =>
      match hex_digit c with
      | Some d => hex_value (16 * acc + d)%N s'
      | None => None
      end
  end.

(** The cast of a string of 24 hexadecimal digits. *)
Definition hexObjectId (id : string) : option ObjectId :=
  if Nat.eqb (String.length id) 24 then hex_value 0 id else None.

(** The double quote character. *)
Definition quote : ascii := ascii_of_nat 34.

(** The characters of a string literal up to its closing quote, and what
    follows it; no escapes and no control characters. *)
Fixpoint string_literal (s : string) : option (string * string) :=
  match s with
  | EmptyString => None
  | String c s' =>
      if Ascii.eqb c quote then Some (EmptyString, s')
      else if Ascii.eqb c "\"%char || Nat.ltb (nat_of_ascii c) 32 then None
      else match string_literal s' with
           | Some (w, rest) => Some (String c w, rest)
           | None => None
           end
  end.

(** The literals of ["x","y",...] after the opening bracket. *)
Fixpoint string_elements (fuel : nat) (s : string) : option (list value) :=
  match fuel, s with
  | S fuel', String q s' =>
      if Ascii.eqb q quote then
        match string_literal s' with
        | Some (w, String c rest) =>
            if Ascii.eqb c "]"%char then
              match rest with EmptyString => Some [VStr w] | _ => None end
            else if Ascii.eqb c ","%char then
              match string_elements fuel' rest with
              | Some ws => Some (VStr w :: ws)
              | None => None
              end
            else None
        | _ => None
        end
      else None
  | _, _ => None
  end.

(** [JSON.parse] on the texts that spell an array of plain string
    literals, [[]] included; this instance reads every other argument as
    a syntax error. *)
Definition parseStringArray (v : value) : option value :=
  match v with
  | VStr (String "[" (String "]" EmptyString)) => Some (VArr [])
  | VStr (String "[" s) => VArr <$> string_elements (String.length s) s
  | _ => None
  end.

(** A query engine: the stored recipes in the order of their ids, sorted
    or not, a title filter matching every title. *)
Definition matching (query : Query) (newestFirst : bool)
    (stored : gmap ObjectId Recipe.t) : option (list Recipe.t) :=
  let all := snd <$> map_to_list stored in
  Some match query with
       | Everything | ByTitle _ => all
       | ByCategory c =>
           List.filter (λ r, match c, Recipe.category r with
                             | VStr a, VStr b => String.eqb a b
                             | _, _ => false
                             end) all
       | ByCreator uid =>
           List.filter (λ r, equals (Recipe.createdBy r) uid) all
       | LikedBy uid _ =>
           List.filter (λ r, existsb (equals uid) (Recipe.likedBy r)) all
       end.

(** Image host configured and reachable, every document valid. *)
Definition sample : Services := {|
  isValid := λ id, bool_decide (is_Some (hexObjectId id));
  castObjectId := hexObjectId;
  find := matching;
  JSON_parse := parseStringArray;
  CLOUDINARY_CONFIG_OK := true;
  destroy_resolves := λ _, true;
  validates := λ _, true;
|}.

(** The same with an image host that rejects every deletion. *)
Definition sample_media_down : Services := {|
  isValid := λ id, bool_decide (is_Some (hexObjectId id));
  castObjectId := hexObjectId;
  find := matching;
  JSON_parse := parseStringArray;
  CLOUDINARY_CONFIG_OK := true;
  destroy_resolves := λ _, false;
  validates := λ _, true;
|}.

(** The unsigned integers of JSON: decimal digits, no leading zero. *)
Fixpoint digits (acc : N) (s : string) : option N :=
  match s with
  | EmptyString => Some acc
  | String c s' =>
      match Ascii.is_nat c with
      | Some d => digits (10 * acc + N.of_nat d) s'
      | None => None
      end
  end.

Definition integer (s : string) : option N :=
  match s with
  | EmptyString => None
  | String "0" (String _ _) => None
  | _ => digits 0 s
  end.

Definition number (n : N) : spec_float :=
  match n with
  | N0 => S754_zero false
  | Npos p => S754_finite false p 0
  end.

(** [JSON.parse] converts its argument to text first, and the text of an
    array of one string is that string.  This instance reads such an
    array, and a string, through that text: an unsigned integer as a
    number, and what [parseStringArray] reads; every other argument as a
    syntax error. *)
Definition parseThroughText (v : value) : option value :=
  let parseText (s : string) :=
    match integer s with
    | Some n => Some (VNum (number n))
    | None => parseStringArray (VStr s)
    end in
  match v with
  | VStr s => parseText s
  | VArr [VStr s] => parseText s
  | _ => None
  end.

(** [sample] with this parser. *)
Definition sample_through_text : Services := {|
  isValid := λ id, bool_decide (is_Some (hexObjectId id));
  castObjectId := hexObjectId;
  find := matching;
  JSON_parse := parseThroughText;
  CLOUDINARY_CONFIG_OK := true;
  destroy_resolves := λ _, true;
  validates := λ _, true;
|}.

(** ** Sample documents *)

Definition alice : User.t := User.mk 1%N "alice" "alice@example.com".
Definition bob : User.t := User.mk 2%N "bob" "bob@example.com".
Definition admin : User.t := User.mk 3%N "root" "admin@gmail.com".

Definition pasta_id : string := "00000000000000000000000a".

(** Alice's recipe, stored under the id [pasta_id] spells. *)
Definition pasta : Recipe.t :=
  Recipe.mk 10%N (VStr "Pasta") VUndefined (VStr "Boil.") (VStr "Dinner")
            VUndefined [VStr "pasta"; VStr "salt"]
            (Some "https://img.example/Recipedia-Images/recipe-17.jpg")
            1%N [].

Definition kitchen : State :=
  mkState {[ 10%N := pasta ]}
          (list_to_map [(1%N, alice); (2%N, bob); (3%N, admin)]) [].

(** Request bodies. *)

(** [ingredients] present and holding the empty string. *)
Definition empty_text_body : gmap string value :=
  {[ "ingredients" := VStr "" ]}.

(** [ingredients] holding an array of blank strings. *)
Definition blank_array_body : gmap string value :=
  {[ "ingredients" := VArr [VStr ""; VStr "  "] ]}.

Definition clear_image_body : gmap string value :=
  {[ "clearImage" := VStr "true" ]}.

(** Every required field, and one ingredient that is the empty string. *)
Definition blank_submission : gmap string value :=
  list_to_map
    [("title", VStr "Pasta"); ("instructions", VStr "Boil.");
     ("category", VStr "Dinner"); ("ingredients[0]", VStr "")].

(** What that submission is stored as, for a creator and a new id. *)
Definition blank_recipe (creator : User.t) (newId : ObjectId) : Recipe.t :=
  Recipe.mk newId (VStr "Pasta") VUndefined (VStr "Boil.") (VStr "Dinner")
            VUndefined [] None (User._id creator) [].

(** One ingredient under an indexed key, made of a space. *)
Definition space_indexed_body : gmap string value :=
  {[ "ingredients[0]" := VStr " " ]}.

(** The JSON text of the array of the strings a and b. *)
Definition quoted (s : string) : string :=
  String quote (s +:+ String quote "").

Definition json_ab : string :=
  "[" +:+ quoted "a" +:+ "," +:+ quoted "b" +:+ "]".

Definition json_text_body (text : string) : gmap string value :=
  {[ "ingredients" := VStr text ]}.

(** A new image for a recipe. *)
Definition new_image : File :=
  mkFile (Some "https://img.example/Recipedia-Images/recipe-18.png") None.

(** Bob's recipe, without an image, liked by Alice and by the admin, and
    a collection holding both recipes. *)
Definition soup_id : string := "00000000000000000000000b".

Definition soup : Recipe.t :=
  Recipe.mk 11%N (VStr "Soup") (VStr "Warm.") (VStr "Simmer.") (VStr "Lunch")
            (VStr "30") [VStr "water"; VStr "leek"] None 2%N [1%N; 3%N].

Definition pantry : State :=
  mkState (<[11%N := soup]> {[ 10%N := pasta ]})
          (list_to_map [(1%N, alice); (2%N, bob); (3%N, admin)]) [].

(** A free id and the text that spells it. *)
Definition fresh_id : string := "00000000000000000000000c".


(** An update of the title alone. *)
Definition retitle_body : gmap string value :=
  {[ "title" := VStr "Pasta al dente" ]}.

(** An update whose ingredients hold a number. *)
Definition number_ingredient_body : gmap string value :=
  {[ "ingredients" := VArr [VStr "salt"; VNum (S754_finite false 3 0)] ]}.

(** Every required field, and the one ingredient 1 as an array of one
    entry. *)
Definition numeral_submission : gmap string value :=
  list_to_map
    [("title", VStr "Rice"); ("instructions", VStr "Steam.");
     ("category", VStr "Dinner"); ("ingredients", VArr [VStr "1"])].

(** An update that clears the image and whose ingredients hold a number. *)
Definition clear_then_fail_body : gmap string value :=
  list_to_map
    [("clearImage", VStr "true");
     ("ingredients", VArr [VStr "salt"; VNum (S754_finite false 3 0)])].

(** ** Notions used in the further properties *)

(** The image of a recipe was destroyed at the host between two states. *)
Definition destroyed_image `{W : Services} (recipe : Recipe.t) (st st' : State)
    : Prop :=
  CLOUDINARY_CONFIG_OK = true
  ∧ ∃ url, Recipe.image recipe = Some url ∧ url ≠ ""
      ∧ destroy_resolves (publicId url) = true
      ∧ destroyed st' = publicId url :: destroyed st.

(** What a listing shows of one recipe to a viewer. *)
Definition shown (viewer : option User.t) (st : State)
    (item : Recipe.t * option string * bool * nat) : Prop :=
  let '(recipe, creator, liked, likes) := item in
  creator = User.username <$> users st !! Recipe.createdBy recipe
  ∧ likes = length (Recipe.likedBy recipe)
  ∧ liked = match viewer with
            | Some u => bool_decide (User._id u ∈ Recipe.likedBy recipe)
            | None => false
            end.

(** [s.includes(c)] for a one-character [c]. *)
Fixpoint includes (c : ascii) (s : string) : bool :=
  match s with
  | EmptyString => false
  | String a s' => Ascii.eqb a c || includes c s'
  end.

(** Only white space, if anything. *)
Fixpoint all_space (s : string) : bool :=
  match s with
  | EmptyString => true
  | String c s' => is_space c && all_space s'
  end.

(** The key a form gives the ingredient of index [i]. *)
Definition index_key (i : nat) : string :=
  "ingredients[" +:+ pretty i +:+ "]".

(** An update of the ingredients: one with spaces around it, one of
    spaces only, one plain. *)
Definition spaced_texts : list string := [" salt "; "  "; "oil"].

Definition spaced_array_body : gmap string value :=
  {[ "ingredients" := VArr (VStr <$> spaced_texts) ]}.

(** Three ingredients under indexed keys, beside a title. *)
Definition three_indexed_body : gmap string value :=
  list_to_map
    [("ingredients[2]", VStr "oil"); ("title", VStr "Stew");
     ("ingredients[0]", VStr "beans"); ("ingredients[1]", VStr "salt")].

Definition three_items : list value := [VStr "beans"; VStr "salt"; VStr "oil"].

(** * The edit page *)

(** [frontend/src/pages/EditRecipe.jsx]: the state of the component and
    its event handlers, each a function of the state the page shows when
    the event fires.  A handler that throws leaves the state as it was. *)

Definition Throws (A : Type) : Type := error + A.

Module EditRecipe.

(** An element of a JavaScript array: a hole, left by an assignment past
    the end, or a value.  [filter] and [forEach] skip the holes, a spread
    and a read by index give [undefined] for them. *)
Inductive slot : Type :=
  | Hole
  | Elem (v : value).

(** A file chosen in the browser, by its name. *)
Definition Blob : Type := string.

Record FormData : Type := mkFormData {
  title : value;
  ingredients : list slot;
  instructions : value;
  category : value;
  photoUrl : string;
  imageFile : option Blob;      (* [None]: null *)
  cookingTime : value;
  initialImageUrlWasPresent : bool;
}.

Record Modal : Type := mkModal {
  open : bool;
  message : string;
  success : bool;
}.

Record Page : Type := mkPage {
  formData : FormData;
  error : string;
  loading : bool;
  modal : Modal;
}.

Definition initial : Page :=
  mkPage (mkFormData (VStr "") [Elem (VStr "")] (VStr "") (VStr "") "" None
                     (VStr "") false)
         "" false (mkModal false "" false).

Definition setFormData (f : FormData → FormData) (p : Page) : Page :=
  mkPage (f (formData p)) (error p) (loading p) (modal p).

Definition setError (e : string) (p : Page) : Page :=
  mkPage (formData p) e (loading p) (modal p).

Definition setLoading (b : bool) (p : Page) : Page :=
  mkPage (formData p) (error p) b (modal p).

Definition setModal (m : Modal) (p : Page) : Page :=
  mkPage (formData p) (error p) (loading p) m.

(** The calls of [handleInputChange(field, value)] the page makes: the
    text of one of four inputs, or the ingredient rows. *)
Inductive Change : Type :=
  | Title (v : string)
  | Instructions (v : string)
  | Category (v : string)
  | CookingTime (v : string)
  | Ingredients (rows : list slot).

(** [setFormData((prev) => ({ ...prev, [field]: value }))]. *)
Definition handleInputChange (c : Change) : Page → Page :=
  setFormData (λ prev,
    match c with
    | Title v =>
        mkFormData (VStr v) (ingredients prev) (instructions prev) (category prev)
                   (photoUrl prev) (imageFile prev) (cookingTime prev)
                   (initialImageUrlWasPresent prev)
    | Instructions v =>
        mkFormData (title prev) (ingredients prev) (VStr v) (category prev)
                   (photoUrl prev) (imageFile prev) (cookingTime prev)
                   (initialImageUrlWasPresent prev)
    | Category v =>
        mkFormData (title prev) (ingredients prev) (instructions prev) (VStr v)
                   (photoUrl prev) (imageFile prev) (cookingTime prev)
                   (initialImageUrlWasPresent prev)
    | CookingTime v =>
        mkFormData (title prev) (ingredients prev) (instructions prev) (category prev)
                   (photoUrl prev) (imageFile prev) (VStr v)
                   (initialImageUrlWasPresent prev)
    | Ingredients rows =>
        mkFormData (title prev) rows (instructions prev) (category prev)
                   (photoUrl prev) (imageFile prev) (cookingTime prev)
                   (initialImageUrlWasPresent prev)
    end).

(** [handleFileChange]: [file] is [e.target.files?.[0]], [url] what
    [URL.createObjectURL(file)] returns.  Here and in [handleClearImage]
    the preview URL is revoked first, inside a [try] with an empty
    [catch]; that does not touch the state. *)
Definition handleFileChange (file : option Blob) (url : string) (p : Page) : Page :=
  match file with
  | Some f =>
      setFormData (λ prev,
        mkFormData (title prev) (ingredients prev) (instructions prev)
                   (category prev) url (Some f) (cookingTime prev)
                   (initialImageUrlWasPresent prev)) p
  | None => p
  end.

Definition handleClearImage : Page → Page :=
  setFormData (λ prev,
    mkFormData (title prev) (ingredients prev) (instructions prev)
               (category prev) "" None (cookingTime prev)
               (initialImageUrlWasPresent prev)).

(** [[...rows]]: a hole is copied as [undefined]. *)
Definition spread (rows : list slot) : list slot :=
  (λ s, match s with Hole => Elem VUndefined | Elem v => Elem v end) <$> rows.

(** [rows[index] = v] for an index [0 <= index]: past the end the array
    grows, with holes up to the index. *)
Definition assign (index : nat) (v : value) (rows : list slot) : list slot :=
  if decide (index < length rows)%nat then <[index := Elem v]> rows
  else rows ++ replicate (index - length rows) Hole ++ [Elem v].

(** [rows[i]] for an integer [i]: [undefined] out of the array and on a
    hole. *)
Definition at_index (rows : list slot) (i : Z) : value :=
  if decide (i < 0)%Z then VUndefined
  else match rows !! Z.to_nat i with
       | Some (Elem v) => v
       | Some Hole | None => VUndefined
       end.

(** [v.trim()]: only a string has the method. *)
Definition trimmed (v : value) : Throws string :=
  match v with
  | VStr s => inr (trim s)
  | _ => inl TypeError
  end.

(** The [value] is the text of the input of row [index]. *)
Definition handleIngredientChange (index : nat) (v : string) (p : Page) : Page :=
  let newIngredients := assign index (VStr v) (spread (ingredients (formData p))) in
  let p' := handleInputChange (Ingredients newIngredients) p in
  if negb (String.eqb (error p) "") && negb (String.eqb (trim v) "")
  then setError "" p' else p'.

Definition addIngredient (p : Page) : Throws Page :=
  let rows := ingredients (formData p) in
  let last := at_index rows (Z.of_nat (length rows) - 1) in
  match trimmed last with
  | inl e => inl e
  | inr t =>
      inr (if negb (String.eqb t "")
           then handleInputChange
                  (Ingredients (spread rows ++ [Elem (VStr "")])) (setError "" p)
           else setError "Please fill in the last ingredient before adding a new one." p)
  end.

(** [rows.filter((_, i) => i !== index)], the rows counted from [i]. *)
Fixpoint without (index i : nat) (rows : list slot) : list slot :=
  match rows with
  | [] => []
  | Hole :: rows' => without index (S i) rows'
  | Elem v :: rows' =>
      if Nat.eqb i index then without index (S i) rows'
      else Elem v :: without index (S i) rows'
  end.

Definition removeIngredient (index : nat) (p : Page) : Page :=
  let rows := ingredients (formData p) in
  if Nat.ltb 1 (length rows)
  then handleInputChange (Ingredients (without index 0 rows)) p
  else p.

(** The elements a [filter] or a [forEach] visits. *)
Definition present (rows : list slot) : list value :=
  omap (λ s, match s with Elem v => Some v | Hole => None end) rows.

(** A part of a [FormData] body, as given to [append]. *)
Inductive Part : Type :=
  | Field (v : value)
  | Upload (f : Blob).

Definition imagePart (f : FormData) : list (string * Part) :=
  match imageFile f with
  | Some file => [("image", Upload file)]
  | None =>
      if String.eqb (photoUrl f) "" && initialImageUrlWasPresent f
      then [("clearImage", Field (VStr "true"))]
      else []
  end.

Section Submit.
(** [Number(v)]. *)
Variable Number : value → spec_float.

(** The body [handleSubmit] builds (lines 128-143). *)
Definition body (f : FormData) : Throws (list (string * Part)) :=
  match filterTrim (present (ingredients f)) with
  | inl e => inl e
  | inr kept =>
      inr ([("title", Field (title f));
            ("instructions", Field (instructions f));
            ("category", Field (category f));
            ("cookingTime",
             Field (if truthy (cookingTime f) then VNum (Number (cookingTime f))
                    else VStr ""))]
           ++ ((λ ing, ("ingredients[]", Field ing)) <$> kept)
           ++ imagePart f)
  end.

(** [handleSubmit] up to the request: the state the page is left in, and
    the body sent, unless building it threw. *)
Definition handleSubmit (p : Page) : Page * Throws (list (string * Part)) :=
  let p' := setLoading true (setError "" p) in
  (p', body (formData p')).

End Submit.

(** How the request ends: fulfilled, or rejected with what
    [err.response?.data?.message] reads. *)
Inductive Reply : Type :=
  | Fulfilled
  | Rejected (message : option string).

(** [handleSubmit] from the end of the request on. *)
Definition settle (r : Reply) (p : Page) : Page :=
  setLoading false
    (setModal
       match r with
       | Fulfilled => mkModal true "Recipe updated successfully" true
       | Rejected (Some m) =>
           mkModal true
             (if String.eqb m ""
              then "Recipe update failed due to a network or server error."
              else m) false
       | Rejected None =>
           mkModal true "Recipe update failed due to a network or server error." false
       end p).

(** [fetchRecipe] once [GET /:id] has answered: with the recipe of the
    answer, or with nothing when the request failed. *)
Definition fetchRecipe (data : option Recipe.t) (p : Page) : Page :=
  match data with
  | Some recipe =>
      let imageUrl := default "" (Recipe.image recipe) in
      let or_empty (v : value) := if truthy v then v else VStr "" in
      setFormData (λ prev,
        mkFormData (or_empty (Recipe.title recipe))
                   (match Recipe.ingredients recipe with
                    | [] => [Elem (VStr "")]
                    | l => Elem <$> l
                    end)
                   (or_empty (Recipe.instructions recipe))
                   (or_empty (Recipe.category recipe))
                   imageUrl None
                   (or_empty (Recipe.cookingTime recipe))
                   (negb (String.eqb imageUrl ""))) p
  | None => setError "Failed to load recipe data." p
  end.

(** What the user does on the page between the load and the submit: a
    text typed in one of the four inputs or in an ingredient row, a row
    added or removed, a file chosen, the file dialog dismissed, the image
    cleared. *)
Inductive Event : Type :=
  | Typed (c : Change)
  | RowTyped (index : nat) (v : string)
  | RowAdded
  | RowRemoved (index : nat)
  | Chosen (file : Blob) (url : string)
  | Dismissed
  | Cleared.

Definition on (e : Event) (p : Page) : Page :=
  match e with
  | Typed c => handleInputChange c p
  | RowTyped index v => handleIngredientChange index v p
  | RowAdded => match addIngredient p with inr p' => p' | inl _ => p end
  | RowRemoved index => removeIngredient index p
  | Chosen file url => handleFileChange (Some file) url p
  | Dismissed => handleFileChange None "" p
  | Cleared => handleClearImage p
  end.

End EditRecipe.

(** The rows of the form when each holds a text. *)
Definition rows_of (texts : list string) : list EditRecipe.slot :=
  (λ t, EditRecipe.Elem (VStr t)) <$> texts.

(** What a sequence of events has decided for the image: nothing, a new
    file, or its removal.  The last file chosen or image cleared decides. *)
Inductive ImageChoice : Type :=
  | Kept
  | NewFile (file : EditRecipe.Blob)
  | Removed.

Fixpoint image_choice (events : list EditRecipe.Event) : ImageChoice :=
  match events with
  | [] => Kept
  | e :: events' =>
      match image_choice events' with
      | Kept =>
          match e with
          | EditRecipe.Chosen file _ => NewFile file
          | EditRecipe.Cleared => Removed
          | _ => Kept
          end
      | decided => decided
      end
  end.

(** The form as loaded with the sample recipe. *)
Definition pasta_form : EditRecipe.Page :=
  EditRecipe.fetchRecipe (Some pasta) EditRecipe.initial.

(** The form as loaded with a recipe one ingredient of which is a number. *)
Definition numbered_form : EditRecipe.Page :=
  EditRecipe.fetchRecipe
    (Some (Recipe.set_ingredients [VStr "salt"; VNum (S754_finite false 3 0)] pasta))
    EditRecipe.initial.

(** * The explore page *)

(** The [Explore] component, the part of its state behind the hearts and
    the delete dialog: [likesState], the set [pendingToggles],
    [showLoginPrompt] and [recipeToDelete], with the handlers that write
    them.  [handleHeartClick] waits for the server in its middle: it is
    cut in two, what runs at the click and what runs when the requests
    have ended. *)

Module Explore.

(** An entry of [likesState]; the count is an integer. *)
Record Reading : Type := mkReading {
  liked : bool;
  likesCount : Z;
}.

(** A recipe as a listing gives it, with what the page reads of it;
    [None]: the property is missing or null. *)
Record Item : Type := mkItem {
  _id : string;
  likedByUser : option bool;
  likes : option Z;
}.

Record Page : Type := mkPage {
  likesState : gmap string Reading;
  pendingToggles : gset string;
  showLoginPrompt : bool;
  recipeToDelete : option Item;      (* [None]: null *)
}.

Definition initial : Page := mkPage ∅ ∅ false None.

Definition setLikesState (f : gmap string Reading → gmap string Reading)
    (p : Page) : Page :=
  mkPage (f (likesState p)) (pendingToggles p) (showLoginPrompt p) (recipeToDelete p).

Definition setPendingToggles (s : gset string) (p : Page) : Page :=
  mkPage (likesState p) s (showLoginPrompt p) (recipeToDelete p).

Definition setShowLoginPrompt (b : bool) (p : Page) : Page :=
  mkPage (likesState p) (pendingToggles p) b (recipeToDelete p).

Definition setRecipeToDelete (r : option Item) (p : Page) : Page :=
  mkPage (likesState p) (pendingToggles p) (showLoginPrompt p) r.

(** What a card shows: [likesState[id]?.liked ?? false] and
    [likesState[id]?.likesCount ?? 0]. *)
Definition shownLiked (p : Page) (id : string) : bool :=
  default false (liked <$> likesState p !! id).

Definition shownCount (p : Page) (id : string) : Z :=
  default 0%Z (likesCount <$> likesState p !! id).

Definition updateLikesStateFromData (data : list Item) (p : Page) : Page :=
  setLikesState (λ prev,
    foldl (λ updated r,
             if decide (_id r ∈ pendingToggles p) then updated
             else <[_id r := mkReading (default false (likedByUser r))
                                       (default 0%Z (likes r))]> updated)
          prev data) p.

(** What a click remembers until the server has answered. *)
Record Toggle : Type := mkToggle {
  recipeId : string;
  prevLiked : bool;
  prevCount : Z;
}.

(** [handleHeartClick] up to its first [await]; a toggle is started
    unless the visitor is anonymous or one is pending on the recipe. *)
Definition handleHeartClick (user : option User.t) (id : string) (p : Page)
    : Page * option Toggle :=
  match user with
  | None => (setShowLoginPrompt true p, None)
  | Some _ =>
      if decide (id ∈ pendingToggles p) then (p, None)
      else
        let prevLiked := shownLiked p id in
        let prevCount := shownCount p id in
        (setPendingToggles ({[ id ]} ∪ pendingToggles p)
           (setLikesState
              <[id := mkReading (negb prevLiked)
                                (prevCount + (if prevLiked then -1 else 1))%Z]> p),
         Some (mkToggle id prevLiked prevCount))
  end.

(** How the two requests end: with the recipe of [GET /:id], or with one
    of them failing. *)
Inductive Outcome : Type :=
  | Answered (updatedRecipe : Item)
  | Failed.

(** [handleHeartClick] from the end of the requests on. *)
Definition settle (t : Toggle) (o : Outcome) (p : Page) : Page :=
  setPendingToggles (pendingToggles p ∖ {[ recipeId t ]})
    (setLikesState
       <[recipeId t :=
           match o with
           | Answered updatedRecipe =>
               mkReading (default false (likedByUser updatedRecipe))
                         (default 0%Z (likes updatedRecipe))
           | Failed => mkReading (prevLiked t) (prevCount t)
           end]> p).

Definition handleDeleteClick (user : option User.t) (recipe : Item) (p : Page) : Page :=
  match user with
  | Some u =>
      if String.eqb (User.email u) "admin@gmail.com"
      then setRecipeToDelete (Some recipe) p else p
  | None => p
  end.

(** [confirmDelete] up to its [await]: the id of the [DELETE] it sends,
    if it sends one. *)
Definition confirmDelete (p : Page) : option string :=
  _id <$> recipeToDelete p.

(** [confirmDelete] once the request has ended, well or not. *)
Definition deleteEnded : Page → Page := setRecipeToDelete None.

Definition cancelDelete : Page → Page := setRecipeToDelete None.

(** What happens on the page. *)
Inductive Event : Type :=
  | Listed (data : list Item)
  | HeartClicked (id : string)
  | Settled (t : Toggle) (o : Outcome)
  | DeleteClicked (recipe : Item)
  | DeleteEnded
  | DeleteCancelled.

Definition on (user : option User.t) (e : Event) (p : Page) : Page :=
  match e with
  | Listed data => updateLikesStateFromData data p
  | HeartClicked id => (handleHeartClick user id p).1
  | Settled t o => settle t o p
  | DeleteClicked recipe => handleDeleteClick user recipe p
  | DeleteEnded => deleteEnded p
  | DeleteCancelled => cancelDelete p
  end.

End Explore.

(** What the page reads of the answer of [GET /:id]: [likedByUser] and
    [likes], which only the answer with the recipe carries. *)
Definition itemOf (id : string) (j : Json) : Explore.Item :=
  match j with
  | Detail _ _ likedByUser likes =>
      Explore.mkItem id (Some likedByUser) (Some (Z.of_nat likes))
  | _ => Explore.mkItem id None None
  end.

(** The explore page after a listing that shows the sample recipe with
    no like. *)
Definition pasta_listed : Explore.Page :=
  Explore.updateLikesStateFromData
    [Explore.mkItem pasta_id (Some false) (Some 0%Z)] Explore.initial.

(** * Properties *)

(** ** Unfolding the handlers on a stored recipe *)

Ltac run :=
  unfold try_catch, respond, lift, swallow; unfold mbind, M_bind, mret, M_ret.

Section Found.
Context `{W : Services}.
Context (st : State) (id : string) (oid : ObjectId) (recipe : Recipe.t).
Hypothesis Hcast : castObjectId id = Some oid.
Hypothesis Hfound : recipes st !! oid = Some recipe.

Lemma findById_found : findById id st = (inr (Some recipe), st).
Proof. unfold findById. by rewrite Hcast, Hfound. Qed.

Lemma updateRecipe_found user file body :
  updateRecipe user id file body st =
    if negb (isAdmin user) && negb (isOwner recipe user)
    then (mkResponse 401 (Message "Not authorized"), st)
    else try_catch
           (recipe ← handleImage file body recipe;
            recipe ← updateIngredients (updateIngredientsArray body)
                                       (updateFields body recipe);
            _ ← save false recipe;
            respond 200 (Updated "Recipe updated successfully" recipe))
           "Server error" st.
Proof.
  unfold updateRecipe, try_catch at 1. unfold mbind at 1, M_bind at 1.
  rewrite findById_found.
  destruct (negb (isAdmin user) && negb (isOwner recipe user)); reflexivity.
Qed.

Lemma deleteRecipe_found user :
  deleteRecipe user id st =
    if negb (isAdmin user) && negb (isOwner recipe user)
    then (mkResponse 401 (Message "Not authorized"), st)
    else try_catch
           (_ ← destroyImage false recipe;
            _ ← deleteOne recipe;
            respond 200 (Message "Recipe deleted"))
           "Server error" st.
Proof.
  unfold deleteRecipe, try_catch at 1. unfold mbind at 1, M_bind at 1.
  rewrite findById_found.
  destruct (negb (isAdmin user) && negb (isOwner recipe user)); reflexivity.
Qed.

Lemma likeRecipe_found user :
  likeRecipe user id st =
    let likedIndex :=
      findIndex (λ x, equals x (User._id user)) (Recipe.likedBy recipe) in
    let recipe' :=
      if Z.eqb likedIndex (-1)
      then Recipe.set_likedBy (Recipe.likedBy recipe ++ [User._id user]) recipe
      else Recipe.set_likedBy (splice1 likedIndex (Recipe.likedBy recipe)) recipe in
    try_catch
      (_ ← save false recipe';
       respond 200 (Liked (Z.eqb likedIndex (-1)) (length (Recipe.likedBy recipe'))))
      "Server error" st.
Proof.
  unfold likeRecipe, try_catch at 1. unfold mbind at 1, M_bind at 1.
  rewrite findById_found. reflexivity.
Qed.

End Found.

(** ** Identifiers that do not cast (C10) *)

(** C10. Only [GET /:id] checks the id before the lookup.  When the id of
    the request is not a valid [ObjectId] and does not cast to one,
    [GET /:id] answers 400 "Invalid ID", while in [POST /:id/like],
    [PUT /:id] and [DELETE /:id] the lookup throws and the handler answers
    500 "Server error"; nothing is written. *)
Theorem malformed_id_responses `{W : Services}
    (viewer : option User.t) (user : User.t) (id : string)
    (file : option File) (body : gmap string value) (st : State) :
  isValid id = false →
  castObjectId id = None →
  getRecipe viewer id st = (mkResponse 400 (Message "Invalid ID"), st)
  ∧ likeRecipe user id st = (mkResponse 500 (Message "Server error"), st)
  ∧ updateRecipe user id file body st = (mkResponse 500 (Message "Server error"), st)
  ∧ deleteRecipe user id st = (mkResponse 500 (Message "Server error"), st).
Proof.
  intros Hvalid Hcast.
  assert (Hthrow : findById id st = (inl CastError, st))
    by (unfold findById; by rewrite Hcast).
  repeat split.
  - unfold getRecipe. by rewrite Hvalid.
  - unfold likeRecipe. run. by rewrite Hthrow.
  - unfold updateRecipe. run. by rewrite Hthrow.
  - unfold deleteRecipe. run. by rewrite Hthrow.
Qed.

Lemma malformed_id_responses_witness :
  @isValid sample "not-an-id" = false
  ∧ @castObjectId sample "not-an-id" = None
  ∧ @getRecipe sample None "not-an-id" kitchen
      = (mkResponse 400 (Message "Invalid ID"), kitchen)
  ∧ @likeRecipe sample bob "not-an-id" kitchen
      = (mkResponse 500 (Message "Server error"), kitchen)
  ∧ @updateRecipe sample bob "not-an-id" None ∅ kitchen
      = (mkResponse 500 (Message "Server error"), kitchen)
  ∧ @deleteRecipe sample bob "not-an-id" kitchen
      = (mkResponse 500 (Message "Server error"), kitchen).
Proof.
  split; [reflexivity |]. split; [reflexivity |].
  apply (@malformed_id_responses sample None bob "not-an-id" None ∅ kitchen).
  - reflexivity.
  - reflexivity.
Defined.

(** ** Status codes of a guarded computation *)

Lemma answers_respond code j : answers (respond code j) code.
Proof. intros st res st'. unfold respond, mret, M_ret. by intros [= <- _]. Qed.

Lemma answers_bind {A : Type} (m : M A) (k : A → M Response) code :
  (∀ a, answers (k a) code) → answers (m ≫= k) code.
Proof.
  intros Hk st res st'. unfold mbind, M_bind.
  destruct (m st) as [[e | a] st1]; [discriminate |]. apply Hk.
Qed.

Lemma try_catch_status m message code st :
  answers m code →
  status (try_catch m message st).1 = code
  ∨ try_catch m message st = (mkResponse 500 (Message message), (m st).2).
Proof.
  intros Hm. unfold try_catch.
  destruct (m st) as [[e | res] st1] eqn:E; [by right | left].
  simpl. by eapply Hm.
Qed.

(** ** Requests that pass the ownership check, with nothing failing *)

Section Healthy.
Context `{W : Services}.
Hypothesis Hmedia : ∀ pid, destroy_resolves pid = true.
Hypothesis Hschema : ∀ r, validates r = true.

Lemma destroyImage_resolves caught recipe st :
  ∃ st', destroyImage caught recipe st = (inr (), st').
Proof.
  unfold destroyImage, destroy. run.
  destruct (nonempty (Recipe.image recipe) && CLOUDINARY_CONFIG_OK);
    [| by eexists].
  rewrite Hmedia. destruct caught; by eexists.
Qed.

Lemma handleImage_resolves file body recipe st :
  ∃ recipe' st', handleImage file body recipe st = (inr recipe', st').
Proof.
  assert (Hgo : ∀ caught image,
            ∃ st', (destroyImage caught recipe ≫= λ _, mret (Recipe.set_image image recipe)) st
                   = (inr (Recipe.set_image image recipe), st')).
  { intros caught image. run.
    destruct (destroyImage_resolves caught recipe st) as [st' ->]. by exists st'. }
  assert (Hstay : ∃ recipe' st', mret (M := M) recipe st = (inr recipe', st'))
    by (by exists recipe, st).
  unfold handleImage. destruct file as [f |].
  - destruct (nonempty (or_else (path f) (secure_url f))); [| exact Hstay].
    destruct (Hgo true (or_else (path f) (secure_url f))) as [st' ->].
    by exists (Recipe.set_image (or_else (path f) (secure_url f)) recipe), st'.
  - destruct (Hgo false (Some "")) as [st' E].
    repeat case_match; try exact Hstay.
    rewrite E. by exists (Recipe.set_image (Some "") recipe), st'.
Qed.

Lemma update_succeeds recipe file body st :
  (∃ kept, filterTrim (updateIngredientsArray body) = inr kept) →
  status (try_catch
            (recipe ← handleImage file body recipe;
             recipe ← updateIngredients (updateIngredientsArray body)
                                        (updateFields body recipe);
             _ ← save false recipe;
             respond 200 (Updated "Recipe updated successfully" recipe))
            "Server error" st).1 = 200.
Proof.
  intros [kept Hkept]. unfold try_catch. run.
  destruct (handleImage_resolves file body recipe st) as (r1 & st1 & ->).
  unfold updateIngredients, lift, save. run. rewrite Hkept.
  destruct (Nat.ltb 0 (length (updateIngredientsArray body)));
    rewrite Hschema; reflexivity.
Qed.

Lemma delete_succeeds recipe st :
  status (try_catch
            (_ ← destroyImage false recipe;
             _ ← deleteOne recipe;
             respond 200 (Message "Recipe deleted"))
            "Server error" st).1 = 200.
Proof.
  unfold try_catch. run.
  destruct (destroyImage_resolves false recipe st) as [st' ->]. reflexivity.
Qed.

End Healthy.

(** ** Ownership (C1) *)

Lemma gate_closed user recipe :
  User._id user ≠ Recipe.createdBy recipe →
  User.email user ≠ "admin@gmail.com" →
  negb (isAdmin user) && negb (isOwner recipe user) = true.
Proof.
  intros Hown Hadm. unfold isAdmin, isOwner, equals.
  apply andb_true_iff; split; apply negb_true_iff.
  - apply String.eqb_neq. exact Hadm.
  - apply N.eqb_neq. congruence.
Qed.

Lemma gate_open user recipe :
  User._id user = Recipe.createdBy recipe ∨ User.email user = "admin@gmail.com" →
  negb (isAdmin user) && negb (isOwner recipe user) = false.
Proof.
  unfold isAdmin, isOwner, equals. intros [Hown | Hadm].
  - rewrite Hown, N.eqb_refl. apply andb_false_r.
  - rewrite Hadm. reflexivity.
Qed.

(** C1. On a stored recipe, [PUT /:id] and [DELETE /:id] answer 200 only
    to the creator of the recipe or to the account whose email is
    "admin@gmail.com"; any other caller gets 401 "Not authorized" and
    nothing is written; the admin account is served exactly as the creator
    would be, whoever created the recipe, and is never answered 401; and
    both are answered 200 when the image host and the schema refuse
    nothing and the ingredients sent are strings. *)
Theorem owner_or_admin_gate `{W : Services}
    (user : User.t) (id : string) (file : option File)
    (body : gmap string value) (st : State) (oid : ObjectId) (recipe : Recipe.t) :
  castObjectId id = Some oid →
  recipes st !! oid = Some recipe →
  let owner := User._id user = Recipe.createdBy recipe in
  let sentinel := User.email user = "admin@gmail.com" in
  (status (updateRecipe user id file body st).1 = 200 → owner ∨ sentinel)
  ∧ (status (deleteRecipe user id st).1 = 200 → owner ∨ sentinel)
  ∧ (¬ owner → ¬ sentinel →
       updateRecipe user id file body st
         = (mkResponse 401 (Message "Not authorized"), st)
       ∧ deleteRecipe user id st
         = (mkResponse 401 (Message "Not authorized"), st))
  ∧ (sentinel →
       status (updateRecipe user id file body st).1 ≠ 401
       ∧ status (deleteRecipe user id st).1 ≠ 401
       ∧ ∀ creator, User._id creator = Recipe.createdBy recipe →
           updateRecipe user id file body st = updateRecipe creator id file body st
           ∧ deleteRecipe user id st = deleteRecipe creator id st)
  ∧ (owner ∨ sentinel →
       (∀ pid, destroy_resolves pid = true) →
       (∀ r, validates r = true) →
       (∃ kept, filterTrim (updateIngredientsArray body) = inr kept) →
       status (updateRecipe user id file body st).1 = 200
       ∧ status (deleteRecipe user id st).1 = 200).
Proof.
  intros Hcast Hfound owner sentinel.
  pose proof (updateRecipe_found st id oid recipe Hcast Hfound) as Hput.
  pose proof (deleteRecipe_found st id oid recipe Hcast Hfound) as Hdel.
  assert (Hothers : ¬ owner → ¬ sentinel →
            updateRecipe user id file body st
              = (mkResponse 401 (Message "Not authorized"), st)
            ∧ deleteRecipe user id st
              = (mkResponse 401 (Message "Not authorized"), st)).
  { intros Ho Hs. rewrite Hput, Hdel, gate_closed by assumption. done. }
  assert (Hdec : owner ∨ sentinel ∨ (¬ owner ∧ ¬ sentinel)).
  { subst owner sentinel.
    destruct (decide (User._id user = Recipe.createdBy recipe)); [tauto |].
    destruct (decide (User.email user = "admin@gmail.com")); tauto. }
  split; [| split; [| split; [| split]]].
  - intros H200. destruct Hdec as [? | [? | [Ho Hs]]]; [tauto | tauto |].
    destruct (Hothers Ho Hs) as [E _]. rewrite E in H200. discriminate.
  - intros H200. destruct Hdec as [? | [? | [Ho Hs]]]; [tauto | tauto |].
    destruct (Hothers Ho Hs) as [_ E]. rewrite E in H200. discriminate.
  - exact Hothers.
  - intros Hs. split; [| split].
    + rewrite Hput, gate_open by (by right).
      match goal with
      | |- status (try_catch ?m ?msg st).1 ≠ _ =>
          destruct (try_catch_status m msg 200 st) as [E | E]
      end.
      * repeat (apply answers_bind; intros ?). apply answers_respond.
      * rewrite E. discriminate.
      * rewrite E. discriminate.
    + rewrite Hdel, gate_open by (by right).
      match goal with
      | |- status (try_catch ?m ?msg st).1 ≠ _ =>
          destruct (try_catch_status m msg 200 st) as [E | E]
      end.
      * repeat (apply answers_bind; intros ?). apply answers_respond.
      * rewrite E. discriminate.
      * rewrite E. discriminate.
    + intros creator Hcreator.
      rewrite Hput, Hdel, (updateRecipe_found st id oid recipe Hcast Hfound creator),
        (deleteRecipe_found st id oid recipe Hcast Hfound creator).
      rewrite (gate_open user) by (by right).
      rewrite (gate_open creator) by (by left).
      done.
  - intros Hauth Hmedia Hschema Hstrings.
    rewrite Hput, Hdel, gate_open by exact Hauth. split.
    + by apply update_succeeds.
    + by apply delete_succeeds.
Qed.

(** ** The like toggle on the [likedBy] array *)

Lemma findIndex_spec {A : Type} (p : A → bool) (l : list A) :
  (findIndex p l = (-1)%Z ∧ ∀ x, x ∈ l → p x = false)
  ∨ (∃ l1 x l2, l = l1 ++ (x :: l2) ∧ p x = true
       ∧ (∀ y, y ∈ l1 → p y = false)
       ∧ findIndex p l = Z.of_nat (length l1)).
Proof.
  induction l as [| a l IH]; simpl.
  - left. split; [reflexivity |]. intros x Hx. by apply elem_of_nil in Hx.
  - destruct (p a) eqn:Ha.
    + right. exists [], a, l. repeat split; try done.
      intros y Hy. by apply elem_of_nil in Hy.
    + destruct IH as [[E Hall] | (l1 & x & l2 & -> & Hx & Hl1 & E)].
      * left. rewrite E. split; [reflexivity |].
        intros x [-> | Hx]%elem_of_cons; auto.
      * right. exists (a :: l1), x, l2. rewrite E. repeat split; try done.
        -- intros y [-> | Hy]%elem_of_cons; auto.
        -- rewrite length_cons, Nat2Z.inj_succ.
           destruct (Z.of_nat (length l1)) eqn:En; lia.
Qed.

Lemma equals_true (a b : ObjectId) : equals a b = true ↔ a = b.
Proof. unfold equals. apply N.eqb_eq. Qed.

Lemma equals_false (a b : ObjectId) : equals a b = false ↔ a ≠ b.
Proof. unfold equals. apply N.eqb_neq. Qed.

(** The index is [-1] exactly when the user is not in the array. *)
Lemma findIndex_absent uid l :
  Z.eqb (findIndex (λ x, equals x uid) l) (-1) = bool_decide (uid ∉ l).
Proof.
  destruct (findIndex_spec (λ x, equals x uid) l)
    as [[E Hall] | (l1 & x & l2 & -> & Hx & _ & E)]; rewrite E.
  - rewrite bool_decide_eq_true_2; [reflexivity |].
    intros Hin. apply Hall in Hin. apply equals_false in Hin. done.
  - apply equals_true in Hx as ->.
    rewrite bool_decide_eq_false_2; [| intros Hn; apply Hn; set_solver].
    apply Z.eqb_neq. lia.
Qed.

Lemma toggled_absent uid l : uid ∉ l → toggled uid l = l ++ [uid].
Proof.
  intros Hn. unfold toggled. rewrite findIndex_absent.
  by rewrite bool_decide_eq_true_2.
Qed.

(** A present user is spliced out at the first occurrence. *)
Lemma toggled_present uid l :
  uid ∈ l →
  ∃ l1 l2, l = l1 ++ (uid :: l2) ∧ (uid ∉ l1) ∧ toggled uid l = l1 ++ l2.
Proof.
  intros Hin. unfold toggled.
  destruct (findIndex_spec (λ x, equals x uid) l)
    as [[E Hall] | (l1 & x & l2 & -> & Hx & Hl1 & E)].
  - apply Hall in Hin. apply equals_false in Hin. done.
  - apply equals_true in Hx as ->. exists l1, l2. rewrite E.
    split; [reflexivity |]. split.
    + intros H1. apply Hl1 in H1. apply equals_false in H1. done.
    + replace (Z.eqb (Z.of_nat (length l1)) (-1)) with false
        by (symmetry; apply Z.eqb_neq; lia).
      unfold splice1. rewrite Nat2Z.id. apply delete_middle.
Qed.

Lemma toggled_NoDup uid l : NoDup l → NoDup (toggled uid l).
Proof.
  intros Hnd. destruct (decide (uid ∈ l)) as [Hin | Hn].
  - destruct (toggled_present uid l Hin) as (l1 & l2 & -> & _ & ->).
    apply NoDup_app in Hnd as (H1 & H12 & H2).
    apply NoDup_cons in H2 as [_ H2].
    apply NoDup_app. repeat split; [done | | done].
    intros x Hx Hx2. apply (H12 x Hx). by right.
  - rewrite toggled_absent by done.
    apply NoDup_app. repeat split; [done | | apply NoDup_singleton].
    intros x Hx ->%list_elem_of_singleton. done.
Qed.

(** Membership after the toggle, on an array without duplicates. *)
Lemma toggled_elem_of uid l v :
  NoDup l →
  v ∈ toggled uid l ↔ (v = uid ∧ uid ∉ l) ∨ (v ≠ uid ∧ v ∈ l).
Proof.
  intros Hnd. destruct (decide (uid ∈ l)) as [Hin | Hn].
  - destruct (toggled_present uid l Hin) as (l1 & l2 & -> & Hn1 & ->).
    apply NoDup_app in Hnd as (_ & H12 & H2).
    apply NoDup_cons in H2 as [Hn2 _].
    assert (Hmid : uid ∈ l1 ++ (uid :: l2)) by set_solver.
    rewrite !elem_of_app, !elem_of_cons. split.
    + intros [H | H]; right; (split; [| tauto]); intros ->; tauto.
    + intros [[_ Hn] | [Hne [H | [H | H]]]]; tauto.
  - rewrite toggled_absent by done.
    rewrite elem_of_app, list_elem_of_singleton.
    destruct (decide (v = uid)) as [-> | Hne]; tauto.
Qed.

(** Two toggles give the array back, up to the order of its elements. *)
Lemma toggled_twice uid l : NoDup l → toggled uid (toggled uid l) ≡ₚ l.
Proof.
  intros Hnd. destruct (decide (uid ∈ l)) as [Hin | Hn].
  - destruct (toggled_present uid l Hin) as (l1 & l2 & El & Hn1 & E).
    rewrite E. rewrite toggled_absent.
    + rewrite El. rewrite <- app_assoc. apply Permutation_app_head.
      symmetry. apply Permutation_cons_append.
    + rewrite El in Hnd. apply NoDup_app in Hnd as (_ & _ & H2).
      apply NoDup_cons in H2 as [Hn2 _].
      rewrite elem_of_app. tauto.
  - rewrite (toggled_absent uid l) by done.
    destruct (toggled_present uid (l ++ [uid])) as (l1 & l2 & El & Hn1 & ->).
    { set_solver. }
    assert (l1 = l ∧ l2 = []) as [-> ->]; [| by rewrite app_nil_r].
    clear Hnd. revert l1 El Hn1. induction l as [| a l IH]; intros l1 El Hn1.
    + destruct l1 as [| b l1]; simpl in El.
      * by injection El as <-.
      * injection El as <- El. destruct l1; discriminate.
    + destruct l1 as [| b l1]; simpl in El.
      * injection El as -> _. exfalso. apply Hn. by left.
      * injection El as <- El.
        destruct (IH (λ H, Hn (list_elem_of_further _ _ _ H)) l1 El) as [-> ->].
        -- intros H. apply Hn1. by right.
        -- done.
Qed.

(** ** POST /:id/like (C2, C3) *)

(** The handler on a stored recipe whose toggled document validates. *)
Lemma likeRecipe_saved `{W : Services} user id st oid recipe :
  castObjectId id = Some oid →
  recipes st !! oid = Some recipe →
  validates (Recipe.set_likedBy (toggled (User._id user) (Recipe.likedBy recipe)) recipe)
    = true →
  let likedBy' := toggled (User._id user) (Recipe.likedBy recipe) in
  likeRecipe user id st
    = (mkResponse 200 (Liked (bool_decide (User._id user ∉ Recipe.likedBy recipe))
                             (length likedBy')),
       set_recipes (<[Recipe._id recipe := Recipe.set_likedBy likedBy' recipe]>
                      (recipes st)) st).
Proof.
  intros Hcast Hfound Hvalid likedBy'.
  rewrite (likeRecipe_found st id oid recipe Hcast Hfound). cbv zeta.
  fold (toggled (User._id user) (Recipe.likedBy recipe)) in *.
  assert (Hdoc :
    (if Z.eqb (findIndex (λ x, equals x (User._id user)) (Recipe.likedBy recipe)) (-1)
     then Recipe.set_likedBy (Recipe.likedBy recipe ++ [User._id user]) recipe
     else Recipe.set_likedBy
            (splice1 (findIndex (λ x, equals x (User._id user)) (Recipe.likedBy recipe))
                     (Recipe.likedBy recipe)) recipe)
    = Recipe.set_likedBy likedBy' recipe).
  { subst likedBy'. unfold toggled.
    by destruct (Z.eqb _ _). }
  rewrite Hdoc, findIndex_absent. run. unfold save.
  subst likedBy'. rewrite Hvalid. reflexivity.
Qed.

(** C2. A like request on a stored recipe, by a user [uid], when the
    array holds no id twice and the document is accepted by [save]: the
    answer is 200; if [uid] was in [likedBy] it no longer is and
    [likedByUser] is false, otherwise it now is and [likedByUser] is true;
    the other members are as before; and [likes] is the length of the
    [likedBy] array now stored. *)
Theorem like_toggles_membership `{W : Services}
    (user : User.t) (id : string) (st : State) (oid : ObjectId) (recipe : Recipe.t) :
  castObjectId id = Some oid →
  recipes st !! oid = Some recipe →
  Recipe._id recipe = oid →
  NoDup (Recipe.likedBy recipe) →
  (∀ likedBy, validates (Recipe.set_likedBy likedBy recipe) = true) →
  let uid := User._id user in
  ∃ likedByUser likes recipe' st',
    likeRecipe user id st = (mkResponse 200 (Liked likedByUser likes), st')
    ∧ recipes st' !! oid = Some recipe'
    ∧ likes = length (Recipe.likedBy recipe')
    ∧ (uid ∈ Recipe.likedBy recipe →
         (uid ∉ Recipe.likedBy recipe') ∧ likedByUser = false)
    ∧ (uid ∉ Recipe.likedBy recipe →
         uid ∈ Recipe.likedBy recipe' ∧ likedByUser = true)
    ∧ (∀ v, v ≠ uid → v ∈ Recipe.likedBy recipe' ↔ v ∈ Recipe.likedBy recipe).
Proof.
  intros Hcast Hfound Hid Hnd Hvalid uid.
  eexists _, _, _, _. split.
  { apply (likeRecipe_saved user id st oid recipe Hcast Hfound (Hvalid _)). }
  fold uid. simpl. rewrite Hid, lookup_insert_eq.
  split; [reflexivity |]. split; [reflexivity |]. simpl.
  split; [| split].
  - intros Hin. split.
    + rewrite toggled_elem_of by done. tauto.
    + apply bool_decide_eq_false_2. tauto.
  - intros Hn. split.
    + rewrite toggled_elem_of by done. tauto.
    + by apply bool_decide_eq_true_2.
  - intros v Hv. rewrite toggled_elem_of by done. tauto.
Qed.

Lemma like_toggles_membership_witness :
  @castObjectId sample pasta_id = Some 10%N
  ∧ recipes kitchen !! 10%N = Some pasta
  ∧ NoDup (Recipe.likedBy pasta)
  ∧ ∃ likedByUser likes recipe' st',
      @likeRecipe sample bob pasta_id kitchen
        = (mkResponse 200 (Liked likedByUser likes), st')
      ∧ recipes st' !! 10%N = Some recipe'
      ∧ likes = length (Recipe.likedBy recipe')
      ∧ (2%N ∈ Recipe.likedBy pasta →
           (2%N ∉ Recipe.likedBy recipe') ∧ likedByUser = false)
      ∧ (2%N ∉ Recipe.likedBy pasta →
           2%N ∈ Recipe.likedBy recipe' ∧ likedByUser = true)
      ∧ (∀ v, v ≠ 2%N → v ∈ Recipe.likedBy recipe' ↔ v ∈ Recipe.likedBy pasta).
Proof.
  assert (Hnd : NoDup (Recipe.likedBy pasta)) by (simpl; apply NoDup_nil_2).
  split; [reflexivity |]. split; [reflexivity |]. split; [exact Hnd |].
  apply (@like_toggles_membership sample bob pasta_id kitchen 10%N pasta).
  - reflexivity.
  - reflexivity.
  - reflexivity.
  - exact Hnd.
  - intros likedBy. reflexivity.
Defined.

(** C3. Two like requests in a row by the same user on a stored recipe
    whose [likedBy] holds no id twice, both documents being accepted by
    [save]: the stored [likedBy] has its original members again (as many,
    each once), the rest of the document is untouched, and the second
    answer reports the original membership of the user and the original
    count. *)
Theorem like_twice_restores `{W : Services}
    (user : User.t) (id : string) (st : State) (oid : ObjectId) (recipe : Recipe.t) :
  castObjectId id = Some oid →
  recipes st !! oid = Some recipe →
  Recipe._id recipe = oid →
  NoDup (Recipe.likedBy recipe) →
  (∀ likedBy, validates (Recipe.set_likedBy likedBy recipe) = true) →
  let uid := User._id user in
  let st1 := (likeRecipe user id st).2 in
  let '(res2, st2) := likeRecipe user id st1 in
  ∃ recipe2,
    recipes st2 !! oid = Some recipe2
    ∧ Recipe.likedBy recipe2 ≡ₚ Recipe.likedBy recipe
    ∧ recipe2 = Recipe.set_likedBy (Recipe.likedBy recipe2) recipe
    ∧ res2 = mkResponse 200 (Liked (bool_decide (uid ∈ Recipe.likedBy recipe))
                                   (length (Recipe.likedBy recipe))).
Proof.
  intros Hcast Hfound Hid Hnd Hvalid uid st1.
  pose proof (likeRecipe_saved user id st oid recipe Hcast Hfound (Hvalid _)) as E1.
  cbv zeta in E1. fold uid in E1.
  set (l1 := toggled uid (Recipe.likedBy recipe)) in *.
  set (recipe1 := Recipe.set_likedBy l1 recipe) in *.
  assert (Hfound1 : recipes st1 !! oid = Some recipe1).
  { subst st1. rewrite E1. simpl. by rewrite Hid, lookup_insert_eq. }
  pose proof (likeRecipe_saved user id st1 oid recipe1 Hcast Hfound1
                (Hvalid (toggled uid (Recipe.likedBy recipe1)))) as E2.
  cbv zeta in E2. fold uid in E2.
  rewrite E2. eexists. simpl. rewrite Hid, lookup_insert_eq.
  split; [reflexivity |]. simpl.
  split; [by apply toggled_twice |].
  split; [reflexivity |].
  assert (Hl1 : ∀ v, v ∈ l1 ↔ (v = uid ∧ uid ∉ Recipe.likedBy recipe)
                              ∨ (v ≠ uid ∧ v ∈ Recipe.likedBy recipe))
    by (intros v; by apply toggled_elem_of).
  f_equal. f_equal.
  - apply bool_decide_ext. rewrite (Hl1 uid).
    destruct (decide (uid ∈ Recipe.likedBy recipe)); tauto.
  - apply Permutation_length. by apply toggled_twice.
Qed.

Lemma like_twice_restores_witness :
  @castObjectId sample pasta_id = Some 10%N
  ∧ recipes kitchen !! 10%N = Some pasta
  ∧ NoDup (Recipe.likedBy pasta)
  ∧ let st1 := (@likeRecipe sample bob pasta_id kitchen).2 in
    let '(res2, st2) := @likeRecipe sample bob pasta_id st1 in
    ∃ recipe2,
      recipes st2 !! 10%N = Some recipe2
      ∧ Recipe.likedBy recipe2 ≡ₚ Recipe.likedBy pasta
      ∧ recipe2 = Recipe.set_likedBy (Recipe.likedBy recipe2) pasta
      ∧ res2 = mkResponse 200 (Liked (bool_decide (2%N ∈ Recipe.likedBy pasta))
                                     (length (Recipe.likedBy pasta))).
Proof.
  assert (Hnd : NoDup (Recipe.likedBy pasta)) by (simpl; apply NoDup_nil_2).
  split; [reflexivity |]. split; [reflexivity |]. split; [exact Hnd |].
  apply (@like_twice_restores sample bob pasta_id kitchen 10%N pasta).
  - reflexivity.
  - reflexivity.
  - reflexivity.
  - exact Hnd.
  - intros likedBy. reflexivity.
Defined.

(** ** The [likedBy] arrays hold no id twice (C4) *)

Lemma likes_unique_same st st' :
  recipes st' = recipes st → likes_unique st → likes_unique st'.
Proof. unfold likes_unique. intros ->. auto. Qed.

Lemma likes_unique_insert st k recipe :
  likes_unique st → NoDup (Recipe.likedBy recipe) →
  likes_unique (set_recipes (<[k := recipe]> (recipes st)) st).
Proof.
  intros Hst Hnd oid r. simpl.
  destruct (decide (k = oid)) as [-> | Hne].
  - rewrite lookup_insert_eq. by intros [= <-].
  - rewrite lookup_insert_ne by done. apply Hst.
Qed.

Lemma likes_unique_delete st k :
  likes_unique st → likes_unique (set_recipes (base.delete k (recipes st)) st).
Proof.
  intros Hst oid r. simpl. intros Hr.
  apply lookup_delete_Some in Hr as [_ Hr]. by eapply Hst.
Qed.

Lemma likedBy_updateFields body recipe :
  Recipe.likedBy (updateFields body recipe) = Recipe.likedBy recipe.
Proof. unfold updateFields, assign. by repeat case_match. Qed.

Lemma ingredients_updateFields body recipe :
  Recipe.ingredients (updateFields body recipe) = Recipe.ingredients recipe.
Proof. unfold updateFields, assign. by repeat case_match. Qed.

Lemma id_updateFields body recipe :
  Recipe._id (updateFields body recipe) = Recipe._id recipe.
Proof. unfold updateFields, assign. by repeat case_match. Qed.

Section Frames.
Context `{W : Services}.

(** Deleting an image at the host leaves the collections alone. *)
Lemma destroyImage_frame caught recipe st :
  recipes (destroyImage caught recipe st).2 = recipes st.
Proof.
  unfold destroyImage, destroy. run.
  repeat case_match; simplify_eq/=; reflexivity.
Qed.

(** Image handling touches the image of the document and nothing stored. *)
Lemma handleImage_frame file body recipe st :
  recipes (handleImage file body recipe st).2 = recipes st
  ∧ ∀ recipe', (handleImage file body recipe st).1 = inr recipe' →
      Recipe._id recipe' = Recipe._id recipe
      ∧ Recipe.likedBy recipe' = Recipe.likedBy recipe
      ∧ Recipe.ingredients recipe' = Recipe.ingredients recipe.
Proof.
  unfold handleImage. run.
  repeat case_match; simplify_eq/=;
    (split; [| intros ? [= <-]; done || (intros; discriminate) ]);
    try reflexivity;
    match goal with
    | H : destroyImage ?c ?r ?s = (_, ?s') |- recipes ?s' = _ =>
        pose proof (destroyImage_frame c r s) as F; rewrite H in F; exact F
    end.
Qed.

(** Replacing the ingredients touches that field and nothing stored. *)
Lemma updateIngredients_frame ingredientsArray recipe st :
  (updateIngredients ingredientsArray recipe st).2 = st
  ∧ ∀ recipe', (updateIngredients ingredientsArray recipe st).1 = inr recipe' →
      Recipe._id recipe' = Recipe._id recipe
      ∧ Recipe.likedBy recipe' = Recipe.likedBy recipe
      ∧ (ingredientsArray = [] → recipe' = recipe)
      ∧ (ingredientsArray ≠ [] →
           filterTrim ingredientsArray = inr (Recipe.ingredients recipe')).
Proof.
  unfold updateIngredients, lift. run.
  destruct ingredientsArray as [| i l]; simpl Nat.ltb; cbv iota.
  - split; [reflexivity |]. intros ? [= <-]. done.
  - destruct (filterTrim (i :: l)) as [e | kept]; simpl.
    + split; [reflexivity |]. intros; discriminate.
    + split; [reflexivity |]. intros ? [= <-]. done.
Qed.

End Frames.

(** What [PUT /:id] does for a caller who passes the ownership check:
    either something threw, the answer is 500 and no recipe changed, or the
    answer is 200 and the document was saved with its ingredients replaced
    when, and only when, the parsed array is not empty. *)
Lemma updateRecipe_authorized `{W : Services} user id file body st oid recipe :
  castObjectId id = Some oid →
  recipes st !! oid = Some recipe →
  negb (isAdmin user) && negb (isOwner recipe user) = false →
  let '(res, st') := updateRecipe user id file body st in
  (res = mkResponse 500 (Message "Server error") ∧ recipes st' = recipes st)
  ∨ (∃ recipe',
       res = mkResponse 200 (Updated "Recipe updated successfully" recipe')
       ∧ recipes st' = <[Recipe._id recipe := recipe']> (recipes st)
       ∧ validates recipe' = true
       ∧ Recipe.likedBy recipe' = Recipe.likedBy recipe
       ∧ (updateIngredientsArray body = [] →
            Recipe.ingredients recipe' = Recipe.ingredients recipe)
       ∧ (updateIngredientsArray body ≠ [] →
            filterTrim (updateIngredientsArray body)
              = inr (Recipe.ingredients recipe'))
       ∧ Recipe._id recipe' = Recipe._id recipe).
Proof.
  intros Hcast Hfound Hgate.
  rewrite (updateRecipe_found st id oid recipe Hcast Hfound), Hgate.
  unfold try_catch. run.
  destruct (handleImage_frame file body recipe st) as [Fst Fdoc].
  destruct (handleImage file body recipe st) as [[e | r1] st1]; simpl in *.
  { left. done. }
  destruct (Fdoc r1 eq_refl) as (Fid & Fliked & Fing).
  destruct (updateIngredients_frame (updateIngredientsArray body)
              (updateFields body r1) st1) as [Gst Gdoc].
  destruct (updateIngredients (updateIngredientsArray body)
              (updateFields body r1) st1) as [[e | r2] st2]; simpl in *; subst st2.
  { left. done. }
  destruct (Gdoc r2 eq_refl) as (Gid & Gliked & Gnil & Gcons).
  rewrite id_updateFields in Gid. rewrite likedBy_updateFields in Gliked.
  unfold save. destruct (validates r2) eqn:Hvalid; simpl.
  - right. exists r2. simpl. rewrite Gid, Fid, Fst.
    repeat split; [done | congruence | | done].
    intros Hnil. rewrite (Gnil Hnil), ingredients_updateFields. done.
  - left. done.
Qed.

Section Invariant.
Context `{W : Services}.

Lemma getRecipe_recipes viewer id st :
  recipes (getRecipe viewer id st).2 = recipes st.
Proof.
  unfold getRecipe, try_catch, findById, populate. run.
  repeat case_match; simplify_eq/=; reflexivity.
Qed.

(** The five listing routes write nothing. *)
Lemma listings_read_only viewer user v st :
  (listRecipes viewer v st).2 = st
  ∧ (searchRecipes viewer v st).2 = st
  ∧ (latestRecipes viewer st).2 = st
  ∧ (myRecipes user st).2 = st
  ∧ (favoriteRecipes user v st).2 = st.
Proof.
  unfold listRecipes, searchRecipes, latestRecipes, myRecipes, favoriteRecipes,
    try_catch, findRecipes, populateNames. run.
  repeat split; repeat case_match; simplify_eq/=; reflexivity.
Qed.

Lemma likeRecipe_likes_unique user id st :
  likes_unique st → likes_unique (likeRecipe user id st).2.
Proof.
  intros Hst. unfold likeRecipe, try_catch, findById, save. run.
  destruct (castObjectId id) as [oid |]; [| exact Hst].
  destruct (recipes st !! oid) as [recipe |] eqn:Hfound; [| exact Hst].
  fold (toggled (User._id user) (Recipe.likedBy recipe)).
  assert (Hnd : NoDup (toggled (User._id user) (Recipe.likedBy recipe)))
    by (apply toggled_NoDup; by eapply Hst).
  unfold toggled in *.
  repeat case_match; simplify_eq/=; try exact Hst;
    by apply likes_unique_insert.
Qed.

Lemma createRecipe_likes_unique user newId file body st :
  likes_unique st → likes_unique (createRecipe user newId file body st).2.
Proof.
  intros Hst. unfold createRecipe, try_catch, save. run.
  repeat case_match; simplify_eq/=; try exact Hst;
    (apply likes_unique_insert; [exact Hst | apply NoDup_nil_2]).
Qed.

Lemma updateRecipe_likes_unique user id file body st :
  likes_unique st → likes_unique (updateRecipe user id file body st).2.
Proof.
  intros Hst.
  destruct (castObjectId id) as [oid |] eqn:Hcast.
  - destruct (recipes st !! oid) as [recipe |] eqn:Hfound.
    + destruct (negb (isAdmin user) && negb (isOwner recipe user)) eqn:Hgate.
      * rewrite (updateRecipe_found st id oid recipe Hcast Hfound), Hgate.
        exact Hst.
      * pose proof (updateRecipe_authorized user id file body st oid recipe
                      Hcast Hfound Hgate) as Hrun.
        destruct (updateRecipe user id file body st) as [res st'].
        destruct Hrun as [[_ Hsame] | (recipe' & _ & Hst' & _ & Hliked & _)].
        -- by eapply likes_unique_same.
        -- intros k r. simpl. rewrite Hst'.
           destruct (decide (Recipe._id recipe = k)) as [-> | Hne].
           ++ rewrite lookup_insert_eq. intros [= <-]. rewrite Hliked.
              by eapply Hst.
           ++ rewrite lookup_insert_ne by done. apply Hst.
    + unfold updateRecipe, try_catch, findById. run.
      rewrite Hcast, Hfound. exact Hst.
  - unfold updateRecipe, try_catch, findById. run. rewrite Hcast. exact Hst.
Qed.

Lemma deleteRecipe_likes_unique user id st :
  likes_unique st → likes_unique (deleteRecipe user id st).2.
Proof.
  intros Hst. unfold deleteRecipe, try_catch, findById, deleteOne. run.
  destruct (castObjectId id) as [oid |]; [| exact Hst].
  destruct (recipes st !! oid) as [recipe |]; [| exact Hst].
  destruct (negb (isAdmin user) && negb (isOwner recipe user)); [exact Hst |].
  pose proof (destroyImage_frame false recipe st) as F.
  destruct (destroyImage false recipe st) as [[e | []] st1]; simpl in *.
  - by eapply likes_unique_same.
  - apply likes_unique_delete. by eapply likes_unique_same.
Qed.

Ltac stored :=
  match goal with
  | |- _ ∨ (∃ r, <[_ := ?doc]> _ = _) ∨ _ => right; left; exists doc; reflexivity
  end.

(** What a request can do to the collection: leave it, store a document
    under its own id, or remove one. *)
Lemma handle_writes req st :
  recipes (handle req st).2 = recipes st
  ∨ (∃ recipe, recipes (handle req st).2 = <[Recipe._id recipe := recipe]> (recipes st))
  ∨ (∃ oid, recipes (handle req st).2 = base.delete oid (recipes st)).
Proof.
  destruct req as [viewer v | viewer v | viewer | user | user v
                  | viewer id | user id | user newId file body
                  | user id file body | user id]; simpl.
  - left. by destruct (listings_read_only viewer alice v st) as (-> & _).
  - left. by destruct (listings_read_only viewer alice v st) as (_ & -> & _).
  - left. by destruct (listings_read_only viewer alice VUndefined st)
            as (_ & _ & -> & _).
  - left. by destruct (listings_read_only None user VUndefined st)
            as (_ & _ & _ & -> & _).
  - left. by destruct (listings_read_only None user v st) as (_ & _ & _ & _ & ->).
  - left. apply getRecipe_recipes.
  - unfold likeRecipe, try_catch, findById, save. run.
    repeat case_match; simplify_eq/=; try (by left); stored.
  - unfold createRecipe, try_catch, save. run.
    repeat case_match; simplify_eq/=; try (by left); stored.
  - destruct (castObjectId id) as [oid |] eqn:Hcast.
    + destruct (recipes st !! oid) as [recipe |] eqn:Hfound.
      * destruct (negb (isAdmin user) && negb (isOwner recipe user)) eqn:Hgate.
        -- rewrite (updateRecipe_found st id oid recipe Hcast Hfound), Hgate.
           by left.
        -- pose proof (updateRecipe_authorized user id file body st oid recipe
                         Hcast Hfound Hgate) as Hrun.
           destruct (updateRecipe user id file body st) as [res st'].
           destruct Hrun as [[_ Hsame] | (recipe' & _ & Hst' & _ & _ & _ & _ & Hid)].
           ++ by left.
           ++ right. left. exists recipe'. simpl. by rewrite Hid.
      * left. unfold updateRecipe, try_catch, findById. run.
        by rewrite Hcast, Hfound.
    + left. unfold updateRecipe, try_catch, findById. run. by rewrite Hcast.
  - unfold deleteRecipe, try_catch, findById, deleteOne. run.
    destruct (castObjectId id) as [oid |]; [| by left].
    destruct (recipes st !! oid) as [recipe |]; [| by left].
    destruct (negb (isAdmin user) && negb (isOwner recipe user)); [by left |].
    pose proof (destroyImage_frame false recipe st) as F.
    destruct (destroyImage false recipe st) as [[e | []] st1]; simpl in *.
    + by left.
    + right. right. exists (Recipe._id recipe). by rewrite F.
Qed.

(** Requests keep every recipe stored under its own id. *)
Lemma handle_keyed_by_id req st :
  keyed_by_id st → keyed_by_id (handle req st).2.
Proof.
  intros Hst oid r.
  destruct (handle_writes req st) as [-> | [[recipe ->] | [k ->]]].
  - apply Hst.
  - destruct (decide (Recipe._id recipe = oid)) as [<- | Hne].
    + rewrite lookup_insert_eq. by intros [= <-].
    + rewrite lookup_insert_ne by done. apply Hst.
  - intros Hr. apply lookup_delete_Some in Hr as [_ Hr]. by apply Hst.
Qed.

Lemma handle_likes_unique req st :
  likes_unique st → likes_unique (handle req st).2.
Proof.
  destruct req as [viewer v | viewer v | viewer | user | user v | | | | |]; simpl.
  - destruct (listings_read_only viewer alice v st) as (-> & _). done.
  - destruct (listings_read_only viewer alice v st) as (_ & -> & _). done.
  - destruct (listings_read_only viewer alice VUndefined st) as (_ & _ & -> & _). done.
  - destruct (listings_read_only None user VUndefined st) as (_ & _ & _ & -> & _). done.
  - destruct (listings_read_only None user v st) as (_ & _ & _ & _ & ->). done.
  - apply likes_unique_same, getRecipe_recipes.
  - apply likeRecipe_likes_unique.
  - apply createRecipe_likes_unique.
  - apply updateRecipe_likes_unique.
  - apply deleteRecipe_likes_unique.
Qed.

End Invariant.

(** C4. If no stored recipe lists a user twice in [likedBy], the same
    holds after any one request, a like in particular, and after any
    sequence of requests served one after the other; so a user who likes
    again and again is never listed twice. *)
Theorem likedBy_never_duplicates `{W : Services} (st : State) :
  likes_unique st →
  (∀ user id, likes_unique (likeRecipe user id st).2)
  ∧ (∀ req, likes_unique (handle req st).2)
  ∧ (∀ reqs, likes_unique (serve reqs st)).
Proof.
  intros Hst. split; [| split].
  - intros user id. by apply likeRecipe_likes_unique.
  - intros req. by apply handle_likes_unique.
  - intros reqs. revert st Hst. unfold serve.
    induction reqs as [| req reqs IH]; intros st Hst; simpl; [exact Hst |].
    apply IH. by apply handle_likes_unique.
Qed.

(** ** PUT /:id and the ingredients (C8) *)

Lemma indexedIngredients_none body :
  no_indexed_keys body → indexedIngredients body = [].
Proof.
  intros Hnone. unfold indexedIngredients.
  assert (E : filter (λ k, String.prefix "ingredients[" k = true)
                     (fst <$> map_to_list body) = []).
  { destruct (filter _ _) as [| k ks] eqn:Ek; [reflexivity | exfalso].
    assert (Hk : k ∈ filter (λ k, String.prefix "ingredients[" k = true)
                            (fst <$> map_to_list body))
      by (rewrite Ek; by left).
    apply list_elem_of_filter in Hk as [Hpre Hk].
    apply list_elem_of_fmap in Hk as ([k' v] & -> & Hkv).
    apply elem_of_map_to_list in Hkv. simpl in Hpre.
    rewrite (Hnone k' Hpre) in Hkv. discriminate. }
  rewrite E. reflexivity.
Qed.

Lemma filterTrim_blank entries :
  Forall blank entries → filterTrim entries = inr [].
Proof.
  induction 1 as [| v entries (s & -> & Hs) _ IH]; simpl; [reflexivity |].
  rewrite IH, Hs. reflexivity.
Qed.

(** C8, as the code has it. An update by the creator or the admin on a
    stored recipe.  (1) With no truthy [ingredients] key -- none, or one
    holding the empty string -- and no [ingredients[...]] key, and also
    with an [ingredients] key holding an empty array, the stored
    ingredients are what they were, whatever the answer.  (2) With an
    [ingredients] key holding a non-empty array of blank strings, or one
    non-empty blank string, either something else failed, the answer is
    500 and no recipe changed, or the answer is 200 and the stored
    ingredients are the filtered sequence, which is empty. *)
Theorem update_ingredients_when_present `{W : Services}
    (user : User.t) (id : string) (file : option File)
    (body : gmap string value) (st : State) (oid : ObjectId) (recipe : Recipe.t) :
  castObjectId id = Some oid →
  recipes st !! oid = Some recipe →
  Recipe._id recipe = oid →
  User._id user = Recipe.createdBy recipe ∨ User.email user = "admin@gmail.com" →
  let '(res, st') := updateRecipe user id file body st in
  let stored := Recipe.ingredients <$> recipes st' !! oid in
  let cleared :=
    (res = mkResponse 500 (Message "Server error") ∧ recipes st' = recipes st)
    ∨ (status res = 200 ∧ stored = Some []) in
  (truthy (get body "ingredients") = false → no_indexed_keys body →
     stored = Some (Recipe.ingredients recipe))
  ∧ (body !! "ingredients" = Some (VArr []) →
     stored = Some (Recipe.ingredients recipe))
  ∧ (∀ entry entries,
       body !! "ingredients" = Some (VArr (entry :: entries)) →
       Forall blank (entry :: entries) → cleared)
  ∧ (∀ s, body !! "ingredients" = Some (VStr s) → s ≠ "" → trim s = "" →
       cleared).
Proof.
  intros Hcast Hfound Hid Hauth.
  pose proof (updateRecipe_authorized user id file body st oid recipe
                Hcast Hfound (gate_open user recipe Hauth)) as Hrun.
  destruct (updateRecipe user id file body st) as [res st']. cbv zeta.
  assert (Hkeep : updateIngredientsArray body = [] →
            Recipe.ingredients <$> recipes st' !! oid
              = Some (Recipe.ingredients recipe)).
  { intros Hnil.
    destruct Hrun as [[_ ->] | (recipe' & _ & -> & _ & _ & Hsame & _)].
    - by rewrite Hfound.
    - rewrite Hid, lookup_insert_eq. simpl. by rewrite (Hsame Hnil). }
  assert (Hclear : ∀ entries, updateIngredientsArray body = entries →
            entries ≠ [] → Forall blank entries →
            (res = mkResponse 500 (Message "Server error")
             ∧ recipes st' = recipes st)
            ∨ (status res = 200
               ∧ Recipe.ingredients <$> recipes st' !! oid = Some [])).
  { intros entries Earr Hne Hblank.
    destruct Hrun as [? | (recipe' & -> & -> & _ & _ & _ & Hset & _)]; [by left |].
    right. split; [reflexivity |].
    rewrite Hid, lookup_insert_eq. simpl.
    rewrite Earr in Hset. specialize (Hset Hne).
    rewrite (filterTrim_blank entries Hblank) in Hset. by injection Hset as <-. }
  split; [| split; [| split]].
  - intros Hfalsy Hnone. apply Hkeep. unfold updateIngredientsArray.
    rewrite Hfalsy. by apply indexedIngredients_none.
  - intros Hkey. apply Hkeep. unfold updateIngredientsArray, get.
    rewrite Hkey. reflexivity.
  - intros entry entries Hkey Hblank. apply (Hclear (entry :: entries)); [| done..].
    unfold updateIngredientsArray, get. rewrite Hkey. reflexivity.
  - intros s Hkey Hs Htrim. apply (Hclear [VStr s]).
    + unfold updateIngredientsArray, get. rewrite Hkey. simpl.
      destruct (String.eqb_spec s ""); [done | reflexivity].
    + done.
    + apply Forall_singleton. by exists s.
Qed.

Lemma update_ingredients_when_present_witness :
  @castObjectId sample pasta_id = Some 10%N
  ∧ recipes kitchen !! 10%N = Some pasta
  ∧ Recipe._id pasta = 10%N
  ∧ User._id alice = Recipe.createdBy pasta
  ∧ blank_array_body !! "ingredients" = Some (VArr [VStr ""; VStr "  "])
  ∧ Forall blank [VStr ""; VStr "  "]
  ∧ let '(res, st') := @updateRecipe sample alice pasta_id None blank_array_body kitchen in
    (res = mkResponse 500 (Message "Server error") ∧ recipes st' = recipes kitchen)
    ∨ (status res = 200
       ∧ Recipe.ingredients <$> recipes st' !! 10%N = Some []).
Proof.
  assert (Hblank : Forall blank [VStr ""; VStr "  "]).
  { repeat constructor; eexists; (split; [reflexivity |]); reflexivity. }
  split; [reflexivity |]. split; [reflexivity |]. split; [reflexivity |].
  split; [reflexivity |]. split; [reflexivity |]. split; [exact Hblank |].
  pose proof (@update_ingredients_when_present sample alice pasta_id None
                blank_array_body kitchen 10%N pasta
                eq_refl eq_refl eq_refl (or_introl eq_refl)) as H.
  destruct (@updateRecipe sample alice pasta_id None blank_array_body kitchen)
    as [res st'].
  destruct H as (_ & _ & H & _).
  exact (H (VStr "") [VStr "  "] eq_refl Hblank).
Defined.

(** An [ingredients] key whose one entry is the empty string: the update
    is answered 200 and the stored ingredients are still the pasta and the
    salt, not the empty sequence the blank entry filters to. *)
Lemma empty_text_is_not_cleared :
  let '(res, st') := @updateRecipe sample alice pasta_id None empty_text_body kitchen in
  empty_text_body !! "ingredients" = Some (VStr "")
  ∧ blank (VStr "")
  ∧ filterTrim [VStr ""] = inr []
  ∧ status res = 200
  ∧ Recipe.ingredients <$> recipes st' !! 10%N = Some [VStr "pasta"; VStr "salt"]
  ∧ Recipe.ingredients <$> recipes st' !! 10%N ≠ Some [].
Proof.
  vm_compute. repeat split; try reflexivity; try discriminate.
  exists "". split; reflexivity.
Qed.

(** ** Failures of the image host (C9) *)

(** With a new file, the rejected deletion is caught and the handler goes
    on to store the new image. *)
Lemma handleImage_new_file `{W : Services} f body recipe st :
  nonempty (or_else (path f) (secure_url f)) = true →
  (∀ pid, destroy_resolves pid = false) →
  handleImage (Some f) body recipe st
    = (inr (Recipe.set_image (or_else (path f) (secure_url f)) recipe), st).
Proof.
  intros Hurl Hdown. unfold handleImage, destroyImage, destroy. run.
  rewrite Hurl.
  destruct (nonempty (Recipe.image recipe) && CLOUDINARY_CONFIG_OK);
    [rewrite Hdown |]; reflexivity.
Qed.

(** C9, where the code departs from it. The recipe has an image, the
    image host is configured and rejects the deletion of that image.
    Then [DELETE /:id] by the creator or the admin is answered 500 and
    the recipe stays, and so is [PUT /:id] with [clearImage] set to "true"
    and no new file: in both the rejection is not caught. *)
Theorem image_deletion_failure_aborts `{W : Services}
    (user : User.t) (id : string) (body : gmap string value) (st : State)
    (oid : ObjectId) (recipe : Recipe.t) (url : string) :
  castObjectId id = Some oid →
  recipes st !! oid = Some recipe →
  User._id user = Recipe.createdBy recipe ∨ User.email user = "admin@gmail.com" →
  Recipe.image recipe = Some url →
  url ≠ "" →
  CLOUDINARY_CONFIG_OK = true →
  destroy_resolves (publicId url) = false →
  body !! "clearImage" = Some (VStr "true") →
  deleteRecipe user id st = (mkResponse 500 (Message "Server error"), st)
  ∧ updateRecipe user id None body st
      = (mkResponse 500 (Message "Server error"), st).
Proof.
  intros Hcast Hfound Hauth Himg Hurl Hconf Hdown Hclear.
  assert (Hthrow : destroyImage false recipe st = (inl MediaError, st)).
  { unfold destroyImage, destroy, nonempty. rewrite Himg, Hconf. simpl.
    destruct (String.eqb_spec url ""); [done |]. simpl. by rewrite Hdown. }
  split.
  - rewrite (deleteRecipe_found st id oid recipe Hcast Hfound),
      (gate_open user recipe Hauth).
    unfold try_catch. run. by rewrite Hthrow.
  - rewrite (updateRecipe_found st id oid recipe Hcast Hfound),
      (gate_open user recipe Hauth).
    unfold try_catch, handleImage, get. rewrite Hclear. simpl. run.
    by rewrite Hthrow.
Qed.

Lemma image_deletion_failure_aborts_witness :
  @castObjectId sample_media_down pasta_id = Some 10%N
  ∧ recipes kitchen !! 10%N = Some pasta
  ∧ User._id alice = Recipe.createdBy pasta
  ∧ @deleteRecipe sample_media_down alice pasta_id kitchen
      = (mkResponse 500 (Message "Server error"), kitchen)
  ∧ @updateRecipe sample_media_down alice pasta_id None clear_image_body kitchen
      = (mkResponse 500 (Message "Server error"), kitchen).
Proof.
  split; [reflexivity |]. split; [reflexivity |]. split; [reflexivity |].
  apply (@image_deletion_failure_aborts sample_media_down alice pasta_id
           clear_image_body kitchen 10%N pasta
           "https://img.example/Recipedia-Images/recipe-17.jpg").
  - reflexivity.
  - reflexivity.
  - left. reflexivity.
  - reflexivity.
  - discriminate.
  - reflexivity.
  - reflexivity.
  - reflexivity.
Defined.

(** ** POST /: the ingredients (C6, C7) *)

(** The indexed ingredients are read in the order of their keys as text. *)
Lemma indexedIngredients_in_key_order body :
  ∃ keys,
    indexedIngredients body = get body <$> keys
    ∧ Sorted key_le keys
    ∧ keys ≡ₚ filter (λ k, String.prefix "ingredients[" k = true)
                     (fst <$> map_to_list body).
Proof.
  eexists. split; [reflexivity |]. split.
  - apply Sorted_merge_sort. intros a b. apply String.leb_total.
  - apply merge_sort_Permutation.
Qed.

(** The four encodings of the ingredients a and b, and of a alone, as the
    create handler reads them with the sample parser. *)
Example encodings_of_two_ingredients :
  @createIngredientsArray sample (json_text_body json_ab) = [VStr "a"; VStr "b"]
  ∧ @createIngredientsArray sample {[ "ingredients" := VArr [VStr "a"; VStr "b"] ]}
    = [VStr "a"; VStr "b"]
  ∧ @createIngredientsArray sample
      (list_to_map [("ingredients[0]", VStr "a"); ("ingredients[1]", VStr "b")])
    = [VStr "a"; VStr "b"]
  ∧ @createIngredientsArray sample {[ "ingredients" := VStr "a" ]} = [VStr "a"].
Proof. split; [| split; [| split]]; vm_compute; reflexivity. Qed.

(** What [POST /] answers 400 to: a missing title, instructions or
    category, or an ingredients array with no entry at all; nothing is
    written then. *)
Lemma createRecipe_rejects `{W : Services} user newId file body st :
  (status (createRecipe user newId file body st).1 = 400
   ↔ truthy (get body "title") = false
     ∨ truthy (get body "instructions") = false
     ∨ truthy (get body "category") = false
     ∨ createIngredientsArray body = [])
  ∧ (status (createRecipe user newId file body st).1 = 400 →
     (createRecipe user newId file body st).2 = st).
Proof.
  unfold createRecipe, try_catch, save. run.
  destruct (truthy (get body "title")), (truthy (get body "instructions")),
    (truthy (get body "category")),
    (createIngredientsArray body) as [| i l];
    simpl; try (split; [split; [tauto | done] | done]).
  destruct (validates _); simpl; [destruct (bool_decide _); simpl |];
    (split; [split; [discriminate | intros [? | [? | [? | ?]]]; discriminate]
            | discriminate]).
Qed.

(** That submission is never answered 400. *)
Lemma blank_submission_not_rejected `{W : Services} user newId file st :
  status (createRecipe user newId file blank_submission st).1 ≠ 400.
Proof.
  intros H400.
  apply (proj1 (createRecipe_rejects user newId file blank_submission st)) in H400.
  assert (E : createIngredientsArray blank_submission = [VStr ""])
    by (vm_compute; reflexivity).
  rewrite E in H400. clear E.
  destruct H400 as [H | [H | [H | H]]]; vm_compute in H; discriminate H.
Qed.

(** C6, where the code departs from it. A submission with every required
    field and, for ingredients, one empty string is not rejected: when the
    document validates and the new id is free, the answer is 201 and a
    recipe without any ingredient is stored. *)
Theorem blank_ingredients_are_accepted `{W : Services}
    (user : User.t) (newId : ObjectId) (st : State) :
  validates (blank_recipe user newId) = true →
  recipes st !! newId = None →
  createRecipe user newId None blank_submission st
    = (mkResponse 201 (Created (blank_recipe user newId)),
       set_recipes (<[newId := blank_recipe user newId]> (recipes st)) st)
  ∧ Recipe.ingredients (blank_recipe user newId) = [].
Proof.
  intros Hvalid Hfree. split; [| reflexivity].
  unfold createRecipe, try_catch, save. run.
  assert (E : createIngredientsArray blank_submission = [VStr ""])
    by (vm_compute; reflexivity).
  rewrite E.
  change (get blank_submission "title") with (VStr "Pasta").
  change (get blank_submission "instructions") with (VStr "Boil.").
  change (get blank_submission "category") with (VStr "Dinner").
  change (get blank_submission "description") with VUndefined.
  change (get blank_submission "cookingTime") with VUndefined.
  simpl. fold (blank_recipe user newId). rewrite Hvalid. simpl.
  rewrite Hfree. rewrite bool_decide_eq_false_2 by (intros [? ?]; discriminate).
  reflexivity.
Qed.

Lemma blank_ingredients_are_accepted_witness :
  @validates sample (blank_recipe bob 11%N) = true
  ∧ recipes kitchen !! 11%N = None
  ∧ @createRecipe sample bob 11%N None blank_submission kitchen
      = (mkResponse 201 (Created (blank_recipe bob 11%N)),
         set_recipes (<[11%N := blank_recipe bob 11%N]> (recipes kitchen)) kitchen)
  ∧ Recipe.ingredients (blank_recipe bob 11%N) = [].
Proof.
  split; [reflexivity |]. split; [reflexivity |].
  apply (@blank_ingredients_are_accepted sample bob 11%N kitchen).
  - reflexivity.
  - reflexivity.
Defined.

(** C7, where the code departs from it. For an [ingredients] field that
    is the JSON text of an array, the create handler takes the entries of
    the parsed array while the update handler, which does not parse, takes
    the text itself as the one ingredient.  The two also filter
    differently: an ingredient made of a space is kept on create and
    dropped on update. *)
Theorem update_does_not_parse_json `{W : Services}
    (text : string) (parsed : list value) :
  text ≠ "" →
  JSON_parse (VStr text) = Some (VArr parsed) →
  createIngredientsArray (json_text_body text) = parsed
  ∧ updateIngredientsArray (json_text_body text) = [VStr text]
  ∧ filterBoolean (createIngredientsArray space_indexed_body) = [VStr " "]
  ∧ filterTrim (updateIngredientsArray space_indexed_body) = inr [].
Proof.
  intros Htext Hparse.
  assert (Hget : get (json_text_body text) "ingredients" = VStr text).
  { unfold get, json_text_body. by rewrite lookup_singleton_eq. }
  assert (Htruthy : truthy (VStr text) = true).
  { simpl. by destruct (String.eqb_spec text ""). }
  unfold createIngredientsArray, updateIngredientsArray.
  rewrite Hget, Htruthy, Hparse.
  split; [reflexivity |]. split; [reflexivity |].
  change (get space_indexed_body "ingredients") with VUndefined. simpl.
  split; vm_compute; reflexivity.
Qed.

Lemma update_does_not_parse_json_witness :
  json_ab ≠ ""
  ∧ @JSON_parse sample (VStr json_ab) = Some (VArr [VStr "a"; VStr "b"])
  ∧ @createIngredientsArray sample (json_text_body json_ab) = [VStr "a"; VStr "b"]
  ∧ updateIngredientsArray (json_text_body json_ab) = [VStr json_ab]
  ∧ filterBoolean (@createIngredientsArray sample space_indexed_body) = [VStr " "]
  ∧ filterTrim (updateIngredientsArray space_indexed_body) = inr [].
Proof.
  assert (Hne : json_ab ≠ "") by (vm_compute; discriminate).
  split; [exact Hne |]. split; [reflexivity |].
  apply (@update_does_not_parse_json sample json_ab [VStr "a"; VStr "b"]).
  - exact Hne.
  - reflexivity.
Defined.

(** ** The cases of the ownership check, on the sample kitchen *)

Lemma owner_or_admin_gate_witness :
  @castObjectId sample pasta_id = Some 10%N
  ∧ recipes kitchen !! 10%N = Some pasta
  ∧ (User._id bob ≠ Recipe.createdBy pasta ∧ User.email bob ≠ "admin@gmail.com"
     ∧ @updateRecipe sample bob pasta_id None empty_text_body kitchen
         = (mkResponse 401 (Message "Not authorized"), kitchen)
     ∧ @deleteRecipe sample bob pasta_id kitchen
         = (mkResponse 401 (Message "Not authorized"), kitchen))
  ∧ (User.email admin = "admin@gmail.com"
     ∧ @updateRecipe sample admin pasta_id None empty_text_body kitchen
         = @updateRecipe sample alice pasta_id None empty_text_body kitchen
     ∧ @deleteRecipe sample admin pasta_id kitchen
         = @deleteRecipe sample alice pasta_id kitchen).
Proof.
  split; [reflexivity |]. split; [reflexivity |].
  pose proof (@owner_or_admin_gate sample bob pasta_id None empty_text_body
                kitchen 10%N pasta eq_refl eq_refl) as Hbob.
  pose proof (@owner_or_admin_gate sample admin pasta_id None empty_text_body
                kitchen 10%N pasta eq_refl eq_refl) as Hadmin.
  cbv zeta in Hbob, Hadmin.
  destruct Hbob as (_ & _ & Hbob & _).
  destruct Hadmin as (_ & _ & _ & Hadmin & _).
  assert (Hown : User._id bob ≠ Recipe.createdBy pasta) by discriminate.
  assert (Hmail : User.email bob ≠ "admin@gmail.com") by discriminate.
  split.
  - split; [exact Hown |]. split; [exact Hmail |]. exact (Hbob Hown Hmail).
  - split; [reflexivity |].
    destruct (Hadmin eq_refl) as (_ & _ & Hsame).
    exact (Hsame alice eq_refl).
Defined.

(** The admin deleting Alice's recipe: 200, the recipe is gone and its
    image was destroyed at the host. *)
Example admin_deletes_foreign_recipe :
  @deleteRecipe sample admin pasta_id kitchen
    = (mkResponse 200 (Message "Recipe deleted"),
       mkState ∅ (users kitchen) ["recipe-17"]).
Proof. vm_compute. reflexivity. Qed.

(** With a new file the rejected deletion of the old image is logged and
    the update is answered 200. *)
Example new_image_survives_media_failure :
  status (@updateRecipe sample_media_down alice pasta_id (Some new_image) ∅ kitchen).1
    = 200.
Proof. vm_compute. reflexivity. Qed.

Lemma likes_unique_kitchen : likes_unique kitchen.
Proof.
  intros oid r Hr. unfold kitchen in Hr. simpl in Hr.
  apply lookup_singleton_Some in Hr as [_ <-]. apply NoDup_nil_2.
Qed.

Lemma likedBy_never_duplicates_witness :
  likes_unique kitchen
  ∧ (∀ user id, likes_unique (@likeRecipe sample user id kitchen).2)
  ∧ (∀ req, likes_unique (@handle sample req kitchen).2)
  ∧ (∀ reqs, likes_unique (@serve sample reqs kitchen)).
Proof.
  split; [exact likes_unique_kitchen |].
  apply (@likedBy_never_duplicates sample kitchen). exact likes_unique_kitchen.
Defined.

(** Bob likes Alice's recipe, then once more: [likedByUser] true with one
    like, then false with none. *)
Example bob_likes_then_unlikes :
  let '(first, st1) := @likeRecipe sample bob pasta_id kitchen in
  let '(second, st2) := @likeRecipe sample bob pasta_id st1 in
  first = mkResponse 200 (Liked true 1)
  ∧ second = mkResponse 200 (Liked false 0)
  ∧ st2 = kitchen.
Proof. vm_compute. split; [reflexivity |]. split; reflexivity. Qed.

(** * Further properties of the routes *)

(** ** What a like and a delete do to a stored recipe *)

Section Outcomes.
Context `{W : Services}.
Context (st : State) (id : string) (oid : ObjectId) (recipe : Recipe.t).
Hypothesis Hcast : castObjectId id = Some oid.
Hypothesis Hfound : recipes st !! oid = Some recipe.

Lemma likeRecipe_outcome user :
  let likedBy' := toggled (User._id user) (Recipe.likedBy recipe) in
  likeRecipe user id st
    = if validates (Recipe.set_likedBy likedBy' recipe)
      then (mkResponse 200
              (Liked (bool_decide (User._id user ∉ Recipe.likedBy recipe))
                     (length likedBy')),
            set_recipes (<[Recipe._id recipe := Recipe.set_likedBy likedBy' recipe]>
                           (recipes st)) st)
      else (mkResponse 500 (Message "Server error"), st).
Proof.
  intros likedBy'.
  destruct (validates (Recipe.set_likedBy likedBy' recipe)) eqn:Hvalid.
  - by apply (likeRecipe_saved user id st oid recipe).
  - rewrite (likeRecipe_found st id oid recipe Hcast Hfound). cbv zeta.
    fold (toggled (User._id user) (Recipe.likedBy recipe)).
    assert (Hdoc :
      (if Z.eqb (findIndex (λ x, equals x (User._id user)) (Recipe.likedBy recipe)) (-1)
       then Recipe.set_likedBy (Recipe.likedBy recipe ++ [User._id user]) recipe
       else Recipe.set_likedBy
              (splice1 (findIndex (λ x, equals x (User._id user)) (Recipe.likedBy recipe))
                       (Recipe.likedBy recipe)) recipe)
      = Recipe.set_likedBy likedBy' recipe).
    { subst likedBy'. unfold toggled. by destruct (Z.eqb _ _). }
    rewrite Hdoc. run. unfold save. by rewrite Hvalid.
Qed.

Lemma deleteRecipe_outcome user :
  negb (isAdmin user) && negb (isOwner recipe user) = false →
  deleteRecipe user id st
    = if nonempty (Recipe.image recipe) && CLOUDINARY_CONFIG_OK
      then
        if destroy_resolves (publicId (default "" (Recipe.image recipe)))
        then (mkResponse 200 (Message "Recipe deleted"),
              mkState (base.delete (Recipe._id recipe) (recipes st)) (users st)
                      (publicId (default "" (Recipe.image recipe)) :: destroyed st))
        else (mkResponse 500 (Message "Server error"), st)
      else (mkResponse 200 (Message "Recipe deleted"),
            set_recipes (base.delete (Recipe._id recipe) (recipes st)) st).
Proof.
  intros Hgate.
  rewrite (deleteRecipe_found st id oid recipe Hcast Hfound), Hgate.
  unfold try_catch, destroyImage, destroy, deleteOne. run.
  destruct (nonempty (Recipe.image recipe) && CLOUDINARY_CONFIG_OK); [| reflexivity].
  destruct (destroy_resolves _); reflexivity.
Qed.

End Outcomes.

(** ** GET /:id *)

Lemma existsb_equals (uid : ObjectId) (l : list ObjectId) :
  existsb (λ x, equals x uid) l = bool_decide (uid ∈ l).
Proof.
  induction l as [| a l IH]; cbn [existsb].
  - symmetry. apply bool_decide_eq_false_2. by intros ?%elem_of_nil.
  - rewrite IH. destruct (equals a uid) eqn:E; cbn [orb].
    + apply equals_true in E as ->. symmetry. apply bool_decide_eq_true_2. by left.
    + apply equals_false in E. apply bool_decide_ext.
      rewrite elem_of_cons. split; [by right | by intros [-> | ?]].
Qed.

Lemma getRecipe_stored `{W : Services} viewer id st oid recipe :
  isValid id = true →
  castObjectId id = Some oid →
  recipes st !! oid = Some recipe →
  getRecipe viewer id st
    = (mkResponse 200
         (Detail recipe
            ((λ u, (User.username u, User.email u))
               <$> users st !! Recipe.createdBy recipe)
            match viewer with
            | Some u => bool_decide (User._id u ∈ Recipe.likedBy recipe)
            | None => false
            end
            (length (Recipe.likedBy recipe))), st).
Proof.
  intros Hvalid Hcast Hfound.
  assert (E : findById id st = (inr (Some recipe), st))
    by (unfold findById; by rewrite Hcast, Hfound).
  unfold getRecipe, try_catch. rewrite Hvalid. cbn [negb]. run. rewrite E.
  unfold populate, likedByUser. simpl. do 3 f_equal.
  destruct viewer as [u |]; [apply existsb_equals | reflexivity].
Qed.

Lemma get_recipe_state `{W : Services} viewer id st :
  (getRecipe viewer id st).2 = st.
Proof.
  unfold getRecipe, try_catch, findById, populate. run.
  repeat case_match; simplify_eq/=; reflexivity.
Qed.

(** X1. [GET /:id] never writes.  It answers 400 exactly when the id is
    not valid, 500 exactly when a valid id does not cast, 404 exactly when
    the id is valid and casts and no recipe is stored under it; otherwise
    200 with the stored recipe, the name and email of its creator when
    that user exists, [likes] the length of [likedBy], and [likedByUser]
    telling whether the viewer is in [likedBy] (false without a viewer). *)
Theorem get_recipe_answers `{W : Services}
    (viewer : option User.t) (id : string) (st : State) :
  let res := (getRecipe viewer id st).1 in
  (getRecipe viewer id st).2 = st
  ∧ (status res = 400 ↔ isValid id = false)
  ∧ (status res = 500 ↔ isValid id = true ∧ castObjectId id = None)
  ∧ (status res = 404 ↔
       isValid id = true
       ∧ ∃ oid, castObjectId id = Some oid ∧ recipes st !! oid = None)
  ∧ (∀ oid recipe,
       isValid id = true → castObjectId id = Some oid →
       recipes st !! oid = Some recipe →
       res = mkResponse 200
               (Detail recipe
                  ((λ u, (User.username u, User.email u))
                     <$> users st !! Recipe.createdBy recipe)
                  match viewer with
                  | Some u => bool_decide (User._id u ∈ Recipe.likedBy recipe)
                  | None => false
                  end
                  (length (Recipe.likedBy recipe)))).
Proof.
  cbv zeta.
  destruct (isValid id) eqn:Hvalid.
  2: { unfold getRecipe, try_catch. rewrite Hvalid. simpl.
       split_and!; [done | done | | |].
       - split; [discriminate | by intros [? _]].
       - split; [discriminate | by intros [? _]].
       - intros; discriminate. }
  destruct (castObjectId id) as [oid |] eqn:Hcast.
  2: { unfold getRecipe, try_catch, findById. rewrite Hvalid. cbn [negb]. run.
       rewrite Hcast. simpl.
       split_and!; [done | | done | |].
       - split; discriminate.
       - split; [discriminate | intros [_ (? & ? & _)]; discriminate].
       - intros; discriminate. }
  destruct (recipes st !! oid) as [recipe |] eqn:Hfound.
  - rewrite (getRecipe_stored viewer id st oid recipe Hvalid Hcast Hfound). simpl.
    split_and!; [done | | | |].
    + split; discriminate.
    + split; [discriminate | intros [_ ?]; discriminate].
    + split; [discriminate |].
      intros [_ (o & [= <-] & Hnone)]. rewrite Hfound in Hnone. discriminate.
    + intros oid' recipe' _ [= <-] Hr. rewrite Hfound in Hr. by injection Hr as <-.
  - assert (E : findById id st = (inr None, st))
      by (unfold findById; by rewrite Hcast, Hfound).
    unfold getRecipe, try_catch. rewrite Hvalid. cbn [negb]. run. rewrite E. simpl.
    split_and!; [done | | | |].
    + split; discriminate.
    + split; [discriminate | intros [_ ?]; discriminate].
    + split; [| done]. intros _. split; [done | by exists oid].
    + intros oid' recipe' _ [= <-] Hr. rewrite Hfound in Hr. discriminate.
Qed.

(** ** Requests on a recipe that is not stored *)

Lemma absent_recipe_404 `{W : Services} user id file body st oid :
  castObjectId id = Some oid →
  recipes st !! oid = None →
  likeRecipe user id st = (mkResponse 404 (Message "Recipe not found"), st)
  ∧ updateRecipe user id file body st
      = (mkResponse 404 (Message "Recipe not found"), st)
  ∧ deleteRecipe user id st = (mkResponse 404 (Message "Recipe not found"), st).
Proof.
  intros Hcast Hnone.
  assert (E : findById id st = (inr None, st))
    by (unfold findById; by rewrite Hcast, Hnone).
  unfold likeRecipe, updateRecipe, deleteRecipe, try_catch. run.
  by rewrite E.
Qed.

(** X2. When the id casts and no recipe is stored under it, a like, an
    update and a delete are each answered 404 "Recipe not found", whoever
    calls, and nothing is written. *)
Theorem missing_recipe_is_not_found `{W : Services}
    (user : User.t) (id : string) (file : option File)
    (body : gmap string value) (st : State) (oid : ObjectId) :
  castObjectId id = Some oid →
  recipes st !! oid = None →
  likeRecipe user id st = (mkResponse 404 (Message "Recipe not found"), st)
  ∧ updateRecipe user id file body st
      = (mkResponse 404 (Message "Recipe not found"), st)
  ∧ deleteRecipe user id st = (mkResponse 404 (Message "Recipe not found"), st).
Proof. apply absent_recipe_404. Qed.

Lemma missing_recipe_is_not_found_witness :
  @castObjectId sample fresh_id = Some 12%N
  ∧ recipes pantry !! 12%N = None
  ∧ @likeRecipe sample admin fresh_id pantry
      = (mkResponse 404 (Message "Recipe not found"), pantry)
  ∧ @updateRecipe sample admin fresh_id None retitle_body pantry
      = (mkResponse 404 (Message "Recipe not found"), pantry)
  ∧ @deleteRecipe sample admin fresh_id pantry
      = (mkResponse 404 (Message "Recipe not found"), pantry).
Proof.
  split; [reflexivity |]. split; [reflexivity |].
  apply (@missing_recipe_is_not_found sample admin fresh_id None retitle_body
           pantry 12%N).
  - reflexivity.
  - reflexivity.
Defined.


(** ** DELETE /:id *)

(** X3. After a delete answered 200, the recipe is gone and no other
    recipe and no user has changed; from then on a like, an update and a
    delete of that id are answered 404, by whoever asks, and so is
    [GET /:id]. *)
Theorem deleted_recipe_is_gone `{W : Services}
    (user : User.t) (id : string) (st : State) (oid : ObjectId) (recipe : Recipe.t) :
  castObjectId id = Some oid →
  recipes st !! oid = Some recipe →
  Recipe._id recipe = oid →
  status (deleteRecipe user id st).1 = 200 →
  let st' := (deleteRecipe user id st).2 in
  recipes st' = base.delete oid (recipes st)
  ∧ users st' = users st
  ∧ (∀ caller file body,
       likeRecipe caller id st' = (mkResponse 404 (Message "Recipe not found"), st')
       ∧ updateRecipe caller id file body st'
           = (mkResponse 404 (Message "Recipe not found"), st')
       ∧ deleteRecipe caller id st'
           = (mkResponse 404 (Message "Recipe not found"), st'))
  ∧ (∀ viewer, isValid id = true →
       getRecipe viewer id st' = (mkResponse 404 (Message "Recipe not found"), st')).
Proof.
  intros Hcast Hfound Hid H200 st'.
  assert (Hgone : recipes st' = base.delete oid (recipes st) ∧ users st' = users st).
  { subst st'. revert H200.
    destruct (negb (isAdmin user) && negb (isOwner recipe user)) eqn:Hgate.
    - rewrite (deleteRecipe_found st id oid recipe Hcast Hfound), Hgate. discriminate.
    - rewrite (deleteRecipe_outcome st id oid recipe Hcast Hfound user Hgate), Hid.
      destruct (nonempty (Recipe.image recipe) && CLOUDINARY_CONFIG_OK);
        [destruct (destroy_resolves _) |]; simpl; done. }
  destruct Hgone as [Hrec Husers].
  assert (Hnone : recipes st' !! oid = None) by (rewrite Hrec; apply lookup_delete_eq).
  split; [exact Hrec |]. split; [exact Husers |]. split.
  - intros caller file body.
    apply (absent_recipe_404 caller id file body st' oid Hcast Hnone).
  - intros viewer Hvalid.
    assert (E : findById id st' = (inr None, st'))
      by (unfold findById; by rewrite Hcast, Hnone).
    unfold getRecipe, try_catch. rewrite Hvalid. cbn [negb]. run.
    by rewrite E.
Qed.

Lemma deleted_recipe_is_gone_witness :
  @castObjectId sample pasta_id = Some 10%N
  ∧ recipes pantry !! 10%N = Some pasta
  ∧ status (@deleteRecipe sample admin pasta_id pantry).1 = 200
  ∧ let st' := (@deleteRecipe sample admin pasta_id pantry).2 in
    recipes st' = base.delete 10%N (recipes pantry)
    ∧ users st' = users pantry
    ∧ (∀ caller file body,
         @likeRecipe sample caller pasta_id st'
           = (mkResponse 404 (Message "Recipe not found"), st')
         ∧ @updateRecipe sample caller pasta_id file body st'
             = (mkResponse 404 (Message "Recipe not found"), st')
         ∧ @deleteRecipe sample caller pasta_id st'
             = (mkResponse 404 (Message "Recipe not found"), st'))
    ∧ (∀ viewer, @isValid sample pasta_id = true →
         @getRecipe sample viewer pasta_id st'
           = (mkResponse 404 (Message "Recipe not found"), st')).
Proof.
  split; [reflexivity |]. split; [reflexivity |]. split; [reflexivity |].
  apply (@deleted_recipe_is_gone sample admin pasta_id pantry 10%N pasta).
  - reflexivity.
  - reflexivity.
  - reflexivity.
  - reflexivity.
Defined.

(** ** POST /:id/like *)

(** X4. A like on a stored recipe never asks who owns it: the answer is
    200 or 500, for any caller.  It writes no user and destroys no image,
    leaves every other recipe as it was, and changes nothing of the liked
    recipe but its [likedBy]. *)
Theorem like_touches_only_likedBy `{W : Services}
    (user : User.t) (id : string) (st : State) (oid : ObjectId) (recipe : Recipe.t) :
  castObjectId id = Some oid →
  recipes st !! oid = Some recipe →
  Recipe._id recipe = oid →
  let '(res, st') := likeRecipe user id st in
  (status res = 200 ∨ res = mkResponse 500 (Message "Server error") ∧ st' = st)
  ∧ users st' = users st
  ∧ destroyed st' = destroyed st
  ∧ (∀ other, other ≠ oid → recipes st' !! other = recipes st !! other)
  ∧ ∃ recipe', recipes st' !! oid = Some recipe'
       ∧ recipe' = Recipe.set_likedBy (Recipe.likedBy recipe') recipe.
Proof.
  intros Hcast Hfound Hid.
  rewrite (likeRecipe_outcome st id oid recipe Hcast Hfound user). cbv zeta.
  destruct (validates _).
  - split_and!; [by left | done | done | |].
    + intros other Hne. simpl. rewrite Hid. by apply lookup_insert_ne.
    + eexists. split; [simpl; rewrite Hid; apply lookup_insert_eq | reflexivity].
  - split_and!; [by right | done | done | done |].
    exists recipe. split; [done |]. by destruct recipe.
Qed.

Lemma like_touches_only_likedBy_witness :
  @castObjectId sample soup_id = Some 11%N
  ∧ recipes pantry !! 11%N = Some soup
  ∧ let '(res, st') := @likeRecipe sample alice soup_id pantry in
    (status res = 200 ∨ res = mkResponse 500 (Message "Server error") ∧ st' = pantry)
    ∧ users st' = users pantry
    ∧ destroyed st' = destroyed pantry
    ∧ (∀ other, other ≠ 11%N → recipes st' !! other = recipes pantry !! other)
    ∧ ∃ recipe', recipes st' !! 11%N = Some recipe'
         ∧ recipe' = Recipe.set_likedBy (Recipe.likedBy recipe') soup.
Proof.
  split; [reflexivity |]. split; [reflexivity |].
  apply (@like_touches_only_likedBy sample alice soup_id pantry 11%N soup).
  - reflexivity.
  - reflexivity.
  - reflexivity.
Defined.

(** X5. After a like answered 200 on a recipe whose [likedBy] holds no
    id twice, [GET /:id] by the same user reports the [likedByUser] and
    the [likes] of that answer. *)
Theorem like_then_get_agree `{W : Services}
    (user : User.t) (id : string) (st : State) (oid : ObjectId) (recipe : Recipe.t) :
  isValid id = true →
  castObjectId id = Some oid →
  recipes st !! oid = Some recipe →
  Recipe._id recipe = oid →
  NoDup (Recipe.likedBy recipe) →
  status (likeRecipe user id st).1 = 200 →
  let '(res, st') := likeRecipe user id st in
  ∃ liked likes recipe' creator,
    res = mkResponse 200 (Liked liked likes)
    ∧ (getRecipe (Some user) id st').1
        = mkResponse 200 (Detail recipe' creator liked likes).
Proof.
  intros Hvalid Hcast Hfound Hid Hnd.
  rewrite (likeRecipe_outcome st id oid recipe Hcast Hfound user). cbv zeta.
  destruct (validates _); [| discriminate]. intros _.
  set (likedBy' := toggled (User._id user) (Recipe.likedBy recipe)).
  set (st' := set_recipes _ st).
  assert (Hfound' : recipes st' !! oid = Some (Recipe.set_likedBy likedBy' recipe))
    by (subst st'; simpl; rewrite Hid; apply lookup_insert_eq).
  eexists _, _, _, _. split; [reflexivity |].
  rewrite (getRecipe_stored (Some user) id st' oid _ Hvalid Hcast Hfound').
  simpl. do 2 f_equal.
  apply bool_decide_ext. fold likedBy'. subst likedBy'.
  rewrite toggled_elem_of by done.
  destruct (decide (User._id user ∈ Recipe.likedBy recipe)); tauto.
Qed.

Lemma like_then_get_agree_witness :
  @isValid sample soup_id = true
  ∧ @castObjectId sample soup_id = Some 11%N
  ∧ recipes pantry !! 11%N = Some soup
  ∧ NoDup (Recipe.likedBy soup)
  ∧ status (@likeRecipe sample alice soup_id pantry).1 = 200
  ∧ let '(res, st') := @likeRecipe sample alice soup_id pantry in
    ∃ liked likes recipe' creator,
      res = mkResponse 200 (Liked liked likes)
      ∧ (@getRecipe sample (Some alice) soup_id st').1
          = mkResponse 200 (Detail recipe' creator liked likes).
Proof.
  assert (Hnd : NoDup (Recipe.likedBy soup)).
  { simpl. apply NoDup_cons. split; [| apply NoDup_singleton].
    intros Hin%list_elem_of_singleton. discriminate. }
  split; [reflexivity |]. split; [reflexivity |]. split; [reflexivity |].
  split; [exact Hnd |]. split; [reflexivity |].
  apply (@like_then_get_agree sample alice soup_id pantry 11%N soup).
  - reflexivity.
  - reflexivity.
  - reflexivity.
  - reflexivity.
  - exact Hnd.
  - reflexivity.
Defined.


(** ** POST / *)

(** The document [POST /] builds from a body. *)
Lemma createRecipe_outcome `{W : Services} user newId file body st :
  let recipe :=
    Recipe.mk newId (get body "title") (get body "description")
      (get body "instructions") (get body "category") (get body "cookingTime")
      (filterBoolean (createIngredientsArray body))
      match file with
      | Some f => or_else (path f) (secure_url f)
      | None => None
      end
      (User._id user) [] in
  createRecipe user newId file body st
    = if negb (truthy (get body "title")) || negb (truthy (get body "instructions"))
         || negb (truthy (get body "category"))
         || Nat.eqb (length (createIngredientsArray body)) 0
      then (mkResponse 400 (Message
              "Missing required fields: title, ingredients, instructions, category"),
            st)
      else if negb (validates recipe) then (mkResponse 500 (Message "Server error"), st)
      else if bool_decide (is_Some (recipes st !! newId))
      then (mkResponse 500 (Message "Server error"), st)
      else (mkResponse 201 (Created recipe),
            set_recipes (<[newId := recipe]> (recipes st)) st).
Proof.
  intros recipe. unfold createRecipe, try_catch, save. run. fold recipe.
  destruct (_ || _); [reflexivity |].
  destruct (negb (validates recipe)); [reflexivity |]. simpl.
  destruct (bool_decide _); reflexivity.
Qed.




(** X7. [POST /] answers 201, 400 or 500 and nothing else; 400 exactly
    when the title, the instructions or the category is missing or empty,
    or the ingredients array has no entry; unless it answers 201 nothing
    is written; and whatever it answers, no stored recipe is replaced, no
    user is written and no image is destroyed. *)
Theorem create_validates_then_inserts `{W : Services}
    (user : User.t) (newId : ObjectId) (file : option File)
    (body : gmap string value) (st : State) :
  let '(res, st') := createRecipe user newId file body st in
  (status res = 201 ∨ status res = 400 ∨ status res = 500)
  ∧ (status res = 400 ↔
       truthy (get body "title") = false
       ∨ truthy (get body "instructions") = false
       ∨ truthy (get body "category") = false
       ∨ createIngredientsArray body = [])
  ∧ (status res ≠ 201 → st' = st)
  ∧ (∀ oid recipe, recipes st !! oid = Some recipe →
       recipes st' !! oid = Some recipe)
  ∧ users st' = users st
  ∧ destroyed st' = destroyed st.
Proof.
  pose proof (createRecipe_rejects user newId file body st) as [Hiff _].
  revert Hiff. rewrite createRecipe_outcome. cbv zeta.
  destruct (_ || _); simpl.
  { intros Hiff. split_and!; try done. tauto. }
  destruct (negb (validates _)); simpl.
  { intros Hiff. split_and!; try done. tauto. }
  destruct (bool_decide _) eqn:Htaken; simpl.
  { intros Hiff. split_and!; try done. tauto. }
  intros Hiff. split_and!; try done; [tauto |].
  intros oid recipe Hr. apply bool_decide_eq_false in Htaken.
  rewrite lookup_insert_ne; [done |]. intros <-. apply Htaken. by eexists.
Qed.


(** ** PUT /:id *)

Lemma set_image_same recipe : Recipe.set_image (Recipe.image recipe) recipe = recipe.
Proof. by destruct recipe. Qed.

Section UpdateSteps.
Context `{W : Services}.

Lemma destroyImage_users caught recipe st :
  users (destroyImage caught recipe st).2 = users st.
Proof.
  unfold destroyImage, destroy. run.
  repeat case_match; simplify_eq/=; reflexivity.
Qed.

(** The document image handling returns: the given one with, for image,
    the new URL, the empty string or what it had. *)
Lemma handleImage_result file body recipe st r1 st1 :
  handleImage file body recipe st = (inr r1, st1) →
  users st1 = users st
  ∧ r1 = Recipe.set_image (Recipe.image r1) recipe
  ∧ match file with
    | Some f =>
        Recipe.image r1
          = if nonempty (or_else (path f) (secure_url f))
            then or_else (path f) (secure_url f)
            else Recipe.image recipe
    | None =>
        (get body "clearImage" = VStr "true" → Recipe.image r1 = Some "")
        ∧ (get body "clearImage" ≠ VStr "true" →
             Recipe.image r1 = Recipe.image recipe)
    end.
Proof.
  unfold handleImage. destruct file as [f |].
  - destruct (nonempty (or_else (path f) (secure_url f))).
    + run. pose proof (destroyImage_users true recipe st) as U.
      destruct (destroyImage true recipe st) as [[e | []] st2]; [discriminate |].
      intros [= <- <-]. done.
    + run. intros [= <- <-]. by rewrite set_image_same.
  - assert (Hkeep : mret (M := M) recipe st = (inr r1, st1) →
              users st1 = users st
              ∧ r1 = Recipe.set_image (Recipe.image r1) recipe
              ∧ (get body "clearImage" ≠ VStr "true" →
                   Recipe.image r1 = Recipe.image recipe)).
    { intros [= <- <-]. by rewrite set_image_same. }
    assert (Hclear : (destroyImage false recipe
                        ≫= λ _, mret (Recipe.set_image (Some "") recipe)) st
                     = (inr r1, st1) →
              users st1 = users st
              ∧ r1 = Recipe.set_image (Recipe.image r1) recipe
              ∧ Recipe.image r1 = Some "").
    { run. pose proof (destroyImage_users false recipe st) as U.
      destruct (destroyImage false recipe st) as [[e | []] st2]; [discriminate |].
      intros [= <- <-]. done. }
    destruct (get body "clearImage") as [| | | | s | |] eqn:Hc;
      try (intros H; destruct (Hkeep H) as (? & ? & Hk);
           split_and!; [done | done | intros; discriminate | by apply Hk]).
    destruct (decide (s = "true")) as [-> | Hne].
    + intros H. destruct (Hclear H) as (? & ? & ?). split_and!; try done.
    + assert (Hstay : handleImage None body recipe st = mret (M := M) recipe st).
      { unfold handleImage. rewrite Hc.
        repeat (destruct s as [| [[] [] [] [] [] [] [] []] s]; try reflexivity);
          done. }
      unfold handleImage in Hstay. rewrite Hc in Hstay. rewrite Hstay.
      intros H. destruct (Hkeep H) as (? & ? & Hk).
      split_and!; [done | done | intros [= ->]; done | by apply Hk].
Qed.

Lemma updateIngredients_result ingredientsArray recipe st r2 st2 :
  updateIngredients ingredientsArray recipe st = (inr r2, st2) →
  st2 = st ∧ r2 = Recipe.set_ingredients (Recipe.ingredients r2) recipe.
Proof.
  unfold updateIngredients, lift. run.
  destruct (Nat.ltb 0 (length ingredientsArray)).
  - destruct (filterTrim ingredientsArray); [discriminate |].
    intros [= <- <-]. done.
  - intros [= <- <-]. by destruct recipe.
Qed.

(** An update answered 200 went through every step. *)
Lemma updateRecipe_saved user id file body st oid recipe :
  castObjectId id = Some oid →
  recipes st !! oid = Some recipe →
  status (updateRecipe user id file body st).1 = 200 →
  ∃ r1 st1 r2,
    handleImage file body recipe st = (inr r1, st1)
    ∧ r2 = Recipe.set_ingredients (Recipe.ingredients r2) (updateFields body r1)
    ∧ updateRecipe user id file body st
        = (mkResponse 200 (Updated "Recipe updated successfully" r2),
           set_recipes (<[Recipe._id r2 := r2]> (recipes st1)) st1).
Proof.
  intros Hcast Hfound.
  rewrite (updateRecipe_found st id oid recipe Hcast Hfound).
  destruct (negb (isAdmin user) && negb (isOwner recipe user)); [discriminate |].
  unfold try_catch. run.
  destruct (handleImage file body recipe st) as [[e | r1] st1]; [discriminate |].
  pose proof (updateIngredients_result (updateIngredientsArray body)
                (updateFields body r1) st1) as Hres.
  destruct (updateIngredients _ _ st1) as [[e | r2] st2]; [discriminate |].
  destruct (Hres r2 st2 eq_refl) as [-> Hr2].
  unfold save. destruct (validates r2); [| discriminate]. simpl. intros _.
  by exists r1, st1, r2.
Qed.

End UpdateSteps.

Lemma title_updateFields body recipe :
  Recipe.title (updateFields body recipe)
    = if truthy (get body "title") then get body "title" else Recipe.title recipe.
Proof. unfold updateFields, assign. by repeat case_match. Qed.

Lemma description_updateFields body recipe :
  Recipe.description (updateFields body recipe)
    = if truthy (get body "description") then get body "description"
      else Recipe.description recipe.
Proof. unfold updateFields, assign. by repeat case_match. Qed.

Lemma instructions_updateFields body recipe :
  Recipe.instructions (updateFields body recipe)
    = if truthy (get body "instructions") then get body "instructions"
      else Recipe.instructions recipe.
Proof. unfold updateFields, assign. by repeat case_match. Qed.

Lemma category_updateFields body recipe :
  Recipe.category (updateFields body recipe)
    = if truthy (get body "category") then get body "category"
      else Recipe.category recipe.
Proof. unfold updateFields, assign. by repeat case_match. Qed.

Lemma cookingTime_updateFields body recipe :
  Recipe.cookingTime (updateFields body recipe)
    = if truthy (get body "cookingTime") then get body "cookingTime"
      else Recipe.cookingTime recipe.
Proof. unfold updateFields, assign. by repeat case_match. Qed.

Lemma rest_updateFields body recipe :
  Recipe.image (updateFields body recipe) = Recipe.image recipe
  ∧ Recipe.createdBy (updateFields body recipe) = Recipe.createdBy recipe.
Proof. unfold updateFields, assign. by repeat case_match. Qed.

(** X8. An update answered 200 on a stored recipe stores, for each of
    title, description, instructions, category and cooking time, the
    value sent when it is truthy and the old value otherwise (a field sent
    empty is not cleared); it never changes the id, the creator or the
    likers, nor any other recipe, nor any user. *)
Theorem update_applies_truthy_fields `{W : Services}
    (user : User.t) (id : string) (file : option File)
    (body : gmap string value) (st : State) (oid : ObjectId) (recipe : Recipe.t) :
  castObjectId id = Some oid →
  recipes st !! oid = Some recipe →
  Recipe._id recipe = oid →
  status (updateRecipe user id file body st).1 = 200 →
  let '(res, st') := updateRecipe user id file body st in
  let sent (field : string) (old : value) : value :=
    if truthy (get body field) then get body field else old in
  ∃ recipe',
    res = mkResponse 200 (Updated "Recipe updated successfully" recipe')
    ∧ recipes st' !! oid = Some recipe'
    ∧ (∀ other, other ≠ oid → recipes st' !! other = recipes st !! other)
    ∧ users st' = users st
    ∧ Recipe.title recipe' = sent "title" (Recipe.title recipe)
    ∧ Recipe.description recipe' = sent "description" (Recipe.description recipe)
    ∧ Recipe.instructions recipe' = sent "instructions" (Recipe.instructions recipe)
    ∧ Recipe.category recipe' = sent "category" (Recipe.category recipe)
    ∧ Recipe.cookingTime recipe' = sent "cookingTime" (Recipe.cookingTime recipe)
    ∧ Recipe._id recipe' = Recipe._id recipe
    ∧ Recipe.createdBy recipe' = Recipe.createdBy recipe
    ∧ Recipe.likedBy recipe' = Recipe.likedBy recipe.
Proof.
  intros Hcast Hfound Hid H200.
  destruct (updateRecipe_saved user id file body st oid recipe Hcast Hfound H200)
    as (r1 & st1 & r2 & Himg & Hr2 & ->).
  destruct (handleImage_frame file body recipe st) as [Hrec _].
  rewrite Himg in Hrec. simpl in Hrec.
  destruct (handleImage_result file body recipe st r1 st1 Himg) as (Husers & Hr1 & _).
  assert (Hid2 : Recipe._id r2 = oid).
  { assert (E2 : Recipe._id r2 = Recipe._id (updateFields body r1))
      by (rewrite Hr2; done).
    assert (E1 : Recipe._id r1 = Recipe._id recipe) by (rewrite Hr1; done).
    by rewrite E2, id_updateFields, E1. }
  exists r2. simpl.
  split; [reflexivity |].
  split; [rewrite Hid2, Hrec; apply lookup_insert_eq |].
  split; [intros other Hne; rewrite Hid2, Hrec; by apply lookup_insert_ne |].
  split; [exact Husers |].
  assert (Hfields :
    Recipe.title r2 = Recipe.title (updateFields body r1)
    ∧ Recipe.description r2 = Recipe.description (updateFields body r1)
    ∧ Recipe.instructions r2 = Recipe.instructions (updateFields body r1)
    ∧ Recipe.category r2 = Recipe.category (updateFields body r1)
    ∧ Recipe.cookingTime r2 = Recipe.cookingTime (updateFields body r1)
    ∧ Recipe._id r2 = Recipe._id (updateFields body r1)
    ∧ Recipe.createdBy r2 = Recipe.createdBy (updateFields body r1)
    ∧ Recipe.likedBy r2 = Recipe.likedBy (updateFields body r1))
    by (rewrite Hr2; done).
  destruct Hfields as (-> & -> & -> & -> & -> & -> & -> & ->).
  rewrite title_updateFields, description_updateFields, instructions_updateFields,
    category_updateFields, cookingTime_updateFields, id_updateFields,
    likedBy_updateFields.
  destruct (rest_updateFields body r1) as [_ ->].
  assert (Hold :
    Recipe.title r1 = Recipe.title recipe
    ∧ Recipe.description r1 = Recipe.description recipe
    ∧ Recipe.instructions r1 = Recipe.instructions recipe
    ∧ Recipe.category r1 = Recipe.category recipe
    ∧ Recipe.cookingTime r1 = Recipe.cookingTime recipe
    ∧ Recipe._id r1 = Recipe._id recipe
    ∧ Recipe.createdBy r1 = Recipe.createdBy recipe
    ∧ Recipe.likedBy r1 = Recipe.likedBy recipe)
    by (rewrite Hr1; done).
  destruct Hold as (-> & -> & -> & -> & -> & -> & -> & ->). done.
Qed.

Lemma update_applies_truthy_fields_witness :
  @castObjectId sample pasta_id = Some 10%N
  ∧ recipes pantry !! 10%N = Some pasta
  ∧ status (@updateRecipe sample alice pasta_id None retitle_body pantry).1 = 200
  ∧ let '(res, st') := @updateRecipe sample alice pasta_id None retitle_body pantry in
    let sent (field : string) (old : value) : value :=
      if truthy (get retitle_body field) then get retitle_body field else old in
    ∃ recipe',
      res = mkResponse 200 (Updated "Recipe updated successfully" recipe')
      ∧ recipes st' !! 10%N = Some recipe'
      ∧ (∀ other, other ≠ 10%N → recipes st' !! other = recipes pantry !! other)
      ∧ users st' = users pantry
      ∧ Recipe.title recipe' = sent "title" (Recipe.title pasta)
      ∧ Recipe.description recipe' = sent "description" (Recipe.description pasta)
      ∧ Recipe.instructions recipe' = sent "instructions" (Recipe.instructions pasta)
      ∧ Recipe.category recipe' = sent "category" (Recipe.category pasta)
      ∧ Recipe.cookingTime recipe' = sent "cookingTime" (Recipe.cookingTime pasta)
      ∧ Recipe._id recipe' = Recipe._id pasta
      ∧ Recipe.createdBy recipe' = Recipe.createdBy pasta
      ∧ Recipe.likedBy recipe' = Recipe.likedBy pasta.
Proof.
  split; [reflexivity |]. split; [reflexivity |]. split; [reflexivity |].
  apply (@update_applies_truthy_fields sample alice pasta_id None retitle_body
           pantry 10%N pasta).
  - reflexivity.
  - reflexivity.
  - reflexivity.
  - reflexivity.
Defined.

(** X9. The image of a recipe after an update answered 200: with a file
    that has a URL, that URL; with no file and [clearImage] being the text
    "true", the empty string; in every other case -- a file without a URL,
    no [clearImage], any other value of it -- the image it had. *)
Theorem update_image_cases `{W : Services}
    (user : User.t) (id : string) (file : option File)
    (body : gmap string value) (st : State) (oid : ObjectId) (recipe : Recipe.t) :
  castObjectId id = Some oid →
  recipes st !! oid = Some recipe →
  Recipe._id recipe = oid →
  status (updateRecipe user id file body st).1 = 200 →
  ∃ recipe',
    recipes (updateRecipe user id file body st).2 !! oid = Some recipe'
    ∧ match file with
      | Some f =>
          Recipe.image recipe'
            = if nonempty (or_else (path f) (secure_url f))
              then or_else (path f) (secure_url f)
              else Recipe.image recipe
      | None =>
          (get body "clearImage" = VStr "true" → Recipe.image recipe' = Some "")
          ∧ (get body "clearImage" ≠ VStr "true" →
               Recipe.image recipe' = Recipe.image recipe)
      end.
Proof.
  intros Hcast Hfound Hid H200.
  destruct (updateRecipe_saved user id file body st oid recipe Hcast Hfound H200)
    as (r1 & st1 & r2 & Himg & Hr2 & ->).
  destruct (handleImage_result file body recipe st r1 st1 Himg) as (_ & Hr1 & Hcases).
  assert (Hid2 : Recipe._id r2 = oid).
  { assert (E2 : Recipe._id r2 = Recipe._id (updateFields body r1))
      by (rewrite Hr2; done).
    assert (E1 : Recipe._id r1 = Recipe._id recipe) by (rewrite Hr1; done).
    by rewrite E2, id_updateFields, E1. }
  assert (Himage : Recipe.image r2 = Recipe.image r1).
  { assert (E2 : Recipe.image r2 = Recipe.image (updateFields body r1))
      by (rewrite Hr2; done).
    rewrite E2. by destruct (rest_updateFields body r1) as [-> _]. }
  exists r2. simpl. rewrite Hid2, lookup_insert_eq. split; [reflexivity |].
  by rewrite Himage.
Qed.

Lemma update_image_cases_witness :
  @castObjectId sample pasta_id = Some 10%N
  ∧ recipes pantry !! 10%N = Some pasta
  ∧ status (@updateRecipe sample alice pasta_id None clear_image_body pantry).1 = 200
  ∧ ∃ recipe',
      recipes (@updateRecipe sample alice pasta_id None clear_image_body pantry).2
        !! 10%N = Some recipe'
      ∧ (get clear_image_body "clearImage" = VStr "true" →
           Recipe.image recipe' = Some "")
      ∧ (get clear_image_body "clearImage" ≠ VStr "true" →
           Recipe.image recipe' = Recipe.image pasta).
Proof.
  split; [reflexivity |]. split; [reflexivity |]. split; [reflexivity |].
  apply (@update_image_cases sample alice pasta_id None clear_image_body
           pantry 10%N pasta).
  - reflexivity.
  - reflexivity.
  - reflexivity.
  - reflexivity.
Defined.


Lemma filterTrim_non_text l v :
  v ∈ l → (∀ s, v ≠ VStr s) → filterTrim l = inl TypeError.
Proof.
  intros Hin Hv. induction l as [| a l IH]; [by apply elem_of_nil in Hin |].
  apply elem_of_cons in Hin as [<- | Hin].
  - destruct v; try reflexivity. by destruct (Hv s).
  - simpl. rewrite (IH Hin). by destruct a.
Qed.

(** X10. An update whose ingredients hold anything but text -- a number,
    a nested array, an object -- is answered 500 "Server error" even to
    the creator or the admin, and no recipe and no user is changed. *)
Theorem update_rejects_non_text_ingredient `{W : Services}
    (user : User.t) (id : string) (file : option File)
    (body : gmap string value) (st : State) (oid : ObjectId) (recipe : Recipe.t)
    (v : value) :
  castObjectId id = Some oid →
  recipes st !! oid = Some recipe →
  User._id user = Recipe.createdBy recipe ∨ User.email user = "admin@gmail.com" →
  v ∈ updateIngredientsArray body →
  (∀ s, v ≠ VStr s) →
  let '(res, st') := updateRecipe user id file body st in
  res = mkResponse 500 (Message "Server error")
  ∧ recipes st' = recipes st.
Proof.
  intros Hcast Hfound Hauth Hin Hv.
  pose proof (updateRecipe_authorized user id file body st oid recipe
                Hcast Hfound (gate_open user recipe Hauth)) as Hrun.
  destruct (updateRecipe user id file body st) as [res st'].
  destruct Hrun as [? | (recipe' & _ & _ & _ & _ & _ & Hset & _)]; [done |].
  rewrite (filterTrim_non_text _ v Hin Hv) in Hset.
  assert (Hne : updateIngredientsArray body ≠ []).
  { intros E. rewrite E in Hin. by apply elem_of_nil in Hin. }
  specialize (Hset Hne). discriminate.
Qed.

Lemma update_rejects_non_text_ingredient_witness :
  @castObjectId sample pasta_id = Some 10%N
  ∧ recipes pantry !! 10%N = Some pasta
  ∧ User._id alice = Recipe.createdBy pasta
  ∧ VNum (S754_finite false 3 0) ∈ updateIngredientsArray number_ingredient_body
  ∧ let '(res, st') :=
      @updateRecipe sample alice pasta_id None number_ingredient_body pantry in
    res = mkResponse 500 (Message "Server error")
    ∧ recipes st' = recipes pantry.
Proof.
  assert (Hin : VNum (S754_finite false 3 0)
                ∈ updateIngredientsArray number_ingredient_body).
  { change (updateIngredientsArray number_ingredient_body)
      with [VStr "salt"; VNum (S754_finite false 3 0)].
    apply list_elem_of_further, list_elem_of_here. }
  split; [reflexivity |]. split; [reflexivity |]. split; [reflexivity |].
  split; [exact Hin |].
  apply (@update_rejects_non_text_ingredient sample alice pasta_id None
           number_ingredient_body pantry 10%N pasta (VNum (S754_finite false 3 0))).
  - reflexivity.
  - reflexivity.
  - left. reflexivity.
  - exact Hin.
  - intros s. discriminate.
Defined.

(** ** All routes *)

Section AllRoutes.
Context `{W : Services}.

Lemma clearImage_match {X : Type} (v : value) (A B : X) :
  match v with VStr "true" => A | _ => B end = A
  ∨ match v with VStr "true" => A | _ => B end = B.
Proof.
  destruct v as [| | | | s | |]; try (by right).
  repeat (destruct s as [| [[] [] [] [] [] [] [] []] s]; try (by right)).
  by left.
Qed.

Lemma handleImage_users file body recipe st :
  users (handleImage file body recipe st).2 = users st.
Proof.
  assert (Hgo : ∀ caught image,
            users ((destroyImage caught recipe
                      ≫= λ _, mret (Recipe.set_image image recipe)) st).2
            = users st).
  { intros caught image. run.
    pose proof (destroyImage_users caught recipe st) as U.
    by destruct (destroyImage caught recipe st) as [[? | []] ?]. }
  unfold handleImage. destruct file as [f |].
  - destruct (nonempty _); [apply Hgo | reflexivity].
  - destruct (clearImage_match (get body "clearImage")
                (destroyImage false recipe
                   ≫= λ _, mret (Recipe.set_image (Some "") recipe))
                (mret (M := M) recipe)) as [-> | ->]; [apply Hgo | reflexivity].
Qed.

Lemma handle_users req st : users (handle req st).2 = users st.
Proof.
  destruct req as [viewer v | viewer v | viewer | user | user v
                  | viewer id | user id | user newId file body
                  | user id file body | user id]; simpl.
  - by destruct (listings_read_only viewer alice v st) as (-> & _).
  - by destruct (listings_read_only viewer alice v st) as (_ & -> & _).
  - by destruct (listings_read_only viewer alice VUndefined st) as (_ & _ & -> & _).
  - by destruct (listings_read_only None user VUndefined st) as (_ & _ & _ & -> & _).
  - by destruct (listings_read_only None user v st) as (_ & _ & _ & _ & ->).
  - unfold getRecipe, try_catch, findById, populate. run.
    repeat case_match; simplify_eq/=; reflexivity.
  - destruct (castObjectId id) as [oid |] eqn:Hcast.
    + destruct (recipes st !! oid) as [recipe |] eqn:Hfound.
      * rewrite (likeRecipe_outcome st id oid recipe Hcast Hfound user). cbv zeta.
        by destruct (validates _).
      * unfold likeRecipe, try_catch, findById. run. by rewrite Hcast, Hfound.
    + unfold likeRecipe, try_catch, findById. run. by rewrite Hcast.
  - rewrite createRecipe_outcome. cbv zeta.
    repeat case_match; reflexivity.
  - unfold updateRecipe, try_catch, findById. run.
    destruct (castObjectId id) as [oid |]; [| done].
    destruct (recipes st !! oid) as [recipe |]; [| done].
    destruct (negb (isAdmin user) && negb (isOwner recipe user)); [done |].
    pose proof (handleImage_users file body recipe st) as U.
    destruct (handleImage file body recipe st) as [[e | r1] st1]; [done |].
    destruct (updateIngredients_frame (updateIngredientsArray body)
                (updateFields body r1) st1) as [E _].
    destruct (updateIngredients _ _ st1) as [[e | r2] st2]; simpl in E; subst st2;
      [done |].
    unfold save. repeat case_match; simplify_eq/=; done.
  - unfold deleteRecipe, try_catch, findById, deleteOne. run.
    destruct (castObjectId id) as [oid |]; [| done].
    destruct (recipes st !! oid) as [recipe |]; [| done].
    destruct (negb (isAdmin user) && negb (isOwner recipe user)); [done |].
    pose proof (destroyImage_users false recipe st) as U.
    destruct (destroyImage false recipe st) as [[e | []] st1]; done.
Qed.

Lemma handle_failed_recipes req st :
  match req with
  | CreateRecipe _ _ _ _ => status (handle req st).1 ≠ 201
  | _ => status (handle req st).1 ≠ 200
  end →
  recipes (handle req st).2 = recipes st.
Proof.
  destruct req as [viewer v | viewer v | viewer | user | user v
                  | viewer id | user id | user newId file body
                  | user id file body | user id]; simpl.
  - by destruct (listings_read_only viewer alice v st) as (-> & _).
  - by destruct (listings_read_only viewer alice v st) as (_ & -> & _).
  - by destruct (listings_read_only viewer alice VUndefined st) as (_ & _ & -> & _).
  - by destruct (listings_read_only None user VUndefined st) as (_ & _ & _ & -> & _).
  - by destruct (listings_read_only None user v st) as (_ & _ & _ & _ & ->).
  - intros _. apply getRecipe_recipes.
  - destruct (castObjectId id) as [oid |] eqn:Hcast.
    + destruct (recipes st !! oid) as [recipe |] eqn:Hfound.
      * rewrite (likeRecipe_outcome st id oid recipe Hcast Hfound user). cbv zeta.
        destruct (validates _); [intros Hne; by destruct Hne | done].
      * unfold likeRecipe, try_catch, findById. run. by rewrite Hcast, Hfound.
    + unfold likeRecipe, try_catch, findById. run. by rewrite Hcast.
  - rewrite createRecipe_outcome. cbv zeta.
    repeat case_match; done.
  - destruct (castObjectId id) as [oid |] eqn:Hcast.
    + destruct (recipes st !! oid) as [recipe |] eqn:Hfound.
      * destruct (negb (isAdmin user) && negb (isOwner recipe user)) eqn:Hgate.
        -- by rewrite (updateRecipe_found st id oid recipe Hcast Hfound), Hgate.
        -- pose proof (updateRecipe_authorized user id file body st oid recipe
                         Hcast Hfound Hgate) as Hrun.
           destruct (updateRecipe user id file body st) as [res st'].
           destruct Hrun as [[_ ?] | (recipe' & -> & _)];
             [done | intros Hne; by destruct Hne].
      * unfold updateRecipe, try_catch, findById. run. by rewrite Hcast, Hfound.
    + unfold updateRecipe, try_catch, findById. run. by rewrite Hcast.
  - destruct (castObjectId id) as [oid |] eqn:Hcast.
    + destruct (recipes st !! oid) as [recipe |] eqn:Hfound.
      * destruct (negb (isAdmin user) && negb (isOwner recipe user)) eqn:Hgate.
        -- by rewrite (deleteRecipe_found st id oid recipe Hcast Hfound), Hgate.
        -- rewrite (deleteRecipe_outcome st id oid recipe Hcast Hfound user Hgate).
           repeat case_match; done.
      * unfold deleteRecipe, try_catch, findById. run. by rewrite Hcast, Hfound.
    + unfold deleteRecipe, try_catch, findById. run. by rewrite Hcast.
Qed.

End AllRoutes.

(** X12. Served one after the other, requests keep every recipe stored
    under its own id and never touch the user collection. *)
Theorem runs_keep_the_store_keyed `{W : Services} (reqs : list Request) (st : State) :
  keyed_by_id st →
  keyed_by_id (serve reqs st) ∧ users (serve reqs st) = users st.
Proof.
  revert st. unfold serve.
  induction reqs as [| req reqs IH]; intros st Hst; simpl; [done |].
  destruct (IH (handle req st).2) as [Hk Hu]; [by apply handle_keyed_by_id |].
  split; [exact Hk |]. by rewrite Hu, handle_users.
Qed.

Lemma keyed_by_id_pantry : keyed_by_id pantry.
Proof.
  intros oid r. unfold pantry. simpl.
  destruct (decide (oid = 11%N)) as [-> | Hne].
  - rewrite lookup_insert_eq. by intros [= <-].
  - rewrite lookup_insert_ne by done.
    intros [<- <-]%lookup_singleton_Some. reflexivity.
Qed.

Lemma runs_keep_the_store_keyed_witness :
  keyed_by_id pantry
  ∧ keyed_by_id (@serve sample [LikeRecipe bob pasta_id; DeleteRecipe bob soup_id] pantry)
  ∧ users (@serve sample [LikeRecipe bob pasta_id; DeleteRecipe bob soup_id] pantry)
    = users pantry.
Proof.
  split; [exact keyed_by_id_pantry |].
  apply (@runs_keep_the_store_keyed sample
           [LikeRecipe bob pasta_id; DeleteRecipe bob soup_id] pantry).
  exact keyed_by_id_pantry.
Defined.


(** ** Images destroyed at the host *)

Lemma gate_open_inv user recipe :
  negb (isAdmin user) && negb (isOwner recipe user) = false →
  User._id user = Recipe.createdBy recipe ∨ User.email user = "admin@gmail.com".
Proof.
  unfold isAdmin, isOwner, equals. intros H.
  apply andb_false_iff in H as [H | H]; apply negb_false_iff in H.
  - right. by apply String.eqb_eq.
  - left. symmetry. by apply N.eqb_eq.
Qed.

Section Media.
Context `{W : Services}.

Lemma destroyImage_destroyed caught recipe st :
  destroyed (destroyImage caught recipe st).2 = destroyed st
  ∨ destroyed_image recipe st (destroyImage caught recipe st).2.
Proof.
  unfold destroyImage, destroy, destroyed_image, nonempty. run.
  destruct (Recipe.image recipe) as [url |]; [| by left].
  destruct (String.eqb_spec url ""); [by left |]. simpl.
  destruct CLOUDINARY_CONFIG_OK; [| by left].
  destruct (destroy_resolves (publicId url)) eqn:Hres.
  - right. split; [done |]. exists url. by destruct caught.
  - left. by destruct caught.
Qed.

Lemma handleImage_destroyed file body recipe st :
  destroyed (handleImage file body recipe st).2 = destroyed st
  ∨ destroyed_image recipe st (handleImage file body recipe st).2.
Proof.
  assert (Hgo : ∀ caught image,
            let st' := ((destroyImage caught recipe
                           ≫= λ _, mret (Recipe.set_image image recipe)) st).2 in
            destroyed st' = destroyed st ∨ destroyed_image recipe st st').
  { intros caught image. run.
    pose proof (destroyImage_destroyed caught recipe st) as D.
    by destruct (destroyImage caught recipe st) as [[? | []] ?]. }
  unfold handleImage. destruct file as [f |].
  - destruct (nonempty _); [apply Hgo | by left].
  - destruct (clearImage_match (get body "clearImage")
                (destroyImage false recipe
                   ≫= λ _, mret (Recipe.set_image (Some "") recipe))
                (mret (M := M) recipe)) as [-> | ->]; [apply Hgo | by left].
Qed.

End Media.

(** X13. Only an update or a delete ever has an image destroyed at the
    host, at most one per request, and then it is the image of the recipe
    the request names, asked for by its creator or by the admin, with the
    host configured; listing, reading, liking and creating destroy
    nothing. *)
Theorem only_the_named_image_is_destroyed `{W : Services} (req : Request) (st : State) :
  let st' := (handle req st).2 in
  match req with
  | UpdateRecipe user id _ _ | DeleteRecipe user id =>
      destroyed st' = destroyed st
      ∨ ∃ oid recipe,
          castObjectId id = Some oid
          ∧ recipes st !! oid = Some recipe
          ∧ (User._id user = Recipe.createdBy recipe
             ∨ User.email user = "admin@gmail.com")
          ∧ destroyed_image recipe st st'
  | _ => destroyed st' = destroyed st
  end.
Proof.
  destruct req as [viewer v | viewer v | viewer | user | user v
                  | viewer id | user id | user newId file body
                  | user id file body | user id]; simpl.
  - by destruct (listings_read_only viewer alice v st) as (-> & _).
  - by destruct (listings_read_only viewer alice v st) as (_ & -> & _).
  - by destruct (listings_read_only viewer alice VUndefined st) as (_ & _ & -> & _).
  - by destruct (listings_read_only None user VUndefined st) as (_ & _ & _ & -> & _).
  - by destruct (listings_read_only None user v st) as (_ & _ & _ & _ & ->).
  - by rewrite get_recipe_state.
  - destruct (castObjectId id) as [oid |] eqn:Hcast.
    + destruct (recipes st !! oid) as [recipe |] eqn:Hfound.
      * rewrite (likeRecipe_outcome st id oid recipe Hcast Hfound user). cbv zeta.
        by destruct (validates _).
      * unfold likeRecipe, try_catch, findById. run. by rewrite Hcast, Hfound.
    + unfold likeRecipe, try_catch, findById. run. by rewrite Hcast.
  - rewrite createRecipe_outcome. cbv zeta. repeat case_match; reflexivity.
  - destruct (castObjectId id) as [oid |] eqn:Hcast.
    2: { left. unfold updateRecipe, try_catch, findById. run. by rewrite Hcast. }
    destruct (recipes st !! oid) as [recipe |] eqn:Hfound.
    2: { left. unfold updateRecipe, try_catch, findById. run.
         by rewrite Hcast, Hfound. }
    rewrite (updateRecipe_found st id oid recipe Hcast Hfound).
    destruct (negb (isAdmin user) && negb (isOwner recipe user)) eqn:Hgate;
      [by left |].
    assert (Hsame : destroyed
              (try_catch
                 (recipe0 ← handleImage file body recipe;
                  recipe1 ← updateIngredients (updateIngredientsArray body)
                              (updateFields body recipe0);
                  _ ← save false recipe1;
                  respond 200 (Updated "Recipe updated successfully" recipe1))
                 "Server error" st).2
            = destroyed (handleImage file body recipe st).2).
    { unfold try_catch. run.
      destruct (handleImage file body recipe st) as [[e | r1] st1]; [done |].
      destruct (updateIngredients_frame (updateIngredientsArray body)
                  (updateFields body r1) st1) as [E _].
      destruct (updateIngredients _ _ st1) as [[e | r2] st2]; simpl in E; subst st2;
        [done |].
      unfold save. repeat case_match; simplify_eq/=; done. }
    destruct (handleImage_destroyed file body recipe st) as [D | [Hconf D]].
    + left. by rewrite Hsame.
    + right. exists oid, recipe. split_and!; [done | done | by apply gate_open_inv |].
      split; [done |]. destruct D as (url & ? & ? & ? & D). exists url.
      split_and!; try done. by rewrite Hsame.
  - destruct (castObjectId id) as [oid |] eqn:Hcast.
    2: { left. unfold deleteRecipe, try_catch, findById. run. by rewrite Hcast. }
    destruct (recipes st !! oid) as [recipe |] eqn:Hfound.
    2: { left. unfold deleteRecipe, try_catch, findById. run.
         by rewrite Hcast, Hfound. }
    destruct (negb (isAdmin user) && negb (isOwner recipe user)) eqn:Hgate.
    { left. by rewrite (deleteRecipe_found st id oid recipe Hcast Hfound), Hgate. }
    rewrite (deleteRecipe_outcome st id oid recipe Hcast Hfound user Hgate).
    unfold nonempty.
    destruct (Recipe.image recipe) as [url |] eqn:Himg; [| by left].
    destruct (String.eqb_spec url ""); [by left |]. simpl.
    destruct CLOUDINARY_CONFIG_OK eqn:Hconf; [| by left].
    destruct (destroy_resolves (publicId url)) eqn:Hres; [| by left].
    right. exists oid, recipe. split_and!; [done | done | by apply gate_open_inv |].
    split; [done |]. by exists url.
Qed.


(** ** The listings *)

Section Listings.
Context `{W : Services}.

Lemma annotated viewer st found :
  Forall (shown viewer st)
    (recipesWithLike viewer
       ((λ r, (r, User.username <$> users st !! Recipe.createdBy r)) <$> found))
  ∧ (recipesWithLike viewer
       ((λ r, (r, User.username <$> users st !! Recipe.createdBy r)) <$> found)).*1.*1.*1
    = found.
Proof.
  unfold recipesWithLike. induction found as [| r found [IH1 IH2]]; simpl.
  - split; [constructor | reflexivity].
  - split; [| f_equal; exact IH2]. constructor; [| exact IH1].
    unfold shown, likedByUser. split_and!; try reflexivity.
    destruct viewer; [apply existsb_equals | reflexivity].
Qed.

Lemma listing_of query newestFirst viewer cut st :
  try_catch
    (found ← findRecipes query newestFirst;
     found ← populateNames (cut found);
     respond 200 (Listing (recipesWithLike viewer found)))
    "Server error" st
  = match find query newestFirst (recipes st) with
    | Some found =>
        (mkResponse 200
           (Listing (recipesWithLike viewer
                       ((λ r, (r, User.username <$> users st !! Recipe.createdBy r))
                          <$> cut found))), st)
    | None => (mkResponse 500 (Message "Server error"), st)
    end.
Proof.
  unfold try_catch, findRecipes, populateNames. run.
  by destruct (find query newestFirst (recipes st)).
Qed.

End Listings.

(** X14. [GET /], [GET /search/query] and [GET /latest] answer 500
    "Server error" when the query fails and otherwise 200 with the
    recipes found, in the order found; each comes with the name of its
    creator, [likes] the number of its likers and [likedByUser] telling
    whether the viewer is one of them, false for everyone without a
    viewer.  [GET /latest] shows the first three found at most.  None of
    them writes. *)
Theorem listings_show_likes `{W : Services}
    (viewer : option User.t) (v : value) (st : State) :
  let listing (query : Query) (newestFirst : bool) (most : option nat)
      (out : Response * State) : Prop :=
    out.2 = st
    ∧ match find query newestFirst (recipes st) with
      | None => out.1 = mkResponse 500 (Message "Server error")
      | Some found =>
          ∃ items,
            out.1 = mkResponse 200 (Listing items)
            ∧ items.*1.*1.*1 = from_option (λ n, take n found) found most
            ∧ Forall (shown viewer st) items
      end in
  listing (if truthy v then ByCategory v else Everything) true None
          (listRecipes viewer v st)
  ∧ listing (ByTitle v) false None (searchRecipes viewer v st)
  ∧ listing Everything true (Some 3) (latestRecipes viewer st)
  ∧ ∀ items, (latestRecipes viewer st).1 = mkResponse 200 (Listing items) →
      (length items ≤ 3)%nat.
Proof.
  cbv zeta.
  assert (Hlist : ∀ query newestFirst cut,
    let out := try_catch
      (found ← findRecipes query newestFirst;
       found ← populateNames (cut found);
       respond 200 (Listing (recipesWithLike viewer found)))
      "Server error" st in
    out.2 = st
    ∧ match find query newestFirst (recipes st) with
      | None => out.1 = mkResponse 500 (Message "Server error")
      | Some found =>
          ∃ items,
            out.1 = mkResponse 200 (Listing items)
            ∧ items.*1.*1.*1 = cut found
            ∧ Forall (shown viewer st) items
      end).
  { intros query newestFirst cut. cbv zeta. rewrite listing_of.
    destruct (find query newestFirst (recipes st)) as [found |]; [| done].
    split; [done |]. eexists. split; [reflexivity |].
    destruct (annotated viewer st (cut found)) as [? ?]. done. }
  cbv zeta in Hlist. split; [| split; [| split]].
  - exact (Hlist (if truthy v then ByCategory v else Everything) true
                 (λ found, found)).
  - exact (Hlist (ByTitle v) false (λ found, found)).
  - exact (Hlist Everything true (take 3)).
  - intros items. destruct (Hlist Everything true (take 3)) as [_ H].
    change (try_catch _ _ st) with (latestRecipes viewer st) in H.
    destruct (find Everything true (recipes st)) as [found |].
    + destruct H as (items' & -> & Hfound & _). intros [= <-].
      assert (E : length items' = length (take 3 found))
        by (rewrite <- Hfound, !length_fmap; reflexivity).
      rewrite E, length_take. lia.
    + rewrite H. discriminate.
Qed.


(** ** Status codes *)

Ltac code :=
  simpl; split;
  [set_solver
  | intros H200 H201; first [by destruct H200 | by destruct H201 | by eexists]].

(** X15. The status codes each route can answer with: 200 or 500 for
    the five listings; 200, 400, 404 or 500 for [GET /:id]; 200, 404 or
    500 for a like; 201, 400 or 500 for [POST /]; 200, 401, 404 or 500 for
    an update and for a delete.  Every answer other than 200 and 201
    carries a message and nothing else. *)
Theorem statuses_of_routes `{W : Services} (req : Request) (st : State) :
  let res := (handle req st).1 in
  status res ∈ match req with
               | ListRecipes _ _ | SearchRecipes _ _ | LatestRecipes _
               | MyRecipes _ | FavoriteRecipes _ _ => [200; 500]
               | GetRecipe _ _ => [200; 400; 404; 500]
               | LikeRecipe _ _ => [200; 404; 500]
               | CreateRecipe _ _ _ _ => [201; 400; 500]
               | UpdateRecipe _ _ _ _ | DeleteRecipe _ _ => [200; 401; 404; 500]
               end%nat
  ∧ (status res ≠ 200 → status res ≠ 201 → ∃ message, json res = Message message).
Proof.
  destruct req as [viewer v | viewer v | viewer | user | user v
                  | viewer id | user id | user newId file body
                  | user id file body | user id]; cbv zeta.
  - unfold handle, listRecipes. rewrite listing_of. destruct (find _ _ _); code.
  - unfold handle, searchRecipes.
    rewrite (listing_of (ByTitle v) false viewer (λ found, found)).
    destruct (find _ _ _); code.
  - unfold handle, latestRecipes. rewrite (listing_of Everything true viewer (take 3)).
    destruct (find _ _ _); code.
  - unfold handle, myRecipes, try_catch, findRecipes. run.
    destruct (find _ _ _); code.
  - unfold handle, favoriteRecipes, try_catch, findRecipes, populateNames. run.
    destruct (find _ _ _); code.
  - unfold handle.
    destruct (isValid id) eqn:Hvalid.
    2: { unfold getRecipe, try_catch. rewrite Hvalid. code. }
    destruct (castObjectId id) as [oid |] eqn:Hcast.
    2: { unfold getRecipe, try_catch, findById. rewrite Hvalid. cbn [negb]. run.
         rewrite Hcast. code. }
    destruct (recipes st !! oid) as [recipe |] eqn:Hfound.
    + rewrite (getRecipe_stored viewer id st oid recipe Hvalid Hcast Hfound). code.
    + assert (E : findById id st = (inr None, st))
        by (unfold findById; by rewrite Hcast, Hfound).
      unfold getRecipe, try_catch. rewrite Hvalid. cbn [negb]. run. rewrite E. code.
  - unfold handle. destruct (castObjectId id) as [oid |] eqn:Hcast.
    + destruct (recipes st !! oid) as [recipe |] eqn:Hfound.
      * rewrite (likeRecipe_outcome st id oid recipe Hcast Hfound user). cbv zeta.
        destruct (validates _); code.
      * destruct (absent_recipe_404 user id None ∅ st oid Hcast Hfound) as (-> & _).
        code.
    + unfold likeRecipe, try_catch, findById. run. rewrite Hcast. code.
  - unfold handle. rewrite createRecipe_outcome. cbv zeta.
    repeat case_match; code.
  - unfold handle. destruct (castObjectId id) as [oid |] eqn:Hcast.
    + destruct (recipes st !! oid) as [recipe |] eqn:Hfound.
      * destruct (negb (isAdmin user) && negb (isOwner recipe user)) eqn:Hgate.
        -- rewrite (updateRecipe_found st id oid recipe Hcast Hfound), Hgate. code.
        -- pose proof (updateRecipe_authorized user id file body st oid recipe
                         Hcast Hfound Hgate) as Hrun.
           destruct (updateRecipe user id file body st) as [res st'].
           destruct Hrun as [[-> _] | (recipe' & -> & _)]; code.
      * destruct (absent_recipe_404 user id file body st oid Hcast Hfound)
          as (_ & -> & _).
        code.
    + unfold updateRecipe, try_catch, findById. run. rewrite Hcast. code.
  - unfold handle. destruct (castObjectId id) as [oid |] eqn:Hcast.
    + destruct (recipes st !! oid) as [recipe |] eqn:Hfound.
      * destruct (negb (isAdmin user) && negb (isOwner recipe user)) eqn:Hgate.
        -- rewrite (deleteRecipe_found st id oid recipe Hcast Hfound), Hgate. code.
        -- rewrite (deleteRecipe_outcome st id oid recipe Hcast Hfound user Hgate).
           repeat case_match; code.
      * destruct (absent_recipe_404 user id None ∅ st oid Hcast Hfound)
          as (_ & _ & ->).
        code.
    + unfold deleteRecipe, try_catch, findById. run. rewrite Hcast. code.
Qed.

(** ** The text helpers: [split], [publicId], [trim] *)

Lemma append_cons c s1 s2 : String c s1 +:+ s2 = String c (s1 +:+ s2).
Proof. reflexivity. Qed.

Lemma includes_app c s1 s2 :
  includes c (s1 +:+ s2) = includes c s1 || includes c s2.
Proof.
  induction s1 as [| a s1 IH]; [reflexivity |].
  rewrite append_cons. simpl. by rewrite IH, orb_assoc.
Qed.

Lemma split_nonempty sep s : split sep s ≠ [].
Proof.
  destruct s as [| c s]; simpl; [done |].
  destruct (Ascii.eqb c sep); [done |]. by destruct (split sep s).
Qed.

Lemma split_without sep s : includes sep s = false → split sep s = [s].
Proof.
  induction s as [| c s IH]; simpl; [done |].
  intros [Hc Hs]%orb_false_iff. rewrite Hc, (IH Hs). reflexivity.
Qed.

Lemma split_app_sep sep s1 s2 :
  split sep (s1 +:+ String sep s2) = split sep s1 ++ split sep s2.
Proof.
  induction s1 as [| c s1 IH].
  - change ("" +:+ String sep s2) with (String sep s2). simpl.
    by rewrite Ascii.eqb_refl.
  - rewrite append_cons. simpl. rewrite IH.
    destruct (Ascii.eqb c sep); [reflexivity |].
    pose proof (split_nonempty sep s1).
    by destruct (split sep s1).
Qed.

(** A string that has the separator, cut at its last occurrence. *)
Lemma cut_at_last c s :
  includes c s = true →
  ∃ s1 s2, s = s1 +:+ String c s2 ∧ includes c s2 = false.
Proof.
  induction s as [| a s IH]; simpl; [done |].
  destruct (includes c s) eqn:Hs.
  - intros _. destruct (IH eq_refl) as (s1 & s2 & -> & H2).
    by exists (String a s1), s2.
  - rewrite orb_false_r. intros ->%Ascii.eqb_eq. by exists "", s.
Qed.

(** A string that has the separator, cut at its first occurrence. *)
Lemma cut_at_first c s :
  includes c s = true →
  ∃ s1 s2, s = s1 +:+ String c s2 ∧ includes c s1 = false.
Proof.
  induction s as [| a s IH]; simpl; [done |].
  destruct (Ascii.eqb a c) eqn:Ha.
  - intros _. apply Ascii.eqb_eq in Ha as ->. by exists "", s.
  - simpl. intros Hs. destruct (IH Hs) as (s1 & s2 & -> & H1).
    exists (String a s1), s2. split; [reflexivity |]. simpl. by rewrite Ha.
Qed.

(** The last piece of a split: what follows the last separator. *)
Lemma last_split sep s :
  ∃ before,
    s = before +:+ List.last (split sep s) ""
    ∧ (before = "" ∨ ∃ b, before = b +:+ String sep "")
    ∧ includes sep (List.last (split sep s) "") = false.
Proof.
  destruct (includes sep s) eqn:Hs.
  - destruct (cut_at_last sep s Hs) as (s1 & s2 & -> & H2).
    rewrite split_app_sep, (split_without sep s2 H2), last_last.
    exists (s1 +:+ String sep ""). split_and!; [| by right; exists s1 | done].
    clear. induction s1 as [| a s1 IH]; [reflexivity |].
    rewrite !append_cons. by rewrite <- IH.
  - rewrite (split_without sep s Hs). simpl. exists "". by split_and!; [| left |].
Qed.

(** The first piece of a split: what precedes the first separator. *)
Lemma hd_split sep s :
  ∃ after,
    s = hd "" (split sep s) +:+ after
    ∧ (after = "" ∨ ∃ a, after = String sep a)
    ∧ includes sep (hd "" (split sep s)) = false.
Proof.
  destruct (includes sep s) eqn:Hs.
  - destruct (cut_at_first sep s Hs) as (s1 & s2 & -> & H1).
    rewrite split_app_sep, (split_without sep s1 H1). simpl.
    exists (String sep s2). split_and!; [done | by right; exists s2 | done].
  - rewrite (split_without sep s Hs). simpl. exists "".
    split_and!; [| by left | done].
    clear. induction s as [| a s IH]; [reflexivity |].
    rewrite append_cons. by rewrite <- IH.
Qed.

(** X16. The id under which an image is destroyed at the host is the last
    path segment of its URL up to the first dot of that segment: of
    [dir/name.ext], with no slash nor dot in [name] and no slash in [ext],
    it is [name], whatever the directories in [dir], which are dropped,
    and whatever follows the first dot. *)
Theorem publicId_of_url (dir name ext : string) :
  includes "/" name = false →
  includes "." name = false →
  includes "/" ext = false →
  publicId (dir +:+ "/" +:+ name +:+ "." +:+ ext) = name.
Proof.
  intros Hslash Hdot Hext. unfold publicId.
  change ("/" +:+ name +:+ "." +:+ ext) with (String "/" (name +:+ String "." ext)).
  rewrite split_app_sep.
  rewrite (split_without "/" (name +:+ String "." ext)), last_last.
  - by rewrite split_app_sep, (split_without "." name Hdot).
  - rewrite includes_app. simpl. by rewrite Hslash, Hext.
Qed.

Lemma publicId_of_url_witness :
  includes "/" "recipe-17" = false
  ∧ includes "." "recipe-17" = false
  ∧ includes "/" "v2.jpg" = false
  ∧ publicId ("https://img.example/Recipedia-Images" +:+ "/" +:+ "recipe-17"
                +:+ "." +:+ "v2.jpg") = "recipe-17".
Proof.
  split; [reflexivity |]. split; [reflexivity |]. split; [reflexivity |].
  apply (publicId_of_url "https://img.example/Recipedia-Images" "recipe-17" "v2.jpg");
    reflexivity.
Defined.

(** X17. Every image text splits as [before], its public id, [after]:
    [before] is empty or ends with a slash, [after] is empty or starts
    with a dot, and neither the id nor [after] has a slash, nor the id a
    dot.  So the id sent to the host is never a path and never carries an
    extension. *)
Theorem publicId_is_a_bare_name (image : string) :
  ∃ before after,
    image = before +:+ publicId image +:+ after
    ∧ (before = "" ∨ ∃ b, before = b +:+ "/")
    ∧ (after = "" ∨ ∃ a, after = "." +:+ a)
    ∧ includes "/" (publicId image) = false
    ∧ includes "." (publicId image) = false
    ∧ includes "/" after = false.
Proof.
  unfold publicId.
  destruct (last_split "/" image) as (before & Himage & Hbefore & Hseg).
  destruct (hd_split "." (List.last (split "/" image) "")) as (after & Hlast & Hafter & Hid).
  rewrite Hlast, includes_app in Hseg. apply orb_false_iff in Hseg as [Hseg1 Hseg2].
  exists before, after. split_and!; try done.
  by rewrite <- Hlast.
Qed.

(** ** Blank ingredients *)

Lemma all_space_rev_app s acc :
  all_space (String.rev_app s acc) = all_space s && all_space acc.
Proof.
  revert acc. induction s as [| c s IH]; intros acc; simpl; [reflexivity |].
  rewrite IH. simpl. destruct (is_space c), (all_space s); reflexivity.
Qed.

Lemma rev_app_empty s acc : String.rev_app s acc = "" → s = "" ∧ acc = "".
Proof.
  revert acc. induction s as [| c s IH]; intros acc; simpl; [done |].
  intros H. by destruct (IH _ H).
Qed.

Lemma all_space_trim_start s : all_space (trim_start s) = all_space s.
Proof.
  induction s as [| c s IH]; simpl; [reflexivity |].
  destruct (is_space c) eqn:Hc; [exact IH | simpl; by rewrite Hc].
Qed.

Lemma trim_start_empty s : trim_start s = "" ↔ all_space s = true.
Proof.
  induction s as [| c s IH]; simpl; [done |].
  destruct (is_space c); simpl; [exact IH | done].
Qed.

(** A text trims to the empty string exactly when it holds white space
    only. *)
Lemma trim_empty s : String.eqb (trim s) "" = all_space s.
Proof.
  apply eq_true_iff_eq. rewrite String.eqb_eq. unfold trim, String.rev. split.
  - intros H. apply rev_app_empty in H as [H _].
    apply trim_start_empty in H.
    by rewrite all_space_rev_app, andb_true_r, all_space_trim_start in H.
  - intros H.
    assert (E : trim_start (String.rev_app (trim_start s) "") = "").
    { apply trim_start_empty.
      by rewrite all_space_rev_app, andb_true_r, all_space_trim_start. }
    by rewrite E.
Qed.

Lemma filterTrim_texts texts :
  filterTrim (VStr <$> texts)
    = inr (VStr <$> filter (λ s, all_space s = false) texts).
Proof.
  induction texts as [| s texts IH]; [reflexivity |].
  rewrite fmap_cons. cbn [filterTrim]. rewrite IH, trim_empty.
  rewrite filter_cons. destruct (all_space s); by case_decide.
Qed.

(** X18. An update answered 200 whose [ingredients] is a non-empty array
    of texts stores those that hold something else than white space, in
    the order sent and as sent -- a kept entry is not trimmed -- and drops
    the others. *)
Theorem update_stores_the_visible_texts `{W : Services}
    (user : User.t) (id : string) (file : option File)
    (body : gmap string value) (st : State) (oid : ObjectId) (recipe : Recipe.t)
    (texts : list string) :
  castObjectId id = Some oid →
  recipes st !! oid = Some recipe →
  Recipe._id recipe = oid →
  body !! "ingredients" = Some (VArr (VStr <$> texts)) →
  texts ≠ [] →
  status (updateRecipe user id file body st).1 = 200 →
  Recipe.ingredients <$> recipes (updateRecipe user id file body st).2 !! oid
    = Some (VStr <$> filter (λ s, all_space s = false) texts).
Proof.
  intros Hcast Hfound Hid Hbody Hne H200.
  assert (Hgate : negb (isAdmin user) && negb (isOwner recipe user) = false).
  { rewrite (updateRecipe_found st id oid recipe Hcast Hfound) in H200.
    by destruct (negb (isAdmin user) && negb (isOwner recipe user)). }
  pose proof (updateRecipe_authorized user id file body st oid recipe
                Hcast Hfound Hgate) as Hrun.
  destruct (updateRecipe user id file body st) as [res st']. simpl in *.
  destruct Hrun as [[-> _] | (recipe' & _ & -> & _ & _ & _ & Hset & _)];
    [discriminate |].
  assert (Harr : updateIngredientsArray body = VStr <$> texts).
  { unfold updateIngredientsArray, get. by rewrite Hbody. }
  rewrite Harr, filterTrim_texts in Hset.
  rewrite Hid, lookup_insert_eq. simpl. f_equal.
  assert (Hnil : VStr <$> texts ≠ []) by (by destruct texts).
  specialize (Hset Hnil). by injection Hset as <-.
Qed.

Lemma update_stores_the_visible_texts_witness :
  @castObjectId sample pasta_id = Some 10%N
  ∧ recipes pantry !! 10%N = Some pasta
  ∧ spaced_array_body !! "ingredients" = Some (VArr (VStr <$> spaced_texts))
  ∧ spaced_texts ≠ []
  ∧ status (@updateRecipe sample alice pasta_id None spaced_array_body pantry).1 = 200
  ∧ Recipe.ingredients
      <$> recipes (@updateRecipe sample alice pasta_id None spaced_array_body pantry).2
            !! 10%N
    = Some (VStr <$> filter (λ s, all_space s = false) spaced_texts).
Proof.
  split; [reflexivity |]. split; [reflexivity |]. split; [reflexivity |].
  split; [discriminate |]. split; [reflexivity |].
  apply (@update_stores_the_visible_texts sample alice pasta_id None
           spaced_array_body pantry 10%N pasta spaced_texts).
  - reflexivity.
  - reflexivity.
  - reflexivity.
  - reflexivity.
  - discriminate.
  - reflexivity.
Defined.

(** ** Indexed keys in index order *)

Lemma key_le_trans : Transitive key_le.
Proof.
  intros a b c Hab Hbc. unfold key_le in *.
  apply Is_true_true. apply Is_true_true in Hab, Hbc.
  exact (transitivity (R := String.le) Hab Hbc).
Qed.

Lemma key_le_antisym : AntiSymm (=) key_le.
Proof. intros a b Hab Hba. by apply String.leb_antisym. Qed.

Lemma prefix_append s t : String.prefix s (s +:+ t) = true.
Proof.
  induction s as [| c s IH]; [by destruct t |].
  rewrite append_cons. simpl. by destruct (ascii_dec c c).
Qed.

Lemma index_key_indexed i : String.prefix "ingredients[" (index_key i) = true.
Proof. apply prefix_append. Qed.

Lemma index_key_inj : Inj (=) (=) index_key.
Proof.
  intros i j H. unfold index_key in H.
  apply (inj (String.app "ingredients[")) in H.
  assert (E : ∀ s1 s2 c, s1 +:+ String c "" = s2 +:+ String c "" → s1 = s2).
  { clear. induction s1 as [| a s1 IH]; intros [| b s2] c; simpl.
    - done.
    - rewrite append_cons. intros [= -> H]. by destruct s2.
    - rewrite append_cons. intros [= -> H]. by destruct s1.
    - rewrite !append_cons. intros [= -> H]. f_equal. by apply (IH s2 c). }
  apply E in H. by apply (inj pretty) in H.
Qed.

(** The keys of up to ten indexes are in text order. *)
Lemma index_keys_sorted n :
  (n ≤ 10)%nat → Sorted key_le (index_key <$> seq 0 n).
Proof.
  intros Hn.
  do 11 (destruct n as [| n]; [by apply (bool_decide_unpack _); vm_compute |]). lia.
Qed.

Lemma indexed_keys_of body (items : list value) :
  (∀ k, String.prefix "ingredients[" k = true → is_Some (body !! k) →
        ∃ i, (i < length items)%nat ∧ k = index_key i) →
  (∀ i v, items !! i = Some v → body !! index_key i = Some v) →
  filter (λ k, String.prefix "ingredients[" k = true) (fst <$> map_to_list body)
    ≡ₚ index_key <$> seq 0 (length items).
Proof.
  intros Honly Hall. apply NoDup_Permutation.
  - apply NoDup_filter, NoDup_fst_map_to_list.
  - apply (@NoDup_fmap_2 _ _ index_key index_key_inj), NoDup_seq.
  - intros k. rewrite list_elem_of_filter, !list_elem_of_fmap. split.
    + intros [Hk ((k' & v) & -> & Hin)]. simpl in *.
      apply elem_of_map_to_list in Hin.
      destruct (Honly k' Hk) as (i & Hi & ->); [by exists v |].
      exists i. split; [done |]. apply elem_of_seq. lia.
    + intros (i & -> & Hi). apply elem_of_seq in Hi.
      split; [apply index_key_indexed |].
      destruct (lookup_lt_is_Some_2 items i) as [v Hv]; [lia |].
      exists (index_key i, v). split; [done |].
      apply elem_of_map_to_list. by apply Hall.
Qed.

Lemma indexedIngredients_in_index_order body (items : list value) :
  (length items ≤ 10)%nat →
  (∀ k, String.prefix "ingredients[" k = true → is_Some (body !! k) →
        ∃ i, (i < length items)%nat ∧ k = index_key i) →
  (∀ i v, items !! i = Some v → body !! index_key i = Some v) →
  indexedIngredients body = items.
Proof.
  intros Hten Honly Hall. unfold indexedIngredients.
  assert (E : merge_sort key_le
                (filter (λ k, String.prefix "ingredients[" k = true)
                        (fst <$> map_to_list body))
              = index_key <$> seq 0 (length items)).
  { apply (@Sorted_unique _ key_le key_le_trans key_le_antisym).
    - apply Sorted_merge_sort. intros a b. apply String.leb_total.
    - by apply index_keys_sorted.
    - rewrite merge_sort_Permutation. by apply indexed_keys_of. }
  rewrite E. apply list_eq. intros i.
  rewrite <- list_fmap_compose, list_lookup_fmap.
  destruct (items !! i) as [v |] eqn:Hv.
  - rewrite lookup_seq_lt by (by eapply lookup_lt_Some). simpl.
    unfold get. by rewrite (Hall i v Hv).
  - rewrite lookup_seq_ge; [done |]. by apply lookup_ge_None.
Qed.

(** X19. Up to ten ingredients sent under the keys [ingredients[0]],
    [ingredients[1]], ... and no [ingredients] field are read in the order
    of their indexes, by the create handler and by the update handler
    alike, whatever the order of the fields in the form and whatever other
    fields it has. *)
Theorem ten_indexed_keys_keep_their_order `{W : Services}
    (body : gmap string value) (items : list value) :
  truthy (get body "ingredients") = false →
  (length items ≤ 10)%nat →
  (∀ k, String.prefix "ingredients[" k = true → is_Some (body !! k) →
        ∃ i, (i < length items)%nat ∧ k = index_key i) →
  (∀ i v, items !! i = Some v → body !! index_key i = Some v) →
  createIngredientsArray body = items ∧ updateIngredientsArray body = items.
Proof.
  intros Hnone Hten Honly Hall.
  unfold createIngredientsArray, updateIngredientsArray. rewrite Hnone.
  split; by apply indexedIngredients_in_index_order.
Qed.

Lemma three_indexed_only k :
  String.prefix "ingredients[" k = true → is_Some (three_indexed_body !! k) →
  ∃ i, (i < length three_items)%nat ∧ k = index_key i.
Proof.
  intros Hk [v Hv]. apply elem_of_map_to_list in Hv.
  let l := eval vm_compute in (map_to_list three_indexed_body) in
  change (map_to_list three_indexed_body) with l in Hv.
  repeat (apply elem_of_cons in Hv as [[= -> ->] | Hv]);
    [.. | by apply elem_of_nil in Hv];
    first [ discriminate Hk
          | by exists 0%nat; split; [simpl; lia | vm_compute]
          | by exists 1%nat; split; [simpl; lia | vm_compute]
          | by exists 2%nat; split; [simpl; lia | vm_compute] ].
Qed.

Lemma three_indexed_all i v :
  three_items !! i = Some v → three_indexed_body !! index_key i = Some v.
Proof.
  do 3 (destruct i as [| i]; [intros [= <-]; vm_compute; reflexivity |]).
  intros H. discriminate H.
Qed.

Lemma ten_indexed_keys_keep_their_order_witness :
  truthy (get three_indexed_body "ingredients") = false
  ∧ (length three_items ≤ 10)%nat
  ∧ @createIngredientsArray sample three_indexed_body = three_items
  ∧ updateIngredientsArray three_indexed_body = three_items.
Proof.
  split; [reflexivity |]. split; [simpl; lia |].
  apply (@ten_indexed_keys_keep_their_order sample three_indexed_body three_items).
  - reflexivity.
  - simpl. lia.
  - exact three_indexed_only.
  - exact three_indexed_all.
Defined.

(** * The edit page *)

(** ** The ingredient rows *)

Lemma spread_rows_of texts : EditRecipe.spread (rows_of texts) = rows_of texts.
Proof.
  unfold EditRecipe.spread, rows_of. rewrite <- list_fmap_compose.
  by apply list_fmap_ext.
Qed.

Lemma assign_rows_of index v texts :
  (index < length texts)%nat →
  EditRecipe.assign index (VStr v) (rows_of texts) = rows_of (<[index := v]> texts).
Proof.
  intros Hi. unfold EditRecipe.assign, rows_of.
  rewrite length_fmap. case_decide; [| lia]. by rewrite list_fmap_insert.
Qed.

Lemma at_index_last texts :
  texts ≠ [] →
  EditRecipe.at_index (rows_of texts) (Z.of_nat (length (rows_of texts)) - 1)
    = VStr (List.last texts "").
Proof.
  intros Hne. unfold EditRecipe.at_index, rows_of. rewrite length_fmap.
  destruct (exists_last Hne) as (init & t & ->).
  rewrite last_last, length_app. simpl.
  case_decide; [lia |].
  replace (Z.to_nat (Z.of_nat (length init + 1) - 1)) with (length init) by lia.
  rewrite list_lookup_fmap, lookup_app_r by lia.
  by rewrite Nat.sub_diag.
Qed.

Lemma without_rows_of index k texts :
  EditRecipe.without index k (rows_of texts)
    = rows_of (if decide (index < k)%nat then texts else delete (index - k)%nat texts).
Proof.
  revert k. induction texts as [| t texts IH]; intros k; simpl.
  { by case_decide. }
  rewrite IH. destruct (Nat.eqb_spec k index) as [-> | Hne].
  - rewrite Nat.sub_diag. simpl. repeat case_decide; try lia. reflexivity.
  - repeat case_decide; try lia; [reflexivity |].
    replace (index - k)%nat with (S (index - S k)) by lia. reflexivity.
Qed.

Lemma present_rows_of texts : EditRecipe.present (rows_of texts) = VStr <$> texts.
Proof.
  unfold EditRecipe.present, rows_of.
  induction texts as [| t texts IH]; [reflexivity |]. simpl. f_equal. exact IH.
Qed.

Lemma addIngredient_rows_of p texts :
  EditRecipe.ingredients (EditRecipe.formData p) = rows_of texts →
  texts ≠ [] →
  EditRecipe.addIngredient p
    = inr (if all_space (List.last texts "")
           then EditRecipe.setError
                  "Please fill in the last ingredient before adding a new one." p
           else EditRecipe.handleInputChange
                  (EditRecipe.Ingredients (rows_of (texts ++ [""])))
                  (EditRecipe.setError "" p)).
Proof.
  intros Hrows Hne. unfold EditRecipe.addIngredient.
  rewrite Hrows, (at_index_last texts Hne). cbn [EditRecipe.trimmed].
  rewrite trim_empty, spread_rows_of.
  destruct (all_space (List.last texts "")); simpl; [reflexivity |].
  unfold rows_of. by rewrite fmap_app.
Qed.

(** X20. While every ingredient row holds a text, the rows behave as a
    list of texts that is never empty: typing in a shown row replaces that
    text and no other; the remove button deletes that row, and does
    nothing on the last remaining one; the add button appends one empty
    row when the last row holds something else than white space and
    otherwise leaves the rows as they are; none of the three throws. *)
Theorem ingredient_rows_edit_as_a_list (p : EditRecipe.Page) (texts : list string) :
  EditRecipe.ingredients (EditRecipe.formData p) = rows_of texts →
  texts ≠ [] →
  (∀ index v, (index < length texts)%nat →
     EditRecipe.ingredients
       (EditRecipe.formData (EditRecipe.handleIngredientChange index v p))
     = rows_of (<[index := v]> texts)
     ∧ <[index := v]> texts ≠ [])
  ∧ (∀ index,
       let texts' := if decide (1 < length texts)%nat then delete index texts
                     else texts in
       EditRecipe.ingredients (EditRecipe.formData (EditRecipe.removeIngredient index p))
       = rows_of texts'
       ∧ texts' ≠ [])
  ∧ (∃ p',
       EditRecipe.addIngredient p = inr p'
       ∧ EditRecipe.ingredients (EditRecipe.formData p')
         = rows_of (if all_space (List.last texts "") then texts else texts ++ [""])).
Proof.
  intros Hrows Hne. split_and!.
  - intros index v Hi. split.
    + unfold EditRecipe.handleIngredientChange. rewrite Hrows, spread_rows_of.
      rewrite (assign_rows_of index v texts Hi).
      by destruct (negb _ && negb _).
    + intros E. apply (f_equal length) in E.
      rewrite length_insert in E. by destruct texts.
  - intros index. cbv zeta. unfold EditRecipe.removeIngredient.
    rewrite Hrows. unfold rows_of at 1. rewrite length_fmap.
    destruct (Nat.ltb_spec 1 (length texts)) as [Hlen | Hlen].
    + case_decide; [| lia]. simpl. rewrite without_rows_of.
      case_decide; [lia |]. rewrite Nat.sub_0_r. split; [reflexivity |].
      clear -Hlen. destruct texts as [| a [| b texts]]; simpl in *; try lia.
      by destruct index.
    + case_decide; [lia |]. done.
  - rewrite (addIngredient_rows_of p texts Hrows Hne).
    eexists. split; [reflexivity |].
    by destruct (all_space (List.last texts "")).
Qed.

Lemma ingredient_rows_edit_as_a_list_witness :
  EditRecipe.ingredients (EditRecipe.formData pasta_form) = rows_of ["pasta"; "salt"]
  ∧ EditRecipe.ingredients
      (EditRecipe.formData (EditRecipe.removeIngredient 0 pasta_form))
    = rows_of ["salt"]
  ∧ EditRecipe.ingredients
      (EditRecipe.formData
         (EditRecipe.removeIngredient 0 (EditRecipe.removeIngredient 0 pasta_form)))
    = rows_of ["salt"].
Proof.
  split; [reflexivity |].
  destruct (ingredient_rows_edit_as_a_list pasta_form ["pasta"; "salt"])
    as (_ & Hremove & _); [reflexivity | discriminate |].
  split; [exact (proj1 (Hremove 0%nat)) |].
  destruct (ingredient_rows_edit_as_a_list
              (EditRecipe.removeIngredient 0 pasta_form) ["salt"])
    as (_ & Hlast & _); [reflexivity | discriminate |].
  exact (proj1 (Hlast 0%nat)).
Defined.

(** X21. Pressed twice in a row on rows of texts, the add button adds at
    most one row: the second press finds the last row blank, changes
    nothing of the form and shows "Please fill in the last ingredient
    before adding a new one." *)
Theorem add_twice_adds_one_row_at_most (p : EditRecipe.Page) (texts : list string) :
  EditRecipe.ingredients (EditRecipe.formData p) = rows_of texts →
  texts ≠ [] →
  ∃ p1 p2,
    EditRecipe.addIngredient p = inr p1
    ∧ EditRecipe.addIngredient p1 = inr p2
    ∧ EditRecipe.formData p2 = EditRecipe.formData p1
    ∧ EditRecipe.error p2
      = "Please fill in the last ingredient before adding a new one."
    ∧ (length (EditRecipe.ingredients (EditRecipe.formData p2))
       ≤ S (length (EditRecipe.ingredients (EditRecipe.formData p))))%nat.
Proof.
  intros Hrows Hne.
  rewrite (addIngredient_rows_of p texts Hrows Hne).
  destruct (all_space (List.last texts "")) eqn:Hlast.
  - set (p1 := EditRecipe.setError _ p).
    exists p1, p1. split; [reflexivity |].
    rewrite (addIngredient_rows_of p1 texts Hrows Hne), Hlast.
    split_and!; try reflexivity. simpl. lia.
  - set (p1 := EditRecipe.handleInputChange _ _).
    assert (Hrows1 : EditRecipe.ingredients (EditRecipe.formData p1)
                     = rows_of (texts ++ [""])) by reflexivity.
    assert (Hne1 : texts ++ [""] ≠ []) by (by destruct texts).
    exists p1, (EditRecipe.setError
                  "Please fill in the last ingredient before adding a new one." p1).
    split; [reflexivity |].
    rewrite (addIngredient_rows_of p1 (texts ++ [""]) Hrows1 Hne1), last_last.
    cbn [all_space].
    split_and!; try reflexivity. simpl. rewrite Hrows. unfold rows_of.
    rewrite !length_fmap, length_app. simpl. lia.
Qed.

Lemma add_twice_adds_one_row_at_most_witness :
  EditRecipe.ingredients (EditRecipe.formData pasta_form) = rows_of ["pasta"; "salt"]
  ∧ ∃ p1 p2,
      EditRecipe.addIngredient pasta_form = inr p1
      ∧ EditRecipe.addIngredient p1 = inr p2
      ∧ EditRecipe.formData p2 = EditRecipe.formData p1
      ∧ EditRecipe.error p2
        = "Please fill in the last ingredient before adding a new one."
      ∧ (length (EditRecipe.ingredients (EditRecipe.formData p2))
         ≤ S (length (EditRecipe.ingredients (EditRecipe.formData pasta_form))))%nat.
Proof.
  split; [reflexivity |].
  apply (add_twice_adds_one_row_at_most pasta_form ["pasta"; "salt"]).
  - reflexivity.
  - discriminate.
Defined.

(** ** The submitted body *)

(** X22. With every row a text, a submit clears the error, marks the page
    as loading and sends, in this order: title, instructions, category,
    cooking time (as a number, or empty when the field is), one
    [ingredients[]] part for each row that holds something else than white
    space, in the order of the rows and untrimmed, and the image part.
    The blank rows are not sent. *)
Theorem submit_sends_the_visible_rows (Number : value → spec_float)
    (p : EditRecipe.Page) (texts : list string) :
  EditRecipe.ingredients (EditRecipe.formData p) = rows_of texts →
  let f := EditRecipe.formData p in
  let '(p', sent) := EditRecipe.handleSubmit Number p in
  EditRecipe.error p' = ""
  ∧ EditRecipe.loading p' = true
  ∧ EditRecipe.formData p' = f
  ∧ sent
    = inr ([("title", EditRecipe.Field (EditRecipe.title f));
            ("instructions", EditRecipe.Field (EditRecipe.instructions f));
            ("category", EditRecipe.Field (EditRecipe.category f));
            ("cookingTime",
             EditRecipe.Field
               (if truthy (EditRecipe.cookingTime f)
                then VNum (Number (EditRecipe.cookingTime f)) else VStr ""))]
           ++ ((λ t, ("ingredients[]", EditRecipe.Field (VStr t)))
                 <$> filter (λ t, all_space t = false) texts)
           ++ EditRecipe.imagePart f).
Proof.
  intros Hrows. cbv zeta. unfold EditRecipe.handleSubmit.
  split_and!; try reflexivity.
  unfold EditRecipe.body. simpl.
  rewrite Hrows, present_rows_of, filterTrim_texts.
  by rewrite <- list_fmap_compose.
Qed.

Lemma submit_sends_the_visible_rows_witness :
  let Number := λ _ : value, S754_zero false in
  let p := EditRecipe.handleIngredientChange 0 "  " pasta_form in
  EditRecipe.ingredients (EditRecipe.formData p) = rows_of ["  "; "salt"]
  ∧ (EditRecipe.handleSubmit Number p).2
    = inr [("title", EditRecipe.Field (VStr "Pasta"));
           ("instructions", EditRecipe.Field (VStr "Boil."));
           ("category", EditRecipe.Field (VStr "Dinner"));
           ("cookingTime", EditRecipe.Field (VStr ""));
           ("ingredients[]", EditRecipe.Field (VStr "salt"))].
Proof.
  cbv zeta. split; [reflexivity |].
  pose proof (submit_sends_the_visible_rows (λ _ : value, S754_zero false)
                (EditRecipe.handleIngredientChange 0 "  " pasta_form)
                ["  "; "salt"] eq_refl) as H.
  cbv zeta in H.
  destruct (EditRecipe.handleSubmit _ _) as [p' sent].
  destruct H as (_ & _ & _ & ->). reflexivity.
Defined.

(** X23. A row that is there and is not a text makes the submit throw a
    [TypeError] while it builds the body: nothing is sent, and the page is
    left marked as loading, since what resets the mark runs only after the
    request. *)
Theorem submit_throws_on_a_row_that_is_not_text (Number : value → spec_float)
    (p : EditRecipe.Page) (v : value) :
  v ∈ EditRecipe.present (EditRecipe.ingredients (EditRecipe.formData p)) →
  (∀ s, v ≠ VStr s) →
  let '(p', sent) := EditRecipe.handleSubmit Number p in
  sent = inl TypeError ∧ EditRecipe.loading p' = true.
Proof.
  intros Hin Hv. unfold EditRecipe.handleSubmit, EditRecipe.body. simpl.
  by rewrite (filterTrim_non_text _ v Hin Hv).
Qed.

Lemma submit_throws_on_a_row_that_is_not_text_witness :
  let Number := λ _ : value, S754_zero false in
  VNum (S754_finite false 3 0)
    ∈ EditRecipe.present (EditRecipe.ingredients (EditRecipe.formData numbered_form))
  ∧ let '(p', sent) := EditRecipe.handleSubmit Number numbered_form in
    sent = inl TypeError ∧ EditRecipe.loading p' = true.
Proof.
  cbv zeta.
  assert (Hin : VNum (S754_finite false 3 0)
                ∈ EditRecipe.present
                    (EditRecipe.ingredients (EditRecipe.formData numbered_form))).
  { change (EditRecipe.present _) with [VStr "salt"; VNum (S754_finite false 3 0)].
    apply elem_of_cons. right. apply elem_of_cons. by left. }
  split; [exact Hin |].
  apply (submit_throws_on_a_row_that_is_not_text (λ _ : value, S754_zero false)
           numbered_form (VNum (S754_finite false 3 0)) Hin).
  intros s. discriminate.
Defined.

(** ** The image part *)

Lemma image_choice_snoc events e :
  image_choice (events ++ [e])
    = match e with
      | EditRecipe.Chosen file _ => NewFile file
      | EditRecipe.Cleared => Removed
      | _ => image_choice events
      end.
Proof.
  induction events as [| e' events IH]; simpl.
  - by destruct e.
  - rewrite IH. destruct e; try reflexivity; by destruct (image_choice events).
Qed.

(** What the events leave of the three fields the image part reads. *)
Lemma image_fields_after recipe p events :
  let f := EditRecipe.formData
             (foldl (λ p e, EditRecipe.on e p)
                    (EditRecipe.fetchRecipe (Some recipe) p) events) in
  EditRecipe.initialImageUrlWasPresent f
    = negb (String.eqb (default "" (Recipe.image recipe)) "")
  ∧ match image_choice events with
    | NewFile file => EditRecipe.imageFile f = Some file
    | Removed => EditRecipe.imageFile f = None ∧ EditRecipe.photoUrl f = ""
    | Kept =>
        EditRecipe.imageFile f = None
        ∧ EditRecipe.photoUrl f = default "" (Recipe.image recipe)
    end.
Proof.
  cbv zeta. induction events as [| e events IH] using rev_ind.
  - simpl. done.
  - rewrite foldl_app, image_choice_snoc. simpl.
    destruct IH as [Hinit Hlast].
    set (q := foldl _ _ events) in *.
    destruct e as [c | index v | | index | file url | |]; simpl.
    + destruct c; simpl; by split.
    + unfold EditRecipe.handleIngredientChange.
      destruct (negb _ && negb _); simpl; by split.
    + unfold EditRecipe.addIngredient.
      destruct (EditRecipe.trimmed _) as [? | t]; [by split |].
      destruct (negb (String.eqb t "")); simpl; by split.
    + unfold EditRecipe.removeIngredient.
      destruct (Nat.ltb _ _); simpl; by split.
    + by split.
    + by split.
    + by split.
Qed.

(** X24. Whatever is done on the page between the load and the submit,
    the image part of the body follows the last file chosen or image
    cleared: a chosen file is sent as [image]; after a clear,
    [clearImage] = "true" is sent if the recipe was loaded with an image
    and nothing otherwise; with neither event nothing is sent.  [image]
    and [clearImage] never go together, and [clearImage] is never sent for
    a recipe loaded without an image. *)
Theorem image_part_follows_the_last_image_event
    (recipe : Recipe.t) (p : EditRecipe.Page) (events : list EditRecipe.Event) :
  let p' := foldl (λ p e, EditRecipe.on e p)
                  (EditRecipe.fetchRecipe (Some recipe) p) events in
  EditRecipe.imagePart (EditRecipe.formData p')
    = match image_choice events with
      | NewFile file => [("image", EditRecipe.Upload file)]
      | Removed =>
          match Recipe.image recipe with
          | Some url =>
              if String.eqb url "" then []
              else [("clearImage", EditRecipe.Field (VStr "true"))]
          | None => []
          end
      | Kept => []
      end.
Proof.
  cbv zeta.
  destruct (image_fields_after recipe p events) as [Hinit Hlast].
  cbv zeta in Hinit, Hlast. unfold EditRecipe.imagePart. rewrite Hinit.
  destruct (image_choice events).
  - destruct Hlast as [-> ->].
    destruct (Recipe.image recipe) as [url |]; simpl; [| reflexivity].
    by destruct (String.eqb url "").
  - by rewrite Hlast.
  - destruct Hlast as [-> ->].
    destruct (Recipe.image recipe) as [url |]; simpl; [| reflexivity].
    by destruct (String.eqb url "").
Qed.

(** * The explore page *)

(** ** Hearts *)

Lemma listed_pending data p id :
  id ∈ Explore.pendingToggles p →
  Explore.likesState (Explore.updateLikesStateFromData data p) !! id
    = Explore.likesState p !! id.
Proof.
  intros Hin. unfold Explore.updateLikesStateFromData. simpl.
  generalize (Explore.likesState p) as m.
  induction data as [| r data IH]; intros m; simpl; [reflexivity |].
  rewrite IH. case_decide; [reflexivity |].
  apply lookup_insert_ne. congruence.
Qed.

(** While a toggle is pending on a recipe, nothing that happens on the
    page but its own end touches the entry of that recipe. *)
Lemma pending_entry_stands user id events p :
  id ∈ Explore.pendingToggles p →
  (∀ t o, Explore.Settled t o ∈ events → Explore.recipeId t ≠ id) →
  let p' := foldl (λ p e, Explore.on user e p) p events in
  id ∈ Explore.pendingToggles p'
  ∧ Explore.likesState p' !! id = Explore.likesState p !! id.
Proof.
  cbv zeta. revert p. induction events as [| e events IH]; intros p Hin Hothers.
  { done. }
  simpl.
  assert (Hstep : id ∈ Explore.pendingToggles (Explore.on user e p)
                  ∧ Explore.likesState (Explore.on user e p) !! id
                    = Explore.likesState p !! id).
  { destruct e as [data | id' | t o | recipe | |]; simpl.
    - split; [done | by apply listed_pending].
    - unfold Explore.handleHeartClick. destruct user; [| done].
      case_decide; [done |]. simpl. split; [apply elem_of_union; by right |].
      apply lookup_insert_ne. congruence.
    - assert (Explore.recipeId t ≠ id) by (eapply Hothers; left).
      split; [| by apply lookup_insert_ne].
      apply elem_of_difference. split; [done |].
      intros E%elem_of_singleton. congruence.
    - unfold Explore.handleDeleteClick. destruct user; [| done].
      by destruct (String.eqb _ _).
    - done.
    - done. }
  destruct Hstep as [Hin' Hsame].
  destruct (IH (Explore.on user e p) Hin') as [Hp Hl].
  { intros t o Hto. apply (Hothers t o). by right. }
  split; [exact Hp |]. by rewrite Hl.
Qed.

(** X25. A click on the heart of a recipe by a visitor who is logged in,
    with no toggle pending on it, shows the like flipped and the count
    moved by one at once.  Until that toggle ends, the card keeps showing
    this whatever else happens on the page -- listings that arrive, other
    clicks, toggles ending on other recipes; a further click on the same
    heart does nothing.  If the requests fail, the card shows again the
    like and the count it showed before the click, and the recipe is no
    longer pending. *)
Theorem failed_like_is_rolled_back
    (user : User.t) (id : string) (p : Explore.Page) (events : list Explore.Event) :
  id ∉ Explore.pendingToggles p →
  (∀ t o, Explore.Settled t o ∈ events → Explore.recipeId t ≠ id) →
  ∃ p1 t,
    Explore.handleHeartClick (Some user) id p = (p1, Some t)
    ∧ let p2 := foldl (λ p e, Explore.on (Some user) e p) p1 events in
      let p3 := Explore.settle t Explore.Failed p2 in
      Explore.shownLiked p2 id = negb (Explore.shownLiked p id)
      ∧ Explore.shownCount p2 id
        = (Explore.shownCount p id + if Explore.shownLiked p id then -1 else 1)%Z
      ∧ Explore.handleHeartClick (Some user) id p2 = (p2, None)
      ∧ Explore.shownLiked p3 id = Explore.shownLiked p id
      ∧ Explore.shownCount p3 id = Explore.shownCount p id
      ∧ id ∉ Explore.pendingToggles p3.
Proof.
  intros Hfree Hothers. unfold Explore.handleHeartClick at 1.
  case_decide; [done |].
  eexists _, _. split; [reflexivity |]. cbv zeta.
  set (p1 := Explore.setPendingToggles _ _).
  assert (Hin1 : id ∈ Explore.pendingToggles p1).
  { simpl. apply elem_of_union. left. by apply elem_of_singleton. }
  destruct (pending_entry_stands (Some user) id events p1 Hin1 Hothers)
    as [Hin2 Hentry].
  cbv zeta in Hin2, Hentry.
  set (p2 := foldl _ p1 events) in *.
  assert (E1 : Explore.likesState p1 !! id
               = Some (Explore.mkReading (negb (Explore.shownLiked p id))
                         (Explore.shownCount p id
                          + if Explore.shownLiked p id then -1 else 1)%Z))
    by (simpl; apply lookup_insert_eq).
  rewrite E1 in Hentry.
  split_and!.
  - unfold Explore.shownLiked at 1. by rewrite Hentry.
  - unfold Explore.shownCount at 1. by rewrite Hentry.
  - unfold Explore.handleHeartClick. by case_decide.
  - unfold Explore.shownLiked at 1. simpl. by rewrite lookup_insert_eq.
  - unfold Explore.shownCount at 1. simpl. by rewrite lookup_insert_eq.
  - simpl. intros [_ Hn]%elem_of_difference. apply Hn. by apply elem_of_singleton.
Qed.

Lemma failed_like_is_rolled_back_witness :
  let events := [Explore.HeartClicked pasta_id;
                 Explore.Listed [Explore.mkItem pasta_id (Some true) (Some 7%Z)];
                 Explore.HeartClicked soup_id] in
  (pasta_id ∉ Explore.pendingToggles pasta_listed)
  ∧ ∃ p1 t,
      Explore.handleHeartClick (Some bob) pasta_id pasta_listed = (p1, Some t)
      ∧ let p2 := foldl (λ p e, Explore.on (Some bob) e p) p1 events in
        let p3 := Explore.settle t Explore.Failed p2 in
        Explore.shownLiked p2 pasta_id = negb (Explore.shownLiked pasta_listed pasta_id)
        ∧ Explore.shownCount p2 pasta_id
          = (Explore.shownCount pasta_listed pasta_id
             + if Explore.shownLiked pasta_listed pasta_id then -1 else 1)%Z
        ∧ Explore.handleHeartClick (Some bob) pasta_id p2 = (p2, None)
        ∧ Explore.shownLiked p3 pasta_id = Explore.shownLiked pasta_listed pasta_id
        ∧ Explore.shownCount p3 pasta_id = Explore.shownCount pasta_listed pasta_id
        ∧ pasta_id ∉ Explore.pendingToggles p3.
Proof.
  cbv zeta.
  assert (Hfree : pasta_id ∉ Explore.pendingToggles pasta_listed)
    by apply not_elem_of_empty.
  split; [exact Hfree |].
  apply (failed_like_is_rolled_back bob pasta_id pasta_listed _ Hfree).
  intros t o H.
  repeat (apply elem_of_cons in H as [H | H]; [discriminate H |]).
  by apply elem_of_nil in H.
Defined.

Lemma toggled_length uid l :
  Z.of_nat (length (toggled uid l))
    = (Z.of_nat (length l) + if bool_decide (uid ∈ l) then -1 else 1)%Z.
Proof.
  destruct (decide (uid ∈ l)) as [Hin | Hn].
  - rewrite bool_decide_eq_true_2 by done.
    destruct (toggled_present uid l Hin) as (l1 & l2 & -> & _ & ->).
    rewrite !length_app. simpl. lia.
  - rewrite bool_decide_eq_false_2 by done.
    rewrite (toggled_absent uid l Hn), length_app. simpl. lia.
Qed.

(** X26. When a card shows what the server holds -- the like of the
    visitor and the number of likers of a stored recipe whose [likedBy]
    holds no id twice -- the heart the click shows at once is the answer
    [POST /:id/like] gives, and it is what [GET /:id] reports after that
    like: the toggle ends with the card as the click left it. *)
Theorem optimistic_like_matches_the_server `{W : Services}
    (user : User.t) (id : string) (p : Explore.Page)
    (st : State) (oid : ObjectId) (recipe : Recipe.t) :
  isValid id = true →
  castObjectId id = Some oid →
  recipes st !! oid = Some recipe →
  Recipe._id recipe = oid →
  NoDup (Recipe.likedBy recipe) →
  status (likeRecipe user id st).1 = 200 →
  id ∉ Explore.pendingToggles p →
  Explore.shownLiked p id = bool_decide (User._id user ∈ Recipe.likedBy recipe) →
  Explore.shownCount p id = Z.of_nat (length (Recipe.likedBy recipe)) →
  ∃ p1 t likes,
    Explore.handleHeartClick (Some user) id p = (p1, Some t)
    ∧ (likeRecipe user id st).1
      = mkResponse 200 (Liked (Explore.shownLiked p1 id) likes)
    ∧ Explore.shownCount p1 id = Z.of_nat likes
    ∧ let answer := (getRecipe (Some user) id (likeRecipe user id st).2).1 in
      let p2 := Explore.settle t (Explore.Answered (itemOf id (json answer))) p1 in
      status answer = 200
      ∧ Explore.shownLiked p2 id = Explore.shownLiked p1 id
      ∧ Explore.shownCount p2 id = Explore.shownCount p1 id
      ∧ id ∉ Explore.pendingToggles p2.
Proof.
  intros Hvalid Hcast Hfound Hid Hnodup H200 Hfree Hliked Hcount.
  pose proof (likeRecipe_outcome st id oid recipe Hcast Hfound user) as Hlike.
  cbv zeta in Hlike.
  set (likedBy' := toggled (User._id user) (Recipe.likedBy recipe)) in *.
  destruct (validates (Recipe.set_likedBy likedBy' recipe));
    [| rewrite Hlike in H200; discriminate].
  unfold Explore.handleHeartClick.
  destruct (decide (id ∈ Explore.pendingToggles p)) as [| _]; [done |].
  eexists _, _, (length likedBy'). split; [reflexivity |].
  set (p1 := Explore.setPendingToggles _ _).
  assert (E1 : Explore.shownLiked p1 id
               = bool_decide (User._id user ∉ Recipe.likedBy recipe)).
  { unfold Explore.shownLiked at 1. simpl. rewrite lookup_insert_eq. simpl.
    rewrite Hliked. by rewrite bool_decide_not. }
  assert (E2 : Explore.shownCount p1 id = Z.of_nat (length likedBy')).
  { unfold Explore.shownCount at 1. simpl. rewrite lookup_insert_eq. simpl.
    rewrite Hliked, Hcount. unfold likedBy'. by rewrite toggled_length. }
  rewrite Hlike. simpl. rewrite E1. split; [reflexivity |]. split; [exact E2 |].
  rewrite (getRecipe_stored (Some user) id _ oid (Recipe.set_likedBy likedBy' recipe)
             Hvalid Hcast); [| simpl; rewrite Hid; apply lookup_insert_eq].
  cbn [fst json status itemOf]. split; [reflexivity |].
  rewrite ?E1, ?E2. clearbody p1.
  unfold Explore.shownLiked, Explore.shownCount, Explore.settle. simpl.
  rewrite !lookup_insert_eq. simpl. split_and!.
  - apply bool_decide_ext. unfold likedBy'.
    rewrite (toggled_elem_of _ _ _ Hnodup).
    split; [intros [[_ ?] | [? _]]; done | intros ?; by left].
  - reflexivity.
  - intros [_ Hn]%elem_of_difference. apply Hn. by apply elem_of_singleton.
Qed.

Lemma optimistic_like_matches_the_server_witness :
  @isValid sample pasta_id = true
  ∧ @castObjectId sample pasta_id = Some 10%N
  ∧ recipes kitchen !! 10%N = Some pasta
  ∧ status (@likeRecipe sample bob pasta_id kitchen).1 = 200
  ∧ ∃ p1 t likes,
      Explore.handleHeartClick (Some bob) pasta_id pasta_listed = (p1, Some t)
      ∧ (@likeRecipe sample bob pasta_id kitchen).1
        = mkResponse 200 (Liked (Explore.shownLiked p1 pasta_id) likes)
      ∧ Explore.shownCount p1 pasta_id = Z.of_nat likes
      ∧ let answer :=
          (@getRecipe sample (Some bob) pasta_id
             (@likeRecipe sample bob pasta_id kitchen).2).1 in
        let p2 := Explore.settle t
                    (Explore.Answered (itemOf pasta_id (json answer))) p1 in
        status answer = 200
        ∧ Explore.shownLiked p2 pasta_id = Explore.shownLiked p1 pasta_id
        ∧ Explore.shownCount p2 pasta_id = Explore.shownCount p1 pasta_id
        ∧ pasta_id ∉ Explore.pendingToggles p2.
Proof.
  split; [reflexivity |]. split; [reflexivity |]. split; [reflexivity |].
  split; [reflexivity |].
  apply (@optimistic_like_matches_the_server sample bob pasta_id pasta_listed
           kitchen 10%N pasta).
  - reflexivity.
  - reflexivity.
  - reflexivity.
  - reflexivity.
  - apply NoDup_nil_2.
  - reflexivity.
  - apply not_elem_of_empty.
  - reflexivity.
  - reflexivity.
Defined.

(** X27. A listing that arrives rewrites the hearts of the recipes it
    holds, except those with a toggle pending, which keep what they show;
    a recipe that comes more than once takes its last occurrence, a
    missing [likedByUser] reads as not liked and a missing [likes] as
    zero; recipes the listing does not hold keep their hearts, and the
    pending set is not touched. *)
Theorem listing_spares_pending_hearts
    (data : list Explore.Item) (p : Explore.Page) (id : string) :
  let p' := Explore.updateLikesStateFromData data p in
  Explore.pendingToggles p' = Explore.pendingToggles p
  ∧ Explore.likesState p' !! id
    = match last (filter (λ r, Explore._id r = id) data) with
      | Some r =>
          if decide (id ∈ Explore.pendingToggles p) then Explore.likesState p !! id
          else Some (Explore.mkReading (default false (Explore.likedByUser r))
                                       (default 0%Z (Explore.likes r)))
      | None => Explore.likesState p !! id
      end.
Proof.
  cbv zeta. split; [reflexivity |].
  destruct (decide (id ∈ Explore.pendingToggles p)) as [Hin | Hn].
  { rewrite (listed_pending data p id Hin). by destruct (last _). }
  unfold Explore.updateLikesStateFromData. simpl.
  induction data as [| r data IH] using rev_ind; [reflexivity |].
  rewrite foldl_app, filter_app. simpl.
  destruct (decide (Explore._id r = id)) as [E | Hne].
  - rewrite filter_cons_True by done. rewrite filter_nil, last_snoc.
    rewrite E. rewrite decide_False by done. apply lookup_insert_eq.
  - rewrite filter_cons_False by done. rewrite filter_nil, app_nil_r.
    destruct (decide (Explore._id r ∈ Explore.pendingToggles p)); [exact IH |].
    rewrite lookup_insert_ne by done. exact IH.
Qed.

(** ** The delete dialog *)

Lemma dialog_belongs_to_the_admin user events p :
  (is_Some (Explore.recipeToDelete p) →
     ∃ u, user = Some u ∧ User.email u = "admin@gmail.com") →
  is_Some (Explore.recipeToDelete (foldl (λ p e, Explore.on user e p) p events)) →
  ∃ u, user = Some u ∧ User.email u = "admin@gmail.com".
Proof.
  revert p. induction events as [| e events IH]; intros p Hp; simpl; [exact Hp |].
  apply IH. destruct e as [data | id | t o | recipe | |]; simpl; try exact Hp.
  - unfold Explore.handleHeartClick. destruct user; [| exact Hp].
    by destruct (decide _).
  - unfold Explore.handleDeleteClick. destruct user as [u |]; [| exact Hp].
    destruct (String.eqb_spec (User.email u) "admin@gmail.com"); [| exact Hp].
    intros _. by exists u.
  - intros [? ?]. discriminate.
  - intros [? ?]. discriminate.
Qed.

Lemma admin_is_never_refused `{W : Services} u id st :
  User.email u = "admin@gmail.com" →
  status (deleteRecipe u id st).1 ≠ 401.
Proof.
  intros Hadmin.
  destruct (castObjectId id) as [oid |] eqn:Hcast.
  - destruct (recipes st !! oid) as [recipe |] eqn:Hfound.
    + rewrite (deleteRecipe_outcome st id oid recipe Hcast Hfound u
                 (gate_open u recipe (or_intror Hadmin))).
      destruct (nonempty _ && _); [| done].
      by destruct (destroy_resolves _).
    + by destruct (absent_recipe_404 u id None ∅ st oid Hcast Hfound) as (_ & _ & ->).
  - unfold deleteRecipe, try_catch, findById. run. by rewrite Hcast.
Qed.

(** X28. From the page as it opens, whatever happens on it, a [DELETE]
    is sent only for a visitor whose email is "admin@gmail.com" -- the
    creator of a recipe cannot delete it from this page -- and
    [DELETE /:id] never answers such a request with 401. *)
Theorem explore_deletes_as_the_admin `{W : Services}
    (user : option User.t) (events : list Explore.Event) (id : string) (st : State) :
  Explore.confirmDelete (foldl (λ p e, Explore.on user e p) Explore.initial events)
    = Some id →
  ∃ u, user = Some u
       ∧ User.email u = "admin@gmail.com"
       ∧ status (deleteRecipe u id st).1 ≠ 401.
Proof.
  intros Hsent.
  destruct (dialog_belongs_to_the_admin user events Explore.initial) as (u & -> & Hadmin).
  - intros [? ?]. discriminate.
  - unfold Explore.confirmDelete in Hsent.
    by destruct (Explore.recipeToDelete _).
  - exists u. split; [reflexivity |]. split; [exact Hadmin |].
    by apply admin_is_never_refused.
Qed.

Lemma explore_deletes_as_the_admin_witness :
  let events := [Explore.DeleteClicked (Explore.mkItem pasta_id None None)] in
  Explore.confirmDelete
    (foldl (λ p e, Explore.on (Some admin) e p) Explore.initial events)
  = Some pasta_id
  ∧ ∃ u, Some admin = Some u
         ∧ User.email u = "admin@gmail.com"
         ∧ status (@deleteRecipe sample u pasta_id kitchen).1 ≠ 401.
Proof.
  cbv zeta. split; [reflexivity |].
  apply (@explore_deletes_as_the_admin sample (Some admin)
           [Explore.DeleteClicked (Explore.mkItem pasta_id None None)]
           pasta_id kitchen).
  reflexivity.
Defined.

(** * From an update to the edit form *)

Lemma filterTrim_kept l kept :
  filterTrim l = inr kept →
  ∃ texts, kept = VStr <$> texts ∧ Forall (λ t, all_space t = false) texts.
Proof.
  revert kept. induction l as [| v l IH]; intros kept; simpl.
  - intros [= <-]. by exists [].
  - destruct v as [| | | | s | |]; try discriminate.
    destruct (filterTrim l) as [e | kept']; [discriminate |].
    destruct (IH kept' eq_refl) as (texts & -> & Hall).
    rewrite trim_empty. destruct (all_space s) eqn:Hs; intros [= <-].
    + by exists texts.
    + exists (s :: texts). split; [reflexivity |]. by constructor.
Qed.

(** X29. After an update answered 200 that sent ingredients, the stored
    ingredients are texts that each hold something else than white space;
    [GET /:id] then serves them, and the edit form that loads this answer
    shows them as its rows, or one empty row when none is left: rows on
    which adding, removing and submitting do not throw. *)
Theorem updated_recipe_loads_as_text_rows `{W : Services}
    (Number : value → spec_float)
    (user : User.t) (viewer : option User.t) (id : string) (file : option File)
    (body : gmap string value) (st : State) (oid : ObjectId) (recipe : Recipe.t)
    (p : EditRecipe.Page) :
  isValid id = true →
  castObjectId id = Some oid →
  recipes st !! oid = Some recipe →
  Recipe._id recipe = oid →
  updateIngredientsArray body ≠ [] →
  status (updateRecipe user id file body st).1 = 200 →
  ∃ recipe' creator liked likes texts,
    getRecipe viewer id (updateRecipe user id file body st).2
      = (mkResponse 200 (Detail recipe' creator liked likes),
         (updateRecipe user id file body st).2)
    ∧ Recipe.ingredients recipe' = VStr <$> texts
    ∧ Forall (λ t, all_space t = false) texts
    ∧ let p' := EditRecipe.fetchRecipe (Some recipe') p in
      EditRecipe.ingredients (EditRecipe.formData p')
        = rows_of (if decide (texts = []) then [""] else texts)
      ∧ (∃ p'', EditRecipe.addIngredient p' = inr p'')
      ∧ (∃ sent, (EditRecipe.handleSubmit Number p').2 = inr sent).
Proof.
  intros Hvalid Hcast Hfound Hid Hsent H200.
  assert (Hgate : negb (isAdmin user) && negb (isOwner recipe user) = false).
  { rewrite (updateRecipe_found st id oid recipe Hcast Hfound) in H200.
    by destruct (negb (isAdmin user) && negb (isOwner recipe user)). }
  pose proof (updateRecipe_authorized user id file body st oid recipe
                Hcast Hfound Hgate) as Hrun.
  destruct (updateRecipe user id file body st) as [res st']. cbn [fst snd] in *.
  destruct Hrun as [[-> _] | (recipe' & _ & Hst' & _ & _ & _ & Hset & _)];
    [discriminate |].
  destruct (filterTrim_kept _ _ (Hset Hsent)) as (texts & Hing & Hall).
  assert (Hstored : recipes st' !! oid = Some recipe')
    by (rewrite Hst', Hid; apply lookup_insert_eq).
  rewrite (getRecipe_stored viewer id st' oid recipe' Hvalid Hcast Hstored).
  eexists recipe', _, _, _, texts. split; [reflexivity |].
  split; [exact Hing |]. split; [exact Hall |]. cbv zeta.
  assert (Hrows : EditRecipe.ingredients
                    (EditRecipe.formData (EditRecipe.fetchRecipe (Some recipe') p))
                  = rows_of (if decide (texts = []) then [""] else texts)).
  { simpl. rewrite Hing. destruct texts as [| t texts]; [reflexivity |].
    rewrite decide_False by done. unfold rows_of. simpl. f_equal.
    by rewrite <- list_fmap_compose. }
  split; [exact Hrows |]. split.
  - rewrite (addIngredient_rows_of _ _ Hrows); [by eexists |].
    case_decide; done.
  - change (EditRecipe.handleSubmit Number ?q).2
      with (EditRecipe.body Number (EditRecipe.formData q)).
    unfold EditRecipe.body.
    rewrite Hrows, present_rows_of, filterTrim_texts. by eexists.
Qed.

Lemma updated_recipe_loads_as_text_rows_witness :
  let Number := λ _ : value, S754_zero false in
  @isValid sample pasta_id = true
  ∧ @castObjectId sample pasta_id = Some 10%N
  ∧ recipes pantry !! 10%N = Some pasta
  ∧ updateIngredientsArray spaced_array_body ≠ []
  ∧ status (@updateRecipe sample alice pasta_id None spaced_array_body pantry).1 = 200
  ∧ ∃ recipe' creator liked likes texts,
      @getRecipe sample None pasta_id
        (@updateRecipe sample alice pasta_id None spaced_array_body pantry).2
        = (mkResponse 200 (Detail recipe' creator liked likes),
           (@updateRecipe sample alice pasta_id None spaced_array_body pantry).2)
      ∧ Recipe.ingredients recipe' = VStr <$> texts
      ∧ Forall (λ t, all_space t = false) texts
      ∧ let p' := EditRecipe.fetchRecipe (Some recipe') EditRecipe.initial in
        EditRecipe.ingredients (EditRecipe.formData p')
          = rows_of (if decide (texts = []) then [""] else texts)
        ∧ (∃ p'', EditRecipe.addIngredient p' = inr p'')
        ∧ (∃ sent, (EditRecipe.handleSubmit Number p').2 = inr sent).
Proof.
  cbv zeta.
  split; [reflexivity |]. split; [reflexivity |]. split; [reflexivity |].
  split; [discriminate |]. split; [reflexivity |].
  apply (@updated_recipe_loads_as_text_rows sample (λ _ : value, S754_zero false)
           alice None pasta_id None spaced_array_body pantry 10%N pasta
           EditRecipe.initial).
  - reflexivity.
  - reflexivity.
  - reflexivity.
  - reflexivity.
  - discriminate.
  - reflexivity.
Defined.

(** ** POST /: an array of one entry whose text parses (C5) *)

(** C5, where the code departs from it. One ingredient whose text is
    JSON that is not an array -- a number, say -- is read as that one
    text when it is sent as a scalar, and as one entry that is itself an
    array when it is sent as an array of one entry: [JSON.parse] reads the
    array through its text and succeeds, and the handler then wraps the
    field without asking whether it is an array already, which it asks
    only when the parse fails.  The recipe is built with the nested array
    for ingredients, and saved if the schema lets it.  The update handler
    asks first and reads the one text. *)
Theorem one_entry_array_is_nested `{W : Services}
    (user : User.t) (newId : ObjectId) (file : option File)
    (body : gmap string value) (st : State) (s : string) (parsed : value) :
  truthy (get body "title") = true →
  truthy (get body "instructions") = true →
  truthy (get body "category") = true →
  body !! "ingredients" = Some (VArr [VStr s]) →
  s ≠ "" →
  JSON_parse (VStr s) = Some parsed →
  JSON_parse (VArr [VStr s]) = Some parsed →
  (∀ l, parsed ≠ VArr l) →
  recipes st !! newId = None →
  let recipe :=
    Recipe.mk newId (get body "title") (get body "description")
      (get body "instructions") (get body "category") (get body "cookingTime")
      [VArr [VStr s]]
      match file with
      | Some f => or_else (path f) (secure_url f)
      | None => None
      end
      (User._id user) [] in
  createIngredientsArray (<["ingredients" := VStr s]> body) = [VStr s]
  ∧ createIngredientsArray body = [VArr [VStr s]]
  ∧ updateIngredientsArray body = [VStr s]
  ∧ createRecipe user newId file body st
    = if validates recipe
      then (mkResponse 201 (Created recipe),
            set_recipes (<[newId := recipe]> (recipes st)) st)
      else (mkResponse 500 (Message "Server error"), st).
Proof.
  intros Htitle Hinstr Hcat Hbody Hs Htext Harray Hshape Hfree recipe.
  assert (Hscalar : createIngredientsArray (<["ingredients" := VStr s]> body)
                    = [VStr s]).
  { unfold createIngredientsArray, get. rewrite lookup_insert_eq. simpl.
    destruct (String.eqb_spec s ""); [done |]. simpl. rewrite Htext.
    destruct parsed; try reflexivity. by destruct (Hshape elems). }
  assert (Hnested : createIngredientsArray body = [VArr [VStr s]]).
  { unfold createIngredientsArray, get. rewrite Hbody. simpl. rewrite Harray.
    destruct parsed; try reflexivity. by destruct (Hshape elems). }
  split; [exact Hscalar |]. split; [exact Hnested |]. split.
  { unfold updateIngredientsArray, get. by rewrite Hbody. }
  rewrite (createRecipe_outcome user newId file body st). cbv zeta.
  rewrite Hnested, Htitle, Hinstr, Hcat. simpl. fold recipe.
  destruct (validates recipe); [| reflexivity]. simpl.
  rewrite Hfree. by rewrite bool_decide_eq_false_2 by (intros [? ?]; discriminate).
Qed.

Lemma one_entry_array_is_nested_witness :
  let recipe :=
    Recipe.mk 11%N (VStr "Rice") VUndefined (VStr "Steam.") (VStr "Dinner")
      VUndefined [VArr [VStr "1"]] None (User._id bob) [] in
  numeral_submission !! "ingredients" = Some (VArr [VStr "1"])
  ∧ @JSON_parse sample_through_text (VArr [VStr "1"])
    = Some (VNum (S754_finite false 1 0))
  ∧ recipes kitchen !! 11%N = None
  ∧ @createIngredientsArray sample_through_text
      (<["ingredients" := VStr "1"]> numeral_submission) = [VStr "1"]
  ∧ @createIngredientsArray sample_through_text numeral_submission
    = [VArr [VStr "1"]]
  ∧ updateIngredientsArray numeral_submission = [VStr "1"]
  ∧ @createRecipe sample_through_text bob 11%N None numeral_submission kitchen
    = (mkResponse 201 (Created recipe),
       set_recipes (<[11%N := recipe]> (recipes kitchen)) kitchen).
Proof.
  cbv zeta.
  split; [reflexivity |]. split; [reflexivity |]. split; [reflexivity |].
  apply (@one_entry_array_is_nested sample_through_text bob 11%N None
           numeral_submission kitchen "1" (VNum (S754_finite false 1 0))).
  - reflexivity.
  - reflexivity.
  - reflexivity.
  - reflexivity.
  - discriminate.
  - reflexivity.
  - reflexivity.
  - intros l. discriminate.
  - reflexivity.
Defined.

(** ** What a failed request leaves behind *)

Lemma handle_failed_destroyed `{W : Services} req st :
  match req with
  | CreateRecipe _ _ _ _ => status (handle req st).1 ≠ 201
  | _ => status (handle req st).1 ≠ 200
  end →
  match req with
  | UpdateRecipe user id _ _ =>
      destroyed (handle req st).2 = destroyed st
      ∨ ∃ oid recipe,
          castObjectId id = Some oid
          ∧ recipes st !! oid = Some recipe
          ∧ (User._id user = Recipe.createdBy recipe
             ∨ User.email user = "admin@gmail.com")
          ∧ destroyed_image recipe st (handle req st).2
  | _ => destroyed (handle req st).2 = destroyed st
  end.
Proof.
  destruct req as [viewer v | viewer v | viewer | user | user v
                  | viewer id | user id | user newId file body
                  | user id file body | user id]; simpl.
  - by destruct (listings_read_only viewer alice v st) as (-> & _).
  - by destruct (listings_read_only viewer alice v st) as (_ & -> & _).
  - by destruct (listings_read_only viewer alice VUndefined st) as (_ & _ & -> & _).
  - by destruct (listings_read_only None user VUndefined st) as (_ & _ & _ & -> & _).
  - by destruct (listings_read_only None user v st) as (_ & _ & _ & _ & ->).
  - by rewrite get_recipe_state.
  - intros _. destruct (castObjectId id) as [oid |] eqn:Hcast.
    + destruct (recipes st !! oid) as [recipe |] eqn:Hfound.
      * rewrite (likeRecipe_outcome st id oid recipe Hcast Hfound user). cbv zeta.
        by destruct (validates _).
      * unfold likeRecipe, try_catch, findById. run. by rewrite Hcast, Hfound.
    + unfold likeRecipe, try_catch, findById. run. by rewrite Hcast.
  - intros _. rewrite createRecipe_outcome. cbv zeta. repeat case_match; reflexivity.
  - intros _. destruct (castObjectId id) as [oid |] eqn:Hcast.
    2: { left. unfold updateRecipe, try_catch, findById. run. by rewrite Hcast. }
    destruct (recipes st !! oid) as [recipe |] eqn:Hfound.
    2: { left. unfold updateRecipe, try_catch, findById. run.
         by rewrite Hcast, Hfound. }
    rewrite (updateRecipe_found st id oid recipe Hcast Hfound).
    destruct (negb (isAdmin user) && negb (isOwner recipe user)) eqn:Hgate;
      [by left |].
    assert (Hsame : destroyed
              (try_catch
                 (recipe0 ← handleImage file body recipe;
                  recipe1 ← updateIngredients (updateIngredientsArray body)
                              (updateFields body recipe0);
                  _ ← save false recipe1;
                  respond 200 (Updated "Recipe updated successfully" recipe1))
                 "Server error" st).2
            = destroyed (handleImage file body recipe st).2).
    { unfold try_catch. run.
      destruct (handleImage file body recipe st) as [[e | r1] st1]; [done |].
      destruct (updateIngredients_frame (updateIngredientsArray body)
                  (updateFields body r1) st1) as [E _].
      destruct (updateIngredients _ _ st1) as [[e | r2] st2]; simpl in E; subst st2;
        [done |].
      unfold save. repeat case_match; simplify_eq/=; done. }
    destruct (handleImage_destroyed file body recipe st) as [D | [Hconf D]].
    + left. by rewrite Hsame.
    + right. exists oid, recipe. split_and!; [done | done | by apply gate_open_inv |].
      split; [done |]. destruct D as (url & ? & ? & ? & D). exists url.
      split_and!; try done. by rewrite Hsame.
  - destruct (castObjectId id) as [oid |] eqn:Hcast.
    2: { intros _. unfold deleteRecipe, try_catch, findById. run. by rewrite Hcast. }
    destruct (recipes st !! oid) as [recipe |] eqn:Hfound.
    2: { intros _. unfold deleteRecipe, try_catch, findById. run.
         by rewrite Hcast, Hfound. }
    destruct (negb (isAdmin user) && negb (isOwner recipe user)) eqn:Hgate.
    { intros _. by rewrite (deleteRecipe_found st id oid recipe Hcast Hfound), Hgate. }
    rewrite (deleteRecipe_outcome st id oid recipe Hcast Hfound user Hgate).
    destruct (nonempty _ && _); [| intros Hne; by destruct Hne].
    destruct (destroy_resolves _); [intros Hne; by destruct Hne | done].
Qed.

(** X11. A request that is not answered 200 (201 for [POST /]) changes no
    recipe, and no request at all changes a user.  It destroys no image
    either, unless it is an update: an update that has had the image of
    its recipe destroyed at the host and fails after that is answered 500
    with the image gone and the recipe, which still names it, as it was.
    A delete destroys the image before it deletes the recipe; with
    [deleteOne] taken not to fail, a delete fails only where the host
    refuses, and then nothing is destroyed. *)
Theorem failed_requests_leave_the_documents `{W : Services}
    (req : Request) (st : State) :
  let '(res, st') := handle req st in
  users st' = users st
  ∧ (match req with
     | CreateRecipe _ _ _ _ => status res ≠ 201
     | _ => status res ≠ 200
     end →
     recipes st' = recipes st
     ∧ match req with
       | UpdateRecipe user id _ _ =>
           destroyed st' = destroyed st
           ∨ ∃ oid recipe,
               castObjectId id = Some oid
               ∧ recipes st !! oid = Some recipe
               ∧ (User._id user = Recipe.createdBy recipe
                  ∨ User.email user = "admin@gmail.com")
               ∧ destroyed_image recipe st st'
       | _ => destroyed st' = destroyed st
       end).
Proof.
  pose proof (handle_users req st) as Hu.
  pose proof (handle_failed_recipes req st) as Hr.
  pose proof (handle_failed_destroyed req st) as Hd.
  destruct (handle req st) as [res st']. simpl in *.
  split; [exact Hu |]. intros Hne.
  split; [apply Hr; by destruct req | apply Hd; by destruct req].
Qed.

(** An update by the creator that clears the image and then fails on an
    ingredient that is not a text: 500, the recipe as it was, its image
    destroyed at the host. *)
Lemma failed_requests_leave_the_documents_witness :
  let req := UpdateRecipe alice pasta_id None clear_then_fail_body in
  let '(res, st') := @handle sample req pantry in
  res = mkResponse 500 (Message "Server error")
  ∧ users st' = users pantry
  ∧ recipes st' = recipes pantry
  ∧ destroyed st' = ["recipe-17"]
  ∧ (destroyed st' = destroyed pantry
     ∨ ∃ oid recipe,
         @castObjectId sample pasta_id = Some oid
         ∧ recipes pantry !! oid = Some recipe
         ∧ (User._id alice = Recipe.createdBy recipe
            ∨ User.email alice = "admin@gmail.com")
         ∧ @destroyed_image sample recipe pantry st').
Proof.
  cbv zeta.
  pose proof (@failed_requests_leave_the_documents sample
                (UpdateRecipe alice pasta_id None clear_then_fail_body) pantry) as H.
  assert (E : (@handle sample (UpdateRecipe alice pasta_id None clear_then_fail_body)
                 pantry).1 = mkResponse 500 (Message "Server error"))
    by (vm_compute; reflexivity).
  assert (D : destroyed (@handle sample
                 (UpdateRecipe alice pasta_id None clear_then_fail_body) pantry).2
              = ["recipe-17"]) by (vm_compute; reflexivity).
  destruct (@handle sample (UpdateRecipe alice pasta_id None clear_then_fail_body)
              pantry) as [res st'].
  simpl in E, D. destruct H as [Hu H]. subst res.
  destruct H as [Hr Hd]; [simpl; discriminate |].
  split_and!; [reflexivity | exact Hu | exact Hr | exact D | exact Hd].
Defined.
